(** * AbbyyPdfToDocx: the PDF-to-DOCX conversion tool, two revisions

    A shallow embedding of the two revisions of the tool
    ([api/app/clients/tools/structured/AbbyyPdfToDocx.js], the older one,
    which still accepts a local path and a file identifier, and the later
    one, which mints a signed URL) and the properties of their input
    resolution, poll loop and result packaging.

    The tool is glue around calls that leave the program: the host's file
    registry, the storage strategy, HTTP, the clock and the timer.  Those
    are an environment [env] that answers every call from the history of
    the calls made so far; the tool itself is a computation in a small
    trace-and-exception monad over that environment. *)

From Stdlib Require Import String Ascii List Bool ZArith QArith Qminmax Lia.
From Stdlib Require Import DecimalString.
Import ListNotations.
Local Open Scope string_scope.

(** ** JavaScript values *)

Module JS.

(** A JavaScript number: a finite double as the rational it denotes, or one
    of the three non-finite values.  Every number this program computes
    (differences of millisecond timestamps, the delays 1500 * 1.5^n below
    7000) is exact in double precision. *)
Inductive num : Type :=
| Fin (q : Q)
| NaN
| PosInf
| NegInf.

(** Plain data: what JSON.parse, the host's schema and the registry's lean
    records produce.  An array is an object whose [isArray] flag is set and
    whose elements sit under the keys "0", "1", ...; a string is a sequence
    of code units, one [ascii] each. *)
#[local] Set Warnings "-register-all".
Inductive value : Type :=
| JUndef
| JNull
| JBool (b : bool)
| JNum (n : num)
| JStr (s : string)
| JObj (isArray : bool) (props : list (string * value)).

Definition obj (props : list (string * value)) : value := JObj false props.
Definition arr (elems : list (string * value)) : value := JObj true elems.
Definition int (z : Z) : value := JNum (Fin (inject_Z z)).

(** ToBoolean. *)
Definition truthy (v : value) : bool :=
  match v with
  | JUndef | JNull => false
  | JBool b => b
  | JNum (Fin q) => negb (Qnum q =? 0)%Z
  | JNum NaN => false
  | JNum _ => true
  | JStr s => negb (s =? "")
  | JObj _ _ => true
  end.

Definition nullish (v : value) : bool :=
  match v with JUndef | JNull => true | _ => false end.

(** [typeof v === 'string'] and [typeof v === 'object'] (null included). *)
Definition typeof_string (v : value) : bool :=
  match v with JStr _ => true | _ => false end.

Definition typeof_object (v : value) : bool :=
  match v with JNull | JObj _ _ => true | _ => false end.

Fixpoint assoc (k : string) (props : list (string * value)) : option value :=
  match props with
  | [] => None
  | (k', v) :: rest => if k =? k' then Some v else assoc k rest
  end.

Fixpoint assign (k : string) (x : value) (props : list (string * value))
  : list (string * value) :=
  match props with
  | [] => [(k, x)]
  | (k', v) :: rest =>
      if k =? k' then (k, x) :: rest else (k', v) :: assign k x rest
  end.

(** The canonical array index a property key denotes, if any. *)
Definition digit (c : ascii) : option nat :=
  let n := nat_of_ascii c in
  if (48 <=? n)%nat && (n <=? 57)%nat then Some (n - 48)%nat else None.

Fixpoint digits (s : string) (acc : nat) : option nat :=
  match s with
  | EmptyString => Some acc
  | String c rest =>
      match digit c with
      | Some d => digits rest (10 * acc + d)%nat
      | None => None
      end
  end.

Definition key_index (k : string) : option nat :=
  match k with
  | EmptyString => None
  | String "0" EmptyString => Some 0%nat
  | String "0" _ => None
  | _ => digits k 0
  end.

(** [v.k] (or [v[k]]) on a value that is neither null nor undefined.  The
    program reads data properties and the index 0 only, never [length] or a
    method through this path. *)
Definition field (v : value) (k : string) : value :=
  match v with
  | JObj _ props =>
      match assoc k props with Some x => x | None => JUndef end
  | JStr s =>
      match key_index k with
      | Some i =>
          match String.get i s with
          | Some c => JStr (String c EmptyString)
          | None => JUndef
          end
      | None => JUndef
      end
  | _ => JUndef
  end.

(** [v?.k]: undefined on null and undefined. *)
Definition opt_field (v : value) (k : string) : value := field v k.

(** [v.k = x] on an object; the program assigns to the payload only. *)
Definition set_field (v : value) (k : string) (x : value) : value :=
  match v with
  | JObj a props => JObj a (assign k x props)
  | _ => v
  end.

(** [a || b] and [a ?? b]. *)
Definition or_else (a b : value) : value := if truthy a then a else b.
Definition coalesce (a b : value) : value := if nullish a then b else a.

(** [v === 'lit'] against a string literal. *)
Definition is_str (v : value) (lit : string) : bool :=
  match v with JStr s => s =? lit | _ => false end.

(** String.prototype.endsWith. *)
Definition endsWith (s suffix : string) : bool :=
  let n := String.length s in
  let m := String.length suffix in
  (m <=? n)%nat && (substring (n - m) m s =? suffix).

(** String.prototype.indexOf, -1 as [None]. *)
Definition indexOf (s pat : string) : option nat := String.index 0 pat s.

(** [s.substring(i)]. *)
Definition substring_from (i : nat) (s : string) : string :=
  substring i (String.length s - i) s.

(** [s.replace(/[.*+?^${}()|[\]\\]/g, '\\$&')]: a backslash before each
    character that is special in a regular expression. *)
Definition regexp_special (c : ascii) : bool :=
  existsb (Ascii.eqb c)
    ["."; "*"; "+"; "?"; "^"; "$"; "{"; "}"; "("; ")"; "|"; "["; "]"; "\"]%char.

Fixpoint escapeRegExp (s : string) : string :=
  match s with
  | EmptyString => EmptyString
  | String c rest =>
      if regexp_special c then String "\" (String c (escapeRegExp rest))
      else String c (escapeRegExp rest)
  end.

End JS.
Import JS.

(** ** The environment: configuration, built-ins, host and network *)

(** The registry query the tool builds.  Both ask for the caller's records of
    type [/^application\/pdf$/], sorted by [{ updatedAt: -1 }], without the
    [text] field. *)
Inductive file_query : Type :=
| LatestPdf (user : value) (name : option (string * string))
    (** older revision; with a name hint, [$or] of the exact file name and
        the case-insensitive regular expression on the path, given here by
        its escaped source *)
| LatestPdfWithPath (user : value)
    (** later revision: [filepath: { $exists: true, $ne: null }] *).

(** The calls that leave the program, with their arguments. *)
Inductive event : Type :=
| EvFindFileById (file_id : value)
| EvGetFiles (q : file_query)
| EvGetFileURL (fileName : string) (userId : value)
| EvFetch (url : value)
    (** [axios.get(url, { responseType: 'arraybuffer' })] and the Buffer
        made of its data *)
| EvReadFile (filePath : value)
    (** [fs.readFile] of the path made absolute *)
| EvStart (buffer language : value) (exportFormat : string)
    (** the multipart POST of [startProcess]; its answer is the body *)
| EvGetTaskStatus (taskId : value)
    (** the GET of [getStatus]; its answer is the body *)
| EvDateNow
| EvSetTimeout (delay : Q).

(** A history is the list of the calls made so far, the latest first. *)
Definition history : Type := list event.

Record env : Type := {
  (** process configuration: the two credentials, a string or undefined *)
  APP_ID : value;
  APP_PWD : value;
  (** built-ins and libraries; [None] is a throw *)
  JSON_parse : string -> option value;
  XMLParser_parse : value -> option value;
  ToNumber : value -> num;          (** on strings and objects *)
  ToString : value -> string;       (** on values that are not strings *)
  URL_pathname : value -> option string;
  Buffer_from_base64 : value -> option value;
  Buffer_toString_base64 : value -> value;
  (** [getStrategyFunctions(getFileStrategy(appConfig, ...))]: whether the
      strategy's [getFileURL] is a function; [None] is a throw *)
  strategy_getFileURL : value -> option bool;
  (** host and network: the answer to a call after a history; [None] is a
      throw or a rejected promise *)
  answer : history -> event -> option value;
  (** [Date.now()], in milliseconds *)
  clock : history -> Z
}.

(** ** Computations *)

Inductive error : Type :=
| MissingCredentials   (** 'Missing ABBYY credentials (...)' *)
| NoInput              (** 'No input provided. Pass one of: ...' *)
| NoPdfBytes           (** 'No PDF bytes. Provide ...' *)
| Malformed            (** 'Malformed ABBYY response' *)
| ProcessingFailed     (** 'ABBYY processing failed' *)
| Timeout              (** 'ABBYY timeout' *)
| TypeError            (** a property read on null or undefined, a call of
                           something that is not a function *)
| Thrown (what : string)   (** a built-in threw *)
| Rejected (e : event)     (** a host or network call threw *).

(** How a computation ends: with a value, with an exception, or still
    looping when the fuel of the model ran out. *)
Inductive res (A : Type) : Type :=
| Ok (a : A)
| Throw (e : error)
| Spin.
Arguments Ok {A} a.
Arguments Throw {A} e.
Arguments Spin {A}.

Definition M (A : Type) : Type := history -> res A * history.

Definition ret {A} (a : A) : M A := fun h => (Ok a, h).
Definition throw {A} (e : error) : M A := fun h => (Throw e, h).
Definition spin {A} : M A := fun h => (Spin, h).

Definition bind {A B} (m : M A) (f : A -> M B) : M B :=
  fun h =>
    match m h with
    | (Ok a, h') => f a h'
    | (Throw e, h') => (Throw e, h')
    | (Spin, h') => (Spin, h')
    end.

Notation "x <- m ;; k" := (bind m (fun x => k))
  (at level 61, m at next level, right associativity).
Notation "m ;;; k" := (bind m (fun _ => k))
  (at level 61, right associativity).

Section Calls.
Variable E : env.

(** A call whose failure the caller catches. *)
Definition attempt (e : event) : M (option value) :=
  fun h => (Ok (answer E h e), e :: h).

(** A call whose failure propagates. *)
Definition call (e : event) : M value :=
  fun h =>
    match answer E h e with
    | Some v => (Ok v, e :: h)
    | None => (Throw (Rejected e), e :: h)
    end.

Definition Date_now : M Z := fun h => (Ok (clock E h), EvDateNow :: h).

(** [await new Promise((r) => setTimeout(r, delay))] *)
Definition sleep (delay : Q) : M unit :=
  fun h => (Ok tt, EvSetTimeout delay :: h).

(** ToNumber, as the relational operators apply it. *)
Definition to_num (v : value) : num :=
  match v with
  | JNum n => n
  | JUndef => NaN
  | JNull => Fin 0
  | JBool b => Fin (if b then 1 else 0)
  | _ => ToNumber E v
  end.

(** [elapsed > t] for a finite [elapsed]. *)
Definition exceeds (elapsed : Z) (t : value) : bool :=
  match to_num t with
  | Fin q => negb (Qle_bool (inject_Z elapsed) q)
  | NegInf => true
  | NaN | PosInf => false
  end.

(** A value inside a template literal. *)
Definition to_str (v : value) : string :=
  match v with JStr s => s | _ => ToString E v end.
End Calls.

(** The delay after one more iteration: [Math.min(delay * 1.5, 7000)]. *)
Definition next_delay (delay : Q) : Q := Qred (Qmin (delay * (3 # 2)) 7000).

(** What the tool hands back: [JSON.stringify] of an object. *)
Inductive output : Type :=
| Stringified (v : value).

(** ** What the two revisions share *)

Section Shared.
Variable E : env.

(** The credentials test that opens [_call]:
    [if (!APP_ID || !APP_PWD) throw ...]. *)
Definition credentials_missing : bool :=
  negb (truthy (APP_ID E)) || negb (truthy (APP_PWD E)).

(** "Normalize payload: accept object, JSON string, filename string, or
    empty": a string is parsed, and wrapped as a file name when the parse
    throws; whatever is then not an object becomes the empty object. *)
Definition normalize (input : value) : value :=
  let payload :=
    match input with
    | JStr s =>
        match JSON_parse E s with
        | Some parsed => parsed
        | None => obj [("filename", input)]
        end
    | _ => input
    end in
  if nullish payload || negb (typeof_object payload) then obj [] else payload.

(** The block both fallbacks end with: the record's path becomes the
    download URL, and its name the file name unless the payload has one. *)
Definition adopt (payload url name : value) : value :=
  let payload := set_field payload "fileUrl" url in
  if truthy (field payload "filename") then payload
  else set_field payload "filename" name.

(** [payload.filename && payload.filename.endsWith('.docx')
     ? payload.filename : 'converted.docx'] *)
Definition output_filename (payload : value) : M value :=
  let name := field payload "filename" in
  if truthy name then
    match name with
    | JStr s => ret (if endsWith s ".docx" then name else JStr "converted.docx")
    | _ => throw TypeError
    end
  else ret (JStr "converted.docx").

Definition getStatus (taskId : value) : M value :=
  call E (EvGetTaskStatus taskId).
End Shared.

(** ** The older revision *)

Module Old.
Section Tool.
Variable E : env.

Record tool : Type := { userId : value }.

(** [constructor(fields = {})] *)
Definition constructor (fields : value) : res tool :=
  match fields with
  | JUndef => Ok {| userId := JUndef |}
  | JNull => Throw TypeError
  | _ => Ok {| userId := field fields "userId" |}
  end.

Definition resolvePdfBytes (payload : value) : M value :=
  if truthy (field payload "base64") then
    match Buffer_from_base64 E (field payload "base64") with
    | Some buffer => ret buffer
    | None => throw (Thrown "Buffer.from")
    end
  else if truthy (field payload "fileUrl") then
    call E (EvFetch (field payload "fileUrl"))
  else if truthy (field payload "filePath") then
    call E (EvReadFile (field payload "filePath"))
  else throw NoPdfBytes.

(** [const { language = 'eng', exportFormat = 'docx' } = opts] *)
Definition startProcess (buffer language : value) (exportFormat : string)
  : M value :=
  let language := match language with JUndef => JStr "eng" | _ => language end in
  call E (EvStart buffer language exportFormat).

Definition downloadResult (resultUrl : value) : M value :=
  call E (EvFetch resultUrl).

Definition parseTask (xmlStr : value) : M value :=
  match XMLParser_parse E xmlStr with
  | None => throw (Thrown "XMLParser.parse")
  | Some parsed =>
      let task := opt_field (opt_field parsed "response") "task" in
      if negb (truthy task) || negb (truthy (field task "Id"))
      then throw Malformed
      else ret task
  end.

(** "If a file_id was provided, resolve to a filepath/URL" *)
Definition resolve_file_id (payload : value) : M value :=
  if truthy (field payload "file_id")
     && negb (truthy (field payload "fileUrl"))
     && negb (truthy (field payload "filePath"))
     && negb (truthy (field payload "base64"))
  then
    found <- attempt E (EvFindFileById (field payload "file_id")) ;;
    match found with
    | Some file =>
        if truthy (opt_field file "filepath")
        then ret (adopt payload (field file "filepath") (field file "filename"))
        else ret payload
    | None => ret payload
    end
  else ret payload.

Definition hasSource (payload : value) : bool :=
  truthy (field payload "base64")
  || truthy (field payload "fileUrl")
  || truthy (field payload "filePath").

(** The [$or] of the filter, built when there is a name hint.  The hint
    is escaped outside the [try], so a hint that is not a string throws. *)
Definition name_filter (nameHint : value) : M (option (string * string)) :=
  if truthy nameHint then
    match nameHint with
    | JStr s => ret (Some (s, escapeRegExp s))
    | _ => throw TypeError
    end
  else ret None.

(** "If still no bytes source, attempt to find the latest PDF for this
    user (optionally by name)". *)
Definition resolve_latest (this : tool) (payload : value) : M value :=
  if negb (hasSource payload) && truthy (userId this) then
    name <- name_filter (field payload "filename") ;;
    found <- attempt E (EvGetFiles (LatestPdf (userId this) name)) ;;
    match found with
    | Some files =>
        let latest := opt_field files "0" in
        if truthy (opt_field latest "filepath")
        then ret (adopt payload (field latest "filepath") (field latest "filename"))
        else ret payload
    | None => ret payload
    end
  else ret payload.

(** The [while (true)] of [_call], one unit of fuel an iteration. *)
Fixpoint poll (fuel : nat) (start : Z) (timeoutMs task : value) (delay : Q)
  : M value :=
  match fuel with
  | O => spin
  | S fuel' =>
      if is_str (field task "Status") "Completed"
         && truthy (field task "resultUrl")
      then ret task
      else if is_str (field task "Status") "ProcessingFailed"
      then throw ProcessingFailed
      else
        now <- Date_now E ;;
        if exceeds E (now - start) timeoutMs then throw Timeout
        else
          sleep delay ;;;
          statusXml <- getStatus E (field task "Id") ;;
          task' <- parseTask statusXml ;;
          poll fuel' start timeoutMs task' (next_delay delay)
  end.

(** [_call] from "Validate we have a source now" up to the loop: the
    output file name, the task of the submission answer and the start
    time. *)
Definition prepare (payload : value) : M (value * value * Z) :=
  if negb (truthy (field payload "base64"))
     && negb (truthy (field payload "fileUrl"))
     && negb (truthy (field payload "filePath"))
  then throw NoInput
  else
    pdfBuf <- resolvePdfBytes payload ;;
    let language := or_else (field payload "language") (JStr "eng") in
    filename <- output_filename payload ;;
    startXml <- startProcess pdfBuf language "docx" ;;
    task <- parseTask startXml ;;
    start <- Date_now E ;;
    ret (filename, task, start).

(** [timeoutMs = payload.timeoutMs || 6 * 60 * 1000] *)
Definition budget (payload : value) : value :=
  or_else (field payload "timeoutMs") (int (6 * 60 * 1000)).

(** [_call] after the loop. *)
Definition finish (filename task : value) : M output :=
  docxBuf <- downloadResult (field task "resultUrl") ;;
  ret (Stringified (obj
    [("filename", filename);
     ("mime", JStr "application/vnd.openxmlformats-officedocument.wordprocessingml.document");
     ("base64", Buffer_toString_base64 E docxBuf)])).

Definition convert (fuel : nat) (payload : value) : M output :=
  ready <- prepare payload ;;
  let '(filename, task, start) := ready in
  task <- poll fuel start (budget payload) task 1500 ;;
  finish filename task.

(** The sources of the payload, settled: normalization and the two
    registry fallbacks. *)
Definition resolve (this : tool) (input : value) : M value :=
  payload <- resolve_file_id (normalize E input) ;;
  resolve_latest this payload.

Definition _call (this : tool) (fuel : nat) (input : value) : M output :=
  if credentials_missing E then throw MissingCredentials
  else
    payload <- resolve this input ;;
    convert fuel payload.
End Tool.
End Old.

(** ** The later revision *)

Module New.
Section Tool.
Variable E : env.

Record tool : Type := { userId : value; req : value }.

(** [this.userId = fields.req?.user?.id; this.req = fields.req] *)
Definition constructor (fields : value) : res tool :=
  match fields with
  | JUndef => Ok {| userId := JUndef; req := JUndef |}
  | JNull => Throw TypeError
  | _ =>
      Ok {| userId := opt_field (opt_field (field fields "req") "user") "id";
            req := field fields "req" |}
  end.

Definition resolvePdfBytes (payload : value) : M value :=
  if truthy (field payload "base64") then
    match Buffer_from_base64 E (field payload "base64") with
    | Some buffer => ret buffer
    | None => throw (Thrown "Buffer.from")
    end
  else if truthy (field payload "fileUrl") then
    call E (EvFetch (field payload "fileUrl"))
  else throw NoPdfBytes.

(** The object key of a stored path: what follows [/uploads/<userId>/] in
    the path of the URL, when the URL parses and has the marker. *)
Definition key_of_path (originalFilepath userId : value) : option string :=
  if truthy originalFilepath then
    match URL_pathname E originalFilepath with
    | Some pathname =>
        let marker := "/uploads/" ++ to_str E userId ++ "/" in
        match indexOf pathname marker with
        | Some idx => Some (substring_from (idx + String.length marker) pathname)
        | None => None
        end
    | None => None
    end
  else None.

(** Every failure inside is caught and answered with null. *)
Definition getFreshSignedURL (req originalFilepath userId filename : value)
  : M value :=
  let appConfig := opt_field req "config" in
  if negb (truthy appConfig) then ret JNull
  else
    match strategy_getFileURL E appConfig with
    | None | Some false => ret JNull
    | Some true =>
        let objectKey :=
          match key_of_path originalFilepath userId with
          | Some key => if key =? "" then None else Some key
          | None => None
          end in
        let objectKey :=
          match objectKey with
          | Some key => Some key
          | None =>
              if truthy userId && truthy filename
              then Some (to_str E userId ++ "/" ++ to_str E filename)
              else None
          end in
        match objectKey with
        | None | Some EmptyString => ret JNull
        | Some key =>
            fresh <- attempt E (EvGetFileURL key userId) ;;
            match fresh with
            | Some freshUrl => ret (coalesce freshUrl JNull)
            | None => ret JNull
            end
        end
    end.

(** [language] is overwritten before use. *)
Definition startProcess (buffer language : value) (exportFormat : string)
  : M value :=
  call E (EvStart buffer (JStr "English,Vietnamese") exportFormat).

Definition parseTask (json : value) : M value :=
  let task := json in
  if negb (truthy task) || negb (truthy (field task "taskId"))
  then throw Malformed
  else ret task.

(** "If no source provided, try most recent uploaded PDF for this user" *)
Definition resolve_latest (this : tool) (payload : value) : M value :=
  if negb (truthy (field payload "base64"))
     && negb (truthy (field payload "fileUrl"))
     && truthy (userId this)
  then
    found <- attempt E (EvGetFiles (LatestPdfWithPath (userId this))) ;;
    match found with
    | Some files =>
        let latest := opt_field files "0" in
        if truthy (opt_field latest "filepath") then
          freshUrl <- getFreshSignedURL (req this) (field latest "filepath")
                        (userId this) (field latest "filename") ;;
          ret (adopt payload (coalesce freshUrl (field latest "filepath"))
                 (field latest "filename"))
        else ret payload
    | None => ret payload
    end
  else ret payload.

Definition timeoutMs : Z := 60 * 60 * 1000.

(** [task.status === 'Completed' && task.resultUrls[0]], as a test; the
    reads throw on a task, or on result URLs, that are null or undefined. *)
Definition completed (task : value) : M bool :=
  if nullish task then throw TypeError
  else if is_str (field task "status") "Completed" then
    if nullish (field task "resultUrls") then throw TypeError
    else ret (truthy (field (field task "resultUrls") "0"))
  else ret false.

(** The [while (true)] of [_call]; the body of a status answer is the next
    task as it comes. *)
Fixpoint poll (fuel : nat) (start : Z) (task : value) (delay : Q) : M value :=
  match fuel with
  | O => spin
  | S fuel' =>
      done <- completed task ;;
      if done then ret task
      else if is_str (field task "status") "ProcessingFailed"
      then throw ProcessingFailed
      else
        now <- Date_now E ;;
        if (timeoutMs <? now - start)%Z then throw Timeout
        else
          sleep delay ;;;
          task' <- getStatus E (field task "taskId") ;;
          poll fuel' start task' (next_delay delay)
  end.

(** [_call] from "Validate we have a source now" up to the loop: the
    output file name, the task of the submission answer and the start
    time. *)
Definition prepare (payload : value) : M (value * value * Z) :=
  if negb (truthy (field payload "base64"))
     && negb (truthy (field payload "fileUrl"))
  then throw NoInput
  else
    pdfBuf <- resolvePdfBytes payload ;;
    let language := or_else (field payload "language") (JStr "English,Vietnamese") in
    filename <- output_filename payload ;;
    startJSON <- startProcess pdfBuf language "docx" ;;
    task <- parseTask startJSON ;;
    start <- Date_now E ;;
    ret (filename, task, start).

(** [_call] after the loop. *)
Definition finish (filename task : value) : M output :=
  ret (Stringified (obj
    [("filename", filename);
     ("fileUrl", field (field task "resultUrls") "0")])).

Definition convert (fuel : nat) (payload : value) : M output :=
  ready <- prepare payload ;;
  let '(filename, task, start) := ready in
  task <- poll fuel start task 1500 ;;
  finish filename task.

Definition resolve (this : tool) (input : value) : M value :=
  resolve_latest this (normalize E input).

Definition _call (this : tool) (fuel : nat) (input : value) : M output :=
  if credentials_missing E then throw MissingCredentials
  else
    payload <- resolve this input ;;
    convert fuel payload.
End Tool.
End New.

(** ** Scripted environments for concrete runs *)

Module Script.

Definition is_status_query (e : event) : bool :=
  match e with EvGetTaskStatus _ => true | _ => false end.

Definition is_sleep (e : event) : bool :=
  match e with EvSetTimeout _ => true | _ => false end.

Definition is_clock_read (e : event) : bool :=
  match e with EvDateNow => true | _ => false end.

Definition count (p : event -> bool) (h : history) : nat :=
  List.length (filter p h).

(** A script: the credentials, the JSON texts the run may meet with their
    parses, what the registry and the storage strategy answer, the body of
    the submission answer, the bodies of the successive status answers, the
    answer to every status query after those ([None]: the query is
    rejected), and the successive readings of the clock. *)
Record script : Type := {
  credentials : value * value;
  json_texts : list (string * value);
  file_by_id : option value;
  files : option value;
  signed_url : option value;
  submitted : option value;
  statuses : list value;
  afterwards : option value;
  readings : nat -> Z
}.

(** The environment that plays a script.  Bodies arrive parsed and
    downloads answer a one-field object naming their URL. *)
Definition play (s : script) : env := {|
  APP_ID := fst (credentials s);
  APP_PWD := snd (credentials s);
  JSON_parse := fun text => assoc text (json_texts s);
  XMLParser_parse := fun body => Some body;
  ToNumber := fun _ => NaN;
  ToString := fun _ => "[object Object]";
  URL_pathname := fun _ => None;
  Buffer_from_base64 := fun b => Some (obj [("decoded", b)]);
  Buffer_toString_base64 := fun b => obj [("encoded", b)];
  strategy_getFileURL := fun _ => Some true;
  answer := fun h e =>
    match e with
    | EvFindFileById _ => file_by_id s
    | EvGetFiles _ => files s
    | EvGetFileURL _ _ => signed_url s
    | EvFetch url => Some (obj [("bytes of", url)])
    | EvReadFile path => Some (obj [("bytes of", path)])
    | EvStart _ _ _ => submitted s
    | EvGetTaskStatus _ =>
        match nth_error (statuses s) (count is_status_query h) with
        | Some body => Some body
        | None => afterwards s
        end
    | EvDateNow | EvSetTimeout _ => None
    end;
  clock := fun h => readings s (count is_clock_read h)
|}.

End Script.


(** ** The host's file registry *)

Module Registry.

(** Modelled from the spec: the host's file registry, whose lookup [getFiles]
    lives in [~/models/File] and is not among the tool's sources.  The spec
    gives an uploaded file record an owner, a mime type, a storage path, a
    file name and a last-updated timestamp, and has the lookup answer the
    records matching owner, type and an optional file name, the most recently
    updated first. *)
Record file_record : Type := {
  owner : string;
  mime : string;
  filepath : value;
  filename : value;
  updatedAt : Z
}.

Section Lookup.
(** The optional file name match, on the hint and its escaped form. *)
Variable name_matches : string * string -> file_record -> bool.

Definition owned_pdf (user : value) (r : file_record) : bool :=
  is_str user (owner r) && (mime r =? "application/pdf").

Definition matches (q : file_query) (r : file_record) : bool :=
  match q with
  | LatestPdf user None => owned_pdf user r
  | LatestPdf user (Some name) => owned_pdf user r && name_matches name r
  | LatestPdfWithPath user => owned_pdf user r && negb (nullish (filepath r))
  end.

(** Descending order of the timestamp, by insertion. *)
Fixpoint insert (r : file_record) (sorted : list file_record)
  : list file_record :=
  match sorted with
  | [] => [r]
  | x :: rest =>
      if (updatedAt x <=? updatedAt r)%Z then r :: sorted
      else x :: insert r rest
  end.

Definition getFiles (db : list file_record) (q : file_query)
  : list file_record :=
  fold_right insert [] (filter (matches q) db).
End Lookup.

(** A record and a result list as the values the tool receives. *)
Definition encode (r : file_record) : value :=
  obj [("user", JStr (owner r));
       ("type", JStr (mime r));
       ("filepath", filepath r);
       ("filename", filename r);
       ("updatedAt", int (updatedAt r))].

Fixpoint elements (i : nat) (l : list file_record) : list (string * value) :=
  match l with
  | [] => []
  | r :: rest =>
      (NilEmpty.string_of_uint (Nat.to_uint i), encode r) :: elements (S i) rest
  end.

Definition encode_all (l : list file_record) : value := arr (elements 0 l).

End Registry.

(** ** Vocabulary of the properties *)

(** The n-th delay of the loop. *)
Fixpoint backoff (n : nat) : Q :=
  match n with
  | O => 1500
  | S k => next_delay (backoff k)
  end.

(** The delays slept in a history, in the order they were slept. *)
Definition sleeps_of (h : history) : list Q :=
  flat_map (fun e => match e with EvSetTimeout d => [d] | _ => [] end) (rev h).

Definition is_job_call (e : event) : bool :=
  match e with
  | EvFetch _ | EvReadFile _ | EvStart _ _ _ | EvGetTaskStatus _ => true
  | _ => false
  end.

Definition is_registry_call (e : event) : bool :=
  match e with
  | EvFindFileById _ | EvGetFiles _ | EvGetFileURL _ _ => true
  | _ => false
  end.

(** The body of the latest answer of the service in a history: that of the
    submission or of a status query. *)
Fixpoint last_report (E : env) (h : history) : option value :=
  match h with
  | [] => None
  | e :: before =>
      match e with
      | EvStart _ _ _ | EvGetTaskStatus _ => answer E before e
      | _ => last_report E before
      end
  end.

(** Normalization as the claim words it: an object is itself, a string that
    parses to an object is that object, anything else is the empty request. *)
Definition normalize_claimed (E : env) (input : value) : value :=
  match input with
  | JObj _ _ => input
  | JStr s =>
      match JSON_parse E s with
      | Some (JObj a props) => JObj a props
      | _ => obj []
      end
  | _ => obj []
  end.

(** The output file name as the claim words it, from the requested name. *)
Definition filename_claimed (requested : value) : value :=
  match requested with
  | JStr s => if endsWith s ".docx" then requested else JStr "converted.docx"
  | _ => JStr "converted.docx"
  end.

(** The task states in which an iteration gets as far as the clock. *)
Definition old_pending (task : value) : bool :=
  negb (is_str (field task "Status") "Completed" && truthy (field task "resultUrl"))
  && negb (is_str (field task "Status") "ProcessingFailed").

Definition new_pending (task : value) : bool :=
  negb (nullish task)
  && (if is_str (field task "status") "Completed"
      then negb (nullish (field task "resultUrls"))
           && negb (truthy (field (field task "resultUrls") "0"))
      else true)
  && negb (is_str (field task "status") "ProcessingFailed").


(** A computation [grows] a history by calls that satisfy [P]: whatever way
    it ends, its final history is the initial one with such calls on top. *)
Definition grows {A} (P : event -> Prop) (m : M A) : Prop :=
  forall h r h', m h = (r, h') -> exists l, h' = (l ++ h)%list /\ Forall P l.

Definition is_object (v : value) : bool :=
  match v with JObj _ _ => true | _ => false end.

(** A stage [keeps] the payload an object and a requested file name in
    place. *)
Definition keeps (p p' : value) : Prop :=
  is_object p' = true
  /\ (truthy (field p "filename") = true ->
      field p' "filename" = field p "filename").



(** The registry query of each revision for a caller and a payload.  The
    older revision adds the name filter when the payload has a (non-empty)
    file name. *)
Definition old_query (user payload : value) : file_query :=
  LatestPdf user
    match field payload "filename" with
    | JStr s => if (s =? "")%string then None else Some (s, escapeRegExp s)
    | _ => None
    end.

Definition new_query (user : value) : file_query := LatestPdfWithPath user.

(** What a fallback makes of a registry result: it looks at the first
    element, and adopts it if it has a path. *)
Definition first_of (files : value) : value := opt_field files "0".

Definition no_explicit_source (payload : value) : Prop :=
  truthy (field payload "base64") = false
  /\ truthy (field payload "fileUrl") = false
  /\ truthy (field payload "filePath") = false
  /\ truthy (field payload "file_id") = false.

(** Kinds of calls, for counting them in a history. *)
Definition is_start (e : event) : bool :=
  match e with EvStart _ _ _ => true | _ => false end.

Definition is_fetch (e : event) : bool :=
  match e with EvFetch _ | EvReadFile _ => true | _ => false end.

(** The calls of the loop: clock, timer, status query. *)
Definition is_loop_call (e : event) : bool :=
  match e with
  | EvDateNow | EvSetTimeout _ | EvGetTaskStatus _ => true
  | _ => false
  end.

(** A payload whose file name the string methods can be called on: absent
    (falsy), or a string. *)
Definition name_is_text (payload : value) : Prop :=
  truthy (field payload "filename") = true ->
  typeof_string (field payload "filename") = true.

(** Two payloads that differ at most in the two fields a fallback writes. *)
Definition same_elsewhere (p p' : value) : Prop :=
  is_object p' = true
  /\ forall k, k <> "fileUrl" -> k <> "filename" -> field p' k = field p k.

(** A computation [throws_only] errors that satisfy [Q]. *)
Definition throws_only {A} (Q : error -> Prop) (m : M A) : Prop :=
  forall h e h', m h = (Throw e, h') -> Q e.

(** The errors the tool itself raises by name, and the ones that come from
    its built-ins and calls; [NoPdfBytes] is not among them. *)
Definition reachable_error (e : error) : Prop :=
  match e with
  | NoPdfBytes => False
  | _ => True
  end.

(** The same without the timeout. *)
Definition not_timeout (e : error) : Prop :=
  match e with
  | Timeout => False
  | _ => True
  end.

(** What the status queries of a history ask about. *)
Definition asks_known_task (e : event) : Prop :=
  match e with
  | EvGetTaskStatus id => truthy id = true
  | _ => True
  end.

(** A submission in a given language, as a docx export. *)
Definition submits_in (language : value) (e : event) : Prop :=
  match e with
  | EvStart _ l f => l = language /\ f = "docx"
  | _ => True
  end.

(** A computation [returns]: it does not depend on the fuel of the model. *)
Definition returns {A} (m : M A) : Prop :=
  forall h h', m h <> (Spin, h').

(** The calls between the validation and the loop once the bytes are at
    hand: a submission of those bytes, and the reading of the clock. *)
Definition submits_bytes (bytes : option value) (e : event) : Prop :=
  match e with
  | EvStart buffer _ _ => bytes = Some buffer
  | EvDateNow => True
  | _ => False
  end.

(** A string without a character that is special in a regular expression,
    and the number of such characters in a string. *)
Fixpoint plain (s : string) : bool :=
  match s with
  | EmptyString => true
  | String c rest => negb (regexp_special c) && plain rest
  end.

Fixpoint specials (s : string) : nat :=
  match s with
  | EmptyString => 0
  | String c rest => (if regexp_special c then 1 else 0) + specials rest
  end.

(** The text a pattern source matches, when every backslash in it escapes
    the character that follows. *)
Fixpoint literal_of (pattern : string) : string :=
  match pattern with
  | String "\" (String c rest) => String c (literal_of rest)
  | String c rest => String c (literal_of rest)
  | EmptyString => EmptyString
  end.

(** What [JSON.stringify] writes of plain data, as [JSON.parse] reads it
    back: a number that is not finite is written as null; a property whose
    value is undefined is left out of an object, and an element that is
    undefined is written as null in an array; everything else is written as
    it is, member by member.  [read_back] is the object a caller gets from
    the text the tool returned. *)
Fixpoint written (v : value) : value :=
  match v with
  | JNum (Fin _) => v
  | JNum _ => JNull
  | JObj false props =>
      JObj false
        ((fix members (l : list (string * value)) : list (string * value) :=
            match l with
            | [] => []
            | (k, JUndef) :: rest => members rest
            | (k, x) :: rest => (k, written x) :: members rest
            end) props)
  | JObj true elems =>
      JObj true
        ((fix elements (l : list (string * value)) : list (string * value) :=
            match l with
            | [] => []
            | (k, JUndef) :: rest => (k, JNull) :: elements rest
            | (k, x) :: rest => (k, written x) :: elements rest
            end) elems)
  | _ => v
  end.

Definition read_back (o : output) : value :=
  match o with Stringified v => written v end.

(** What [getFreshSignedURL] makes of its one call, [getFileURL] for a key
    and the caller: the answer, or null when the call fails or answers null
    or undefined. *)
Definition fresh_answer (E : env) (h : history) (key : string) (user : value) : value :=
  match answer E h (EvGetFileURL key user) with
  | Some freshUrl => coalesce freshUrl JNull
  | None => JNull
  end.

(** ** Scripts of the concrete runs *)

Module Fixtures.
Import Script.

(** Nothing uploaded, nothing answered. *)
Definition silent : script := {|
  credentials := (JStr "app", JStr "secret");
  json_texts := [];
  file_by_id := None;
  files := None;
  signed_url := None;
  submitted := None;
  statuses := [];
  afterwards := None;
  readings := fun _ => 0%Z
|}.

(** The password is not configured. *)
Definition no_password : script := {|
  credentials := (JStr "app", JUndef);
  json_texts := [];
  file_by_id := None;
  files := None;
  signed_url := None;
  submitted := None;
  statuses := [];
  afterwards := None;
  readings := fun _ => 0%Z
|}.

Definition anonymous_old : Old.tool := {| Old.userId := JUndef |}.
Definition anonymous_new : New.tool := {| New.userId := JUndef; New.req := JUndef |}.

(** A caller with one upload, a PDF that was named like a document; the
    service finishes at the first status query.  Bodies for the later
    revision. *)
Definition upload_new : script := {|
  credentials := (JStr "app", JStr "secret");
  json_texts := [];
  file_by_id := None;
  files := Some (arr [("0", obj [("filepath", JStr "https://files.example/uploads/u1/scan.docx");
                                 ("filename", JStr "scan.docx")])]);
  signed_url := None;
  submitted := Some (obj [("taskId", JStr "t1"); ("status", JStr "Queued")]);
  statuses := [obj [("taskId", JStr "t1"); ("status", JStr "Completed");
                    ("resultUrls", arr [("0", JStr "https://ocr.example/result/1")])]];
  afterwards := None;
  readings := fun n => Z.of_nat n
|}.

(** The same, with bodies for the older revision. *)
Definition upload_old : script := {|
  credentials := (JStr "app", JStr "secret");
  json_texts := [];
  file_by_id := None;
  files := Some (arr [("0", obj [("filepath", JStr "https://files.example/uploads/u1/scan.docx");
                                 ("filename", JStr "scan.docx")])]);
  signed_url := None;
  submitted := Some (obj [("response", obj [("task",
                 obj [("Id", JStr "t1"); ("Status", JStr "Queued")])])]);
  statuses := [obj [("response", obj [("task",
                 obj [("Id", JStr "t1"); ("Status", JStr "Completed");
                      ("resultUrl", JStr "https://ocr.example/result/1")])])]];
  afterwards := None;
  readings := fun n => Z.of_nat n
|}.

Definition caller_old : Old.tool := {| Old.userId := JStr "u1" |}.
Definition caller_new : New.tool := {| New.userId := JStr "u1"; New.req := JUndef |}.

(** The service reports a failure at the first status query. *)
Definition failing_new : script := {|
  credentials := (JStr "app", JStr "secret");
  json_texts := [];
  file_by_id := None;
  files := None;
  signed_url := None;
  submitted := Some (obj [("taskId", JStr "t1"); ("status", JStr "Queued")]);
  statuses := [obj [("taskId", JStr "t1"); ("status", JStr "ProcessingFailed")];
               obj [("taskId", JStr "t1"); ("status", JStr "Completed");
                    ("resultUrls", arr [("0", JStr "https://ocr.example/result/1")])]];
  afterwards := None;
  readings := fun n => Z.of_nat n
|}.

Definition failing_old : script := {|
  credentials := (JStr "app", JStr "secret");
  json_texts := [];
  file_by_id := None;
  files := None;
  signed_url := None;
  submitted := Some (obj [("response", obj [("task",
                 obj [("Id", JStr "t1"); ("Status", JStr "Queued")])])]);
  statuses := [obj [("response", obj [("task",
                 obj [("Id", JStr "t1"); ("Status", JStr "ProcessingFailed")])])];
               obj [("response", obj [("task",
                 obj [("Id", JStr "t1"); ("Status", JStr "Completed");
                      ("resultUrl", JStr "https://ocr.example/result/1")])])]];
  afterwards := None;
  readings := fun n => Z.of_nat n
|}.

(** The service reports a failure in its answer to the submission. *)
Definition stillborn_new : script := {|
  credentials := (JStr "app", JStr "secret");
  json_texts := [];
  file_by_id := None;
  files := None;
  signed_url := None;
  submitted := Some (obj [("taskId", JStr "t1"); ("status", JStr "ProcessingFailed")]);
  statuses := [];
  afterwards := None;
  readings := fun n => Z.of_nat n
|}.

Definition stillborn_old : script := {|
  credentials := (JStr "app", JStr "secret");
  json_texts := [];
  file_by_id := None;
  files := None;
  signed_url := None;
  submitted := Some (obj [("response", obj [("task",
                 obj [("Id", JStr "t1"); ("Status", JStr "ProcessingFailed")])])]);
  statuses := [];
  afterwards := None;
  readings := fun n => Z.of_nat n
|}.

(** Tasks and a request as the runs meet them. *)
Definition queued_new : value := obj [("taskId", JStr "t1"); ("status", JStr "Queued")].
Definition queued_old : value := obj [("Id", JStr "t1"); ("Status", JStr "Queued")].
Definition failed_new : value :=
  obj [("taskId", JStr "t1"); ("status", JStr "ProcessingFailed")].
Definition failed_old : value :=
  obj [("Id", JStr "t1"); ("Status", JStr "ProcessingFailed")].
Definition inline_pdf : value := obj [("base64", JStr "JVBERi0xLjQK")].

(** The mocked service: Submitted, Submitted, Completed with its result,
    under a clock that stands still. *)
Definition submitted_new : value :=
  obj [("taskId", JStr "t1"); ("status", JStr "Submitted")].
Definition completed_new : value :=
  obj [("taskId", JStr "t1"); ("status", JStr "Completed");
       ("resultUrls", arr [("0", JStr "https://ocr.example/result/1")])].
Definition submitted_old : value :=
  obj [("Id", JStr "t1"); ("Status", JStr "Submitted")].
Definition completed_old : value :=
  obj [("Id", JStr "t1"); ("Status", JStr "Completed");
       ("resultUrl", JStr "https://ocr.example/result/1")].
Definition body_old (task : value) : value := obj [("response", obj [("task", task)])].

Definition mocked_new : script := {|
  credentials := (JStr "app", JStr "secret");
  json_texts := [];
  file_by_id := None;
  files := None;
  signed_url := None;
  submitted := Some queued_new;
  statuses := [submitted_new; submitted_new; completed_new];
  afterwards := None;
  readings := fun _ => 0%Z
|}.

Definition mocked_old : script := {|
  credentials := (JStr "app", JStr "secret");
  json_texts := [];
  file_by_id := None;
  files := None;
  signed_url := None;
  submitted := Some (body_old queued_old);
  statuses := [body_old submitted_old; body_old submitted_old; body_old completed_old];
  afterwards := None;
  readings := fun _ => 0%Z
|}.

(** The service says Completed before it names the result. *)
Definition bare_completed_new : value :=
  obj [("taskId", JStr "t1"); ("status", JStr "Completed"); ("resultUrls", arr [])].
Definition bare_completed_old : value :=
  obj [("Id", JStr "t1"); ("Status", JStr "Completed")].

Definition late_locator_new : script := {|
  credentials := (JStr "app", JStr "secret");
  json_texts := [];
  file_by_id := None;
  files := None;
  signed_url := None;
  submitted := Some bare_completed_new;
  statuses := [completed_new];
  afterwards := None;
  readings := fun _ => 0%Z
|}.

Definition late_locator_old : script := {|
  credentials := (JStr "app", JStr "secret");
  json_texts := [];
  file_by_id := None;
  files := None;
  signed_url := None;
  submitted := Some (body_old bare_completed_old);
  statuses := [body_old completed_old];
  afterwards := None;
  readings := fun _ => 0%Z
|}.

(** A request in a hurry, and a service that takes five seconds: the clock
    advances two seconds a reading. *)
Definition hurried_request : value :=
  obj [("base64", JStr "JVBERi0xLjQK"); ("timeoutMs", int 1000)].

Definition unhurried_new : script := {|
  credentials := (JStr "app", JStr "secret");
  json_texts := [];
  file_by_id := None;
  files := None;
  signed_url := None;
  submitted := Some queued_new;
  statuses := [submitted_new; completed_new];
  afterwards := None;
  readings := fun n => (2000 * Z.of_nat n)%Z
|}.

(** A service that stays Submitted for ever; the clock advances a second a
    reading for the older revision, a quarter of an hour for the later. *)
Definition endless_old : script := {|
  credentials := (JStr "app", JStr "secret");
  json_texts := [];
  file_by_id := None;
  files := None;
  signed_url := None;
  submitted := Some (body_old queued_old);
  statuses := [];
  afterwards := Some (body_old submitted_old);
  readings := fun n => (1000 * Z.of_nat n)%Z
|}.

Definition endless_new : script := {|
  credentials := (JStr "app", JStr "secret");
  json_texts := [];
  file_by_id := None;
  files := None;
  signed_url := None;
  submitted := Some queued_new;
  statuses := [];
  afterwards := Some submitted_new;
  readings := fun n => (900000 * Z.of_nat n)%Z
|}.

(** The answer to the first status query has lost the task identifier. *)
Definition nameless_new : value := obj [("status", JStr "Queued")].
Definition nameless_old : value := obj [("Status", JStr "Queued")].

Definition lost_identifier_new : script := {|
  credentials := (JStr "app", JStr "secret");
  json_texts := [];
  file_by_id := None;
  files := None;
  signed_url := None;
  submitted := Some queued_new;
  statuses := [nameless_new; completed_new];
  afterwards := None;
  readings := fun _ => 0%Z
|}.

Definition lost_identifier_old : script := {|
  credentials := (JStr "app", JStr "secret");
  json_texts := [];
  file_by_id := None;
  files := None;
  signed_url := None;
  submitted := Some (body_old queued_old);
  statuses := [body_old nameless_old; body_old completed_old];
  afterwards := None;
  readings := fun _ => 0%Z
|}.

(** A registry with three uploads of the caller u1, one of them a picture,
    and one upload of another caller; names match exactly. *)
Definition exact_name (name : string * string) (r : Registry.file_record) : bool :=
  is_str (Registry.filename r) (fst name).

Definition march : Registry.file_record :=
  {| Registry.owner := "u1"; Registry.mime := "application/pdf";
     Registry.filepath := JStr "https://files.example/uploads/u1/march.pdf";
     Registry.filename := JStr "march.pdf"; Registry.updatedAt := 1700000000000 |}.
Definition other : Registry.file_record :=
  {| Registry.owner := "u2"; Registry.mime := "application/pdf";
     Registry.filepath := JStr "https://files.example/uploads/u2/other.pdf";
     Registry.filename := JStr "other.pdf"; Registry.updatedAt := 1900000000000 |}.
Definition may : Registry.file_record :=
  {| Registry.owner := "u1"; Registry.mime := "application/pdf";
     Registry.filepath := JStr "https://files.example/uploads/u1/may.pdf";
     Registry.filename := JStr "may.pdf"; Registry.updatedAt := 1800000000000 |}.
Definition june : Registry.file_record :=
  {| Registry.owner := "u1"; Registry.mime := "image/png";
     Registry.filepath := JStr "https://files.example/uploads/u1/june.png";
     Registry.filename := JStr "june.png"; Registry.updatedAt := 1850000000000 |}.

Definition uploads : list Registry.file_record := [march; other; may; june].

(** The host of those uploads: the registry answers every query from them. *)
Definition hosted : env := {|
  APP_ID := JStr "app";
  APP_PWD := JStr "secret";
  JSON_parse := fun _ => None;
  XMLParser_parse := fun body => Some body;
  ToNumber := fun _ => NaN;
  ToString := fun _ => "[object Object]";
  URL_pathname := fun _ => None;
  Buffer_from_base64 := fun b => Some (obj [("decoded", b)]);
  Buffer_toString_base64 := fun b => obj [("encoded", b)];
  strategy_getFileURL := fun _ => Some true;
  answer := fun h e =>
    match e with
    | EvGetFiles q =>
        Some (Registry.encode_all (Registry.getFiles exact_name uploads q))
    | _ => None
    end;
  clock := fun _ => 0%Z
|}.


(** A caller whose request carries the application configuration, and a
    storage strategy that signs URLs. *)
Definition configured_new : New.tool :=
  {| New.userId := JStr "u1"; New.req := obj [("config", obj [("fileStrategy", JStr "s3")])] |}.

Definition signing : script := {|
  credentials := (JStr "app", JStr "secret");
  json_texts := [];
  file_by_id := None;
  files := Some (arr [("0", obj [("filepath", JStr "https://files.example/uploads/u1/scan.pdf");
                                 ("filename", JStr "scan.pdf")])]);
  signed_url := Some (JStr "https://files.example/signed/scan.pdf?sig=1");
  submitted := Some queued_new;
  statuses := [completed_new];
  afterwards := None;
  readings := fun _ => 0%Z
|}.

(** A request that names the document twice, by URL and by path. *)
Definition twice_located : value :=
  obj [("filePath", JStr "/data/in.pdf"); ("fileUrl", JStr "https://files/in.pdf")].

Definition path_only : value := obj [("filePath", JStr "/data/in.pdf")].


(** The fields a host of either convention hands to the constructor. *)
Definition fields_by_identifier : value := obj [("userId", JStr "u1")].
Definition fields_by_request : value :=
  obj [("req", obj [("user", obj [("id", JStr "u1")])])].


(** An environment that converts as [e] does, but reads a string of decimal
    digits as the number it writes (the empty string as 0), as ToNumber
    does; the other strings of the runs are words, which stay NaN. *)
Definition numerate (e : env) : env := {|
  APP_ID := APP_ID e;
  APP_PWD := APP_PWD e;
  JSON_parse := JSON_parse e;
  XMLParser_parse := XMLParser_parse e;
  ToNumber := fun v =>
    match v with
    | JStr s =>
        match digits s 0 with
        | Some n => Fin (inject_Z (Z.of_nat n))
        | None => NaN
        end
    | _ => ToNumber e v
    end;
  ToString := ToString e;
  URL_pathname := URL_pathname e;
  Buffer_from_base64 := Buffer_from_base64 e;
  Buffer_toString_base64 := Buffer_toString_base64 e;
  strategy_getFileURL := strategy_getFileURL e;
  answer := answer e;
  clock := clock e
|}.

Definition vague_request : value :=
  obj [("base64", JStr "JVBERi0xLjQK"); ("timeoutMs", JStr "soon")].
Definition spelled_request : value :=
  obj [("base64", JStr "JVBERi0xLjQK"); ("timeoutMs", JStr "1000")].


(** The path of an absolute https URL without query or fragment: what
    follows the host, or "/" when nothing does.  Anything else does not
    parse. *)
Definition pathname_of (s : string) : option string :=
  if String.prefix "https://" s then
    let rest := substring 8 (String.length s - 8) s in
    match String.index 0 "/" rest with
    | Some i => Some (substring i (String.length rest - i) rest)
    | None => Some "/"%string
    end
  else None.

(** The environment of the signing script, with URLs parsed. *)
Definition url_reading : env := {|
  APP_ID := APP_ID (play signing);
  APP_PWD := APP_PWD (play signing);
  JSON_parse := JSON_parse (play signing);
  XMLParser_parse := XMLParser_parse (play signing);
  ToNumber := ToNumber (play signing);
  ToString := ToString (play signing);
  URL_pathname := fun v => match v with JStr s => pathname_of s | _ => None end;
  Buffer_from_base64 := Buffer_from_base64 (play signing);
  Buffer_toString_base64 := Buffer_toString_base64 (play signing);
  strategy_getFileURL := strategy_getFileURL (play signing);
  answer := answer (play signing);
  clock := clock (play signing)
|}.



End Fixtures.

(** * Properties *)

Local Open Scope list_scope.

(** ** Running a computation *)

Lemma bind_ok {A B} (m : M A) (f : A -> M B) h b h' :
  bind m f h = (Ok b, h') ->
  exists a h1, m h = (Ok a, h1) /\ f a h1 = (Ok b, h').
Proof.
  unfold bind. destruct (m h) as [[a | e | ] h1]; intros H; try discriminate.
  exists a, h1. split; [reflexivity | exact H].
Qed.

Lemma bind_step {A B} (m : M A) (f : A -> M B) h a h1 :
  m h = (Ok a, h1) -> bind m f h = f a h1.
Proof. unfold bind. intros ->. reflexivity. Qed.

Lemma bind_throw {A B} (m : M A) (f : A -> M B) h e h1 :
  m h = (Throw e, h1) -> bind m f h = (Throw e, h1).
Proof. unfold bind. intros ->. reflexivity. Qed.

Section Grows.
Context {A B : Type} (P : event -> Prop).

Lemma grows_ret (a : A) : grows P (ret a).
Proof. intros h r h' H. inversion H. exists []. split; [reflexivity | constructor]. Qed.

Lemma grows_throw (e : error) : grows P (@throw A e).
Proof. intros h r h' H. inversion H. exists []. split; [reflexivity | constructor]. Qed.

Lemma grows_spin : grows P (@spin A).
Proof. intros h r h' H. inversion H. exists []. split; [reflexivity | constructor]. Qed.

Lemma grows_bind (m : M A) (f : A -> M B) :
  grows P m -> (forall a, grows P (f a)) -> grows P (bind m f).
Proof.
  intros Hm Hf h r h' H. unfold bind in H.
  destruct (m h) as [[a | e | ] h1] eqn:Em;
    destruct (Hm _ _ _ Em) as (l1 & -> & Hl1).
  - destruct (Hf a _ _ _ H) as (l2 & -> & Hl2).
    exists (l2 ++ l1). split; [now rewrite app_assoc | now apply Forall_app].
  - inversion H; subst. now exists l1.
  - inversion H; subst. now exists l1.
Qed.
End Grows.

Section GrowsCalls.
Variable E : env.
Variable P : event -> Prop.

Lemma grows_attempt e : P e -> grows P (attempt E e).
Proof.
  intros He h r h' H. inversion H. exists [e]. split; [reflexivity | now constructor].
Qed.

Lemma grows_call e : P e -> grows P (call E e).
Proof.
  intros He h r h' H. unfold call in H.
  destruct (answer E h e); inversion H; exists [e];
    (split; [reflexivity | now constructor]).
Qed.

Lemma grows_Date_now : P EvDateNow -> grows P (Date_now E).
Proof.
  intros He h r h' H. inversion H. exists [EvDateNow].
  split; [reflexivity | now constructor].
Qed.

Lemma grows_sleep d : P (EvSetTimeout d) -> grows P (sleep d).
Proof.
  intros He h r h' H. inversion H. exists [EvSetTimeout d].
  split; [reflexivity | now constructor].
Qed.

Lemma grows_output_filename payload : grows P (output_filename payload).
Proof.
  unfold output_filename.
  destruct (truthy (field payload "filename")); [ | apply grows_ret].
  destruct (field payload "filename"); try apply grows_throw. apply grows_ret.
Qed.
End GrowsCalls.

Create HintDb grows.
#[local] Hint Resolve grows_ret grows_throw grows_spin grows_attempt grows_call
  grows_Date_now grows_sleep grows_output_filename : grows.

(** Case analysis on the tests of a computation, then the rules above. *)
Ltac grows_cases :=
  repeat first
    [ apply grows_bind; [ | intros ? ]
    | match goal with
      | |- grows _ (if ?c then _ else _) => destruct c
      | |- grows _ (match ?x with _ => _ end) => destruct x
      | |- grows _ (let '(_, _) := ?x in _) => destruct x
      end
    | solve [ eauto with grows ] ].

(** ** Missing credentials *)

Lemma old_call_without_credentials E this fuel input h :
  credentials_missing E = true ->
  Old._call E this fuel input h = (Throw MissingCredentials, h).
Proof. intros H. unfold Old._call. rewrite H. reflexivity. Qed.

Lemma new_call_without_credentials E this fuel input h :
  credentials_missing E = true ->
  New._call E this fuel input h = (Throw MissingCredentials, h).
Proof. intros H. unfold New._call. rewrite H. reflexivity. Qed.

Lemma credentials_missing_iff E :
  credentials_missing E = true <->
  truthy (APP_ID E) = false \/ truthy (APP_PWD E) = false.
Proof.
  unfold credentials_missing.
  destruct (truthy (APP_ID E)), (truthy (APP_PWD E)); simpl; intuition congruence.
Qed.

(** C6: when either credential is missing from the configuration (undefined,
    or the empty string), [_call] throws the missing-credentials error at
    once in both revisions: the history is left as it was, so no registry
    lookup, no source resolution and no network call has been made, and the
    run is over, nothing is tried again. *)
Theorem missing_credentials_fail_before_any_call
  (E : env) (old : Old.tool) (new : New.tool) (fuel : nat) (input : value)
  (h : history) :
  truthy (APP_ID E) = false \/ truthy (APP_PWD E) = false ->
  Old._call E old fuel input h = (Throw MissingCredentials, h)
  /\ New._call E new fuel input h = (Throw MissingCredentials, h).
Proof.
  intros H. apply credentials_missing_iff in H. split.
  - now apply old_call_without_credentials.
  - now apply new_call_without_credentials.
Qed.

Lemma missing_credentials_witness :
  (truthy (APP_ID (Script.play Fixtures.no_password)) = false
   \/ truthy (APP_PWD (Script.play Fixtures.no_password)) = false)
  /\ Old._call (Script.play Fixtures.no_password) Fixtures.anonymous_old 3
       (JStr "scan.pdf") [] = (Throw MissingCredentials, [])
  /\ New._call (Script.play Fixtures.no_password) Fixtures.anonymous_new 3
       (JStr "scan.pdf") [] = (Throw MissingCredentials, []).
Proof.
  split.
  - right. reflexivity.
  - apply (missing_credentials_fail_before_any_call
             (Script.play Fixtures.no_password)).
    right. reflexivity.
Defined.

(** ** Resolving the sources *)

Lemma grows_old_resolve E this input :
  grows (fun e => is_registry_call e = true) (Old.resolve E this input).
Proof.
  unfold Old.resolve, Old.resolve_file_id, Old.resolve_latest, Old.name_filter.
  grows_cases.
Qed.

Lemma grows_getFreshSignedURL E req path user name :
  grows (fun e => is_registry_call e = true)
    (New.getFreshSignedURL E req path user name).
Proof.
  unfold New.getFreshSignedURL. grows_cases.
Qed.

Lemma grows_new_resolve E this input :
  grows (fun e => is_registry_call e = true) (New.resolve E this input).
Proof.
  unfold New.resolve, New.resolve_latest.
  pose proof (grows_getFreshSignedURL E) as G.
  grows_cases; apply G.
Qed.

Lemma registry_calls_are_no_job_calls (l : history) :
  Forall (fun e => is_registry_call e = true) l ->
  Forall (fun e => is_job_call e = false) l.
Proof.
  apply Forall_impl. intros [] H; simpl in *; congruence.
Qed.

Lemma old_prepare_without_source E payload h :
  Old.hasSource payload = false ->
  Old.prepare E payload h = (Throw NoInput, h).
Proof.
  unfold Old.hasSource, Old.prepare. intros H.
  destruct (truthy (field payload "base64")),
           (truthy (field payload "fileUrl")),
           (truthy (field payload "filePath")); try discriminate.
  reflexivity.
Qed.

Lemma new_prepare_without_source E payload h :
  truthy (field payload "base64") = false ->
  truthy (field payload "fileUrl") = false ->
  New.prepare E payload h = (Throw NoInput, h).
Proof. unfold New.prepare. intros -> ->. reflexivity. Qed.

(** C1: with the credentials configured, whenever the payload that comes out
    of normalization and the registry fallbacks has no content source
    (base64, fileUrl or, in the older revision, filePath), [_call] throws
    the no-input error; the history then holds the registry lookups only: no
    bytes were fetched and no job was submitted.  This holds whether or not
    a caller identity is known. *)
Theorem no_source_is_an_input_error (E : env) (fuel : nat) (input : value) :
  credentials_missing E = false ->
  (forall (this : Old.tool) (payload : value) (h : history),
      Old.resolve E this input [] = (Ok payload, h) ->
      Old.hasSource payload = false ->
      Old._call E this fuel input [] = (Throw NoInput, h)
      /\ Forall (fun e => is_job_call e = false) h)
  /\ (forall (this : New.tool) (payload : value) (h : history),
      New.resolve E this input [] = (Ok payload, h) ->
      truthy (field payload "base64") = false ->
      truthy (field payload "fileUrl") = false ->
      New._call E this fuel input [] = (Throw NoInput, h)
      /\ Forall (fun e => is_job_call e = false) h).
Proof.
  intros Hc. split.
  - intros this payload h Hr Hs. split.
    + unfold Old._call, Old.convert. rewrite Hc.
      rewrite (bind_step _ _ _ _ _ Hr).
      apply bind_throw. now apply old_prepare_without_source.
    + destruct (grows_old_resolve E this input _ _ _ Hr) as (l & -> & Hl).
      rewrite app_nil_r. now apply registry_calls_are_no_job_calls.
  - intros this payload h Hr Hb Hu. split.
    + unfold New._call, New.convert. rewrite Hc.
      rewrite (bind_step _ _ _ _ _ Hr).
      apply bind_throw. now apply new_prepare_without_source.
    + destruct (grows_new_resolve E this input _ _ _ Hr) as (l & -> & Hl).
      rewrite app_nil_r. now apply registry_calls_are_no_job_calls.
Qed.

Lemma no_source_witness :
  credentials_missing (Script.play Fixtures.silent) = false
  /\ Old.resolve (Script.play Fixtures.silent) Fixtures.anonymous_old
       (JStr "scan.pdf") [] = (Ok (obj [("filename", JStr "scan.pdf")]), [])
  /\ Old.hasSource (obj [("filename", JStr "scan.pdf")]) = false
  /\ Old._call (Script.play Fixtures.silent) Fixtures.anonymous_old 3
       (JStr "scan.pdf") [] = (Throw NoInput, [])
  /\ New.resolve (Script.play Fixtures.silent) Fixtures.anonymous_new
       (JStr "scan.pdf") [] = (Ok (obj [("filename", JStr "scan.pdf")]), [])
  /\ New._call (Script.play Fixtures.silent) Fixtures.anonymous_new 3
       (JStr "scan.pdf") [] = (Throw NoInput, []).
Proof.
  destruct (no_source_is_an_input_error (Script.play Fixtures.silent) 3
              (JStr "scan.pdf") eq_refl) as [Hold Hnew].
  split; [reflexivity | ].
  split; [reflexivity | ].
  split; [reflexivity | ].
  split.
  - apply (Hold Fixtures.anonymous_old (obj [("filename", JStr "scan.pdf")]) []);
      reflexivity.
  - split; [reflexivity | ].
    apply (Hnew Fixtures.anonymous_new (obj [("filename", JStr "scan.pdf")]) []);
      reflexivity.
Defined.

(** Without a caller identity the fallbacks of the later revision do
    nothing, and those of the older revision need a file identifier. *)
Lemma new_resolve_anonymous E this input h :
  truthy (New.userId this) = false ->
  New.resolve E this input h = (Ok (normalize E input), h).
Proof.
  intros H. unfold New.resolve, New.resolve_latest. rewrite H.
  rewrite !andb_false_r. reflexivity.
Qed.

Lemma old_resolve_anonymous E this input h :
  truthy (Old.userId this) = false ->
  truthy (field (normalize E input) "file_id") = false ->
  Old.resolve E this input h = (Ok (normalize E input), h).
Proof.
  intros H Hid. unfold Old.resolve, Old.resolve_file_id, Old.resolve_latest.
  rewrite Hid. simpl. unfold bind, ret. rewrite H, andb_false_r. reflexivity.
Qed.

(** ** Normalization *)

Lemma normalize_is_object E input : is_object (normalize E input) = true.
Proof.
  unfold normalize.
  destruct input as [ | | b | n | s | a props]; try reflexivity.
  destruct (JSON_parse E s) as [[ | | b | n | s' | a props] | ]; reflexivity.
Qed.

Lemma normalize_object E v : is_object v = true -> normalize E v = v.
Proof. destruct v; try discriminate. reflexivity. Qed.

Lemma normalize_idempotent E input :
  normalize E (normalize E input) = normalize E input.
Proof. apply normalize_object, normalize_is_object. Qed.

(** C8, amended: normalization maps an object to itself, a string that parses
    to an object to that object, a string that parses to anything else to
    the empty request, a string that does not parse to the request whose
    only field is that string as the file name, and every other input to
    the empty request; and [_call] sees its input through normalization only,
    which therefore precedes the resolution of sources. *)
Theorem normalization_by_cases (E : env) (input : value) :
  normalize E input =
    match input with
    | JObj _ _ => input
    | JStr s =>
        match JSON_parse E s with
        | Some (JObj a props) => JObj a props
        | Some _ => obj []
        | None => obj [("filename", JStr s)]
        end
    | _ => obj []
    end
  /\ (forall this fuel h,
        Old._call E this fuel input h = Old._call E this fuel (normalize E input) h)
  /\ (forall this fuel h,
        New._call E this fuel input h = New._call E this fuel (normalize E input) h).
Proof.
  split; [ | split].
  - unfold normalize.
    destruct input as [ | | b | n | s | a props]; try reflexivity.
    destruct (JSON_parse E s) as [[ | | b | n | s' | a props] | ]; reflexivity.
  - intros. unfold Old._call, Old.resolve. now rewrite normalize_idempotent.
  - intros. unfold New._call, New.resolve. now rewrite normalize_idempotent.
Qed.

(** C8 as stated fails on a bare file name: "scan.pdf" is not JSON, and
    normalization wraps it as the file name instead of dropping it. *)
Lemma bare_filename_is_not_dropped :
  JSON_parse (Script.play Fixtures.silent) "scan.pdf" = None
  /\ normalize (Script.play Fixtures.silent) (JStr "scan.pdf")
     = obj [("filename", JStr "scan.pdf")]
  /\ normalize (Script.play Fixtures.silent) (JStr "scan.pdf")
     <> normalize_claimed (Script.play Fixtures.silent) (JStr "scan.pdf").
Proof.
  split; [reflexivity | ]. split; [reflexivity | ].
  cbv. discriminate.
Qed.

(** ** Fields of the payload *)

Lemma assoc_assign k k' x props :
  assoc k' (assign k x props) = if (k' =? k)%string then Some x else assoc k' props.
Proof.
  induction props as [ | [k0 v0] rest IH]; simpl.
  - destruct (String.eqb_spec k' k); reflexivity.
  - destruct (String.eqb_spec k k0) as [-> | Hne]; simpl.
    + destruct (String.eqb_spec k' k0); reflexivity.
    + destruct (String.eqb_spec k' k0) as [-> | Hne'].
      * destruct (String.eqb_spec k0 k); [congruence | reflexivity].
      * exact IH.
Qed.

Lemma field_set_field v k k' x :
  is_object v = true ->
  field (set_field v k x) k' = if (k' =? k)%string then x else field v k'.
Proof.
  destruct v; try discriminate. intros _. simpl.
  rewrite assoc_assign. destruct (k' =? k)%string; reflexivity.
Qed.

Lemma set_field_is_object v k x :
  is_object v = true -> is_object (set_field v k x) = true.
Proof. destruct v; try discriminate. reflexivity. Qed.

Lemma adopt_is_object p url name :
  is_object p = true -> is_object (adopt p url name) = true.
Proof.
  intros H. unfold adopt.
  destruct (truthy (field (set_field p "fileUrl" url) "filename"));
    repeat apply set_field_is_object; exact H.
Qed.

Lemma adopt_filename p url name :
  is_object p = true ->
  field (adopt p url name) "filename"
  = if truthy (field p "filename") then field p "filename" else name.
Proof.
  intros H. unfold adopt.
  rewrite (field_set_field p "fileUrl" "filename" url H). simpl.
  destruct (truthy (field p "filename")).
  - now rewrite field_set_field.
  - rewrite field_set_field by now apply set_field_is_object. reflexivity.
Qed.

Lemma adopt_fileUrl p url name :
  is_object p = true -> field (adopt p url name) "fileUrl" = url.
Proof.
  intros H. unfold adopt.
  destruct (truthy (field (set_field p "fileUrl" url) "filename")).
  - now rewrite field_set_field.
  - rewrite field_set_field by now apply set_field_is_object. simpl.
    now rewrite field_set_field.
Qed.

Lemma keeps_refl p : is_object p = true -> keeps p p.
Proof. intros H. split; [exact H | reflexivity]. Qed.

Lemma keeps_trans p q r : keeps p q -> keeps q r -> keeps p r.
Proof.
  intros [_ Hpq] [Hr Hqr]. split; [exact Hr | ].
  intros Ht. rewrite <- (Hpq Ht). apply Hqr. now rewrite (Hpq Ht).
Qed.

Lemma keeps_adopt p url name : is_object p = true -> keeps p (adopt p url name).
Proof.
  intros H. split; [now apply adopt_is_object | ].
  intros Ht. rewrite adopt_filename by exact H. now rewrite Ht.
Qed.

(** ** The output file name *)

(** Splitting the tests a run went through, in a hypothesis. *)
Ltac split_run H :=
  repeat match type of H with
    | context [if ?c then _ else _] => destruct c eqn:?
    | context [match ?x with _ => _ end] => destruct x eqn:?
    end;
  try discriminate H.

Lemma old_resolve_file_id_keeps E p h p' h' :
  is_object p = true ->
  Old.resolve_file_id E p h = (Ok p', h') -> keeps p p'.
Proof.
  intros Hp H. unfold Old.resolve_file_id, bind, attempt, ret in H.
  split_run H; inversion H; subst;
    first [now apply keeps_adopt | now apply keeps_refl].
Qed.

Lemma old_resolve_latest_keeps E this p h p' h' :
  is_object p = true ->
  Old.resolve_latest E this p h = (Ok p', h') -> keeps p p'.
Proof.
  intros Hp H.
  unfold Old.resolve_latest, Old.name_filter, bind, attempt, ret, throw in H.
  split_run H; inversion H; subst;
    first [now apply keeps_adopt | now apply keeps_refl].
Qed.

Lemma old_resolve_keeps E this input h p h' :
  Old.resolve E this input h = (Ok p, h') -> keeps (normalize E input) p.
Proof.
  intros H. unfold Old.resolve in H.
  apply bind_ok in H as (p1 & h1 & H1 & H2).
  apply old_resolve_file_id_keeps in H1; [ | apply normalize_is_object].
  apply old_resolve_latest_keeps in H2; [ | apply H1].
  eapply keeps_trans; eassumption.
Qed.

Lemma new_resolve_keeps E this input h p h' :
  New.resolve E this input h = (Ok p, h') -> keeps (normalize E input) p.
Proof.
  intros H. pose proof (normalize_is_object E input) as Hp.
  unfold New.resolve, New.resolve_latest, bind, attempt, ret in H.
  split_run H; inversion H; subst;
    first [now apply keeps_adopt | now apply keeps_refl].
Qed.

Lemma output_filename_ok payload h name h' :
  output_filename payload h = (Ok name, h') ->
  name = filename_claimed (field payload "filename") /\ h' = h.
Proof.
  unfold output_filename, filename_claimed, ret, throw.
  destruct (field payload "filename") as [ | | b | [q | | | ] | s | a props];
    simpl; try (intros H; inversion H; now split).
  - destruct b; intros H; inversion H. now split.
  - destruct (negb (Qnum q =? 0)%Z); intros H; inversion H. now split.
  - destruct (negb (s =? "")%string) eqn:Es; intros H; inversion H; subst.
    + now split.
    + split; [ | reflexivity].
      apply negb_false_iff, String.eqb_eq in Es. subst. reflexivity.
Qed.

Lemma old_prepare_filename E payload h name task start h' :
  Old.prepare E payload h = (Ok (name, task, start), h') ->
  name = filename_claimed (field payload "filename").
Proof.
  unfold Old.prepare. intros H.
  destruct (negb _ && _ && _); [discriminate | ].
  apply bind_ok in H as (buf & h1 & _ & H).
  apply bind_ok in H as (name' & h2 & Hn & H).
  apply output_filename_ok in Hn as [-> _].
  apply bind_ok in H as (xml & h3 & _ & H).
  apply bind_ok in H as (task' & h4 & _ & H).
  apply bind_ok in H as (start' & h5 & _ & H).
  inversion H. reflexivity.
Qed.

Lemma new_prepare_filename E payload h name task start h' :
  New.prepare E payload h = (Ok (name, task, start), h') ->
  name = filename_claimed (field payload "filename").
Proof.
  unfold New.prepare. intros H.
  destruct (negb _ && _); [discriminate | ].
  apply bind_ok in H as (buf & h1 & _ & H).
  apply bind_ok in H as (name' & h2 & Hn & H).
  apply output_filename_ok in Hn as [-> _].
  apply bind_ok in H as (xml & h3 & _ & H).
  apply bind_ok in H as (task' & h4 & _ & H).
  apply bind_ok in H as (start' & h5 & _ & H).
  inversion H. reflexivity.
Qed.

(** A successful run, taken apart. *)
Lemma old_call_ok E this fuel input h out h' :
  Old._call E this fuel input h = (Ok out, h') ->
  exists payload h1 name task0 start h2 task h3,
    Old.resolve E this input h = (Ok payload, h1)
    /\ Old.prepare E payload h1 = (Ok (name, task0, start), h2)
    /\ Old.poll E fuel start (Old.budget payload) task0 1500 h2 = (Ok task, h3)
    /\ Old.finish E name task h3 = (Ok out, h').
Proof.
  unfold Old._call, Old.convert. intros H.
  destruct (credentials_missing E); [discriminate | ].
  apply bind_ok in H as (payload & h1 & Hr & H).
  apply bind_ok in H as ([[name task0] start] & h2 & Hp & H).
  apply bind_ok in H as (task & h3 & Hl & H).
  exists payload, h1, name, task0, start, h2, task, h3. auto.
Qed.

Lemma new_call_ok E this fuel input h out h' :
  New._call E this fuel input h = (Ok out, h') ->
  exists payload h1 name task0 start h2 task,
    New.resolve E this input h = (Ok payload, h1)
    /\ New.prepare E payload h1 = (Ok (name, task0, start), h2)
    /\ New.poll E fuel start task0 1500 h2 = (Ok task, h')
    /\ out = Stringified (obj [("filename", name);
                               ("fileUrl", field (field task "resultUrls") "0")]).
Proof.
  unfold New._call, New.convert. intros H.
  destruct (credentials_missing E); [discriminate | ].
  apply bind_ok in H as (payload & h1 & Hr & H).
  apply bind_ok in H as ([[name task0] start] & h2 & Hp & H).
  apply bind_ok in H as (task & h3 & Hl & H).
  unfold New.finish, ret in H. inversion H; subst.
  exists payload, h1, name, task0, start, h2, task. auto.
Qed.

Lemma old_finish_ok E name task h out h' :
  Old.finish E name task h = (Ok out, h') ->
  exists docx,
    answer E h (EvFetch (field task "resultUrl")) = Some docx
    /\ h' = EvFetch (field task "resultUrl") :: h
    /\ out = Stringified (obj
         [("filename", name);
          ("mime", JStr "application/vnd.openxmlformats-officedocument.wordprocessingml.document");
          ("base64", Buffer_toString_base64 E docx)]).
Proof.
  unfold Old.finish, Old.downloadResult, bind, call, ret.
  destruct (answer E h _) as [docx | ]; intros H; inversion H.
  exists docx. auto.
Qed.

(** ** The delays of the loop *)

Lemma backoff_ceiling_reached n : (4 <= n)%nat -> backoff n = 7000.
Proof.
  induction 1 as [ | n Hle IH].
  - reflexivity.
  - simpl. rewrite IH. reflexivity.
Qed.

Lemma backoff_first_values :
  map backoff [0; 1; 2; 3; 4; 5]%nat = [1500; 2250; 3375; 10125 # 2; 7000; 7000].
Proof. reflexivity. Qed.

Lemma backoff_step n : backoff (S n) == Qmin (backoff n * (3 # 2)) 7000.
Proof. simpl. unfold next_delay. apply Qred_correct. Qed.

Lemma backoff_bounded n : backoff n <= 7000.
Proof.
  destruct n as [ | [ | [ | [ | n]]]];
    [vm_compute; discriminate .. | ].
  rewrite backoff_ceiling_reached by lia. apply Qle_refl.
Qed.

Lemma backoff_monotone n : backoff n <= backoff (S n).
Proof.
  destruct n as [ | [ | [ | [ | n]]]];
    [vm_compute; discriminate .. | ].
  rewrite !backoff_ceiling_reached by lia. apply Qle_refl.
Qed.

Lemma sleeps_of_app l h : sleeps_of (l ++ h) = sleeps_of h ++ sleeps_of l.
Proof. unfold sleeps_of. now rewrite rev_app_distr, flat_map_app. Qed.

Lemma sleeps_of_quiet l :
  Forall (fun e => Script.is_sleep e = false) l -> sleeps_of l = [].
Proof.
  unfold sleeps_of. intros H. apply Forall_rev in H.
  induction H as [ | e l' He _ IH]; [reflexivity | ].
  simpl. rewrite IH. destruct e; try reflexivity. discriminate.
Qed.

(** ** One iteration of the loop *)

Lemma old_parseTask_pure E body h :
  Old.parseTask E body h = (fst (Old.parseTask E body []), h).
Proof.
  unfold Old.parseTask. destruct (XMLParser_parse E body); [ | reflexivity].
  destruct (negb _ || negb _); reflexivity.
Qed.

Lemma new_parseTask_pure body h :
  New.parseTask body h = (fst (New.parseTask body []), h).
Proof.
  unfold New.parseTask. destruct (negb _ || negb _); reflexivity.
Qed.

Lemma old_poll_done E fuel start budget task delay h :
  is_str (field task "Status") "Completed" && truthy (field task "resultUrl") = true ->
  Old.poll E (S fuel) start budget task delay h = (Ok task, h).
Proof. intros H. simpl. rewrite H. reflexivity. Qed.

Lemma old_poll_failed E fuel start budget task delay h :
  is_str (field task "Status") "ProcessingFailed" = true ->
  Old.poll E (S fuel) start budget task delay h = (Throw ProcessingFailed, h).
Proof.
  intros H. simpl. rewrite H.
  destruct (field task "Status") as [ | | | | s | ]; try discriminate.
  simpl in H |- *. apply String.eqb_eq in H. subst. reflexivity.
Qed.

Lemma old_poll_pending E fuel start budget task delay h :
  old_pending task = true ->
  Old.poll E (S fuel) start budget task delay h =
    if exceeds E (clock E h - start) budget
    then (Throw Timeout, EvDateNow :: h)
    else
      bind (getStatus E (field task "Id"))
        (fun statusXml =>
           bind (Old.parseTask E statusXml)
             (fun task' => Old.poll E fuel start budget task' (next_delay delay)))
        (EvSetTimeout delay :: EvDateNow :: h).
Proof.
  unfold old_pending. intros H. apply andb_true_iff in H as [H1 H2].
  apply negb_true_iff in H1, H2. simpl. rewrite H1, H2.
  unfold bind at 1. unfold Date_now.
  destruct (exceeds E (clock E h - start) budget); reflexivity.
Qed.

Lemma new_poll_done E fuel start task delay h :
  New.completed task h = (Ok true, h) ->
  New.poll E (S fuel) start task delay h = (Ok task, h).
Proof. intros H. simpl. unfold bind. rewrite H. reflexivity. Qed.

Lemma new_completed_pure task h :
  New.completed task h = (fst (New.completed task []), h).
Proof.
  unfold New.completed. destruct (nullish task); [reflexivity | ].
  destruct (is_str _ _); [ | reflexivity].
  destruct (nullish _); reflexivity.
Qed.

Lemma new_poll_failed E fuel start task delay h :
  is_str (field task "status") "ProcessingFailed" = true ->
  New.poll E (S fuel) start task delay h = (Throw ProcessingFailed, h).
Proof.
  intros H. simpl. unfold bind, New.completed.
  destruct task as [ | | b | n | s | a props]; try discriminate;
    destruct (field _ "status") as [ | | | | s' | ]; try discriminate;
    simpl in H |- *; apply String.eqb_eq in H; subst; reflexivity.
Qed.

Lemma new_pending_not_completed task h :
  new_pending task = true -> New.completed task h = (Ok false, h).
Proof.
  unfold new_pending, New.completed. intros H.
  apply andb_true_iff in H as [H H3]. apply andb_true_iff in H as [H1 H2].
  apply negb_true_iff in H1. rewrite H1.
  destruct (is_str (field task "status") "Completed"); [ | reflexivity].
  apply andb_true_iff in H2 as [H2 H4]. apply negb_true_iff in H2, H4.
  rewrite H2, H4. reflexivity.
Qed.

Lemma new_poll_pending E fuel start task delay h :
  new_pending task = true ->
  New.poll E (S fuel) start task delay h =
    if (New.timeoutMs <? clock E h - start)%Z
    then (Throw Timeout, EvDateNow :: h)
    else
      bind (getStatus E (field task "taskId"))
        (fun task' => New.poll E fuel start task' (next_delay delay))
        (EvSetTimeout delay :: EvDateNow :: h).
Proof.
  intros H. simpl. unfold bind at 1.
  rewrite (new_pending_not_completed _ _ H).
  unfold new_pending in H. apply andb_true_iff in H as [_ H].
  apply negb_true_iff in H. rewrite H.
  unfold bind at 1. unfold Date_now.
  destruct (New.timeoutMs <? clock E h - start)%Z; reflexivity.
Qed.

(** ** A failed job *)

Lemma old_convert_at_loop E fuel payload h name task0 start h1 :
  Old.prepare E payload h = (Ok (name, task0, start), h1) ->
  Old.convert E fuel payload h =
    bind (Old.poll E fuel start (Old.budget payload) task0 1500)
      (fun task => Old.finish E name task) h1.
Proof. intros H. unfold Old.convert. now rewrite (bind_step _ _ _ _ _ H). Qed.

Lemma new_convert_at_loop E fuel payload h name task0 start h1 :
  New.prepare E payload h = (Ok (name, task0, start), h1) ->
  New.convert E fuel payload h =
    bind (New.poll E fuel start task0 1500)
      (fun task => New.finish name task) h1.
Proof. intros H. unfold New.convert. now rewrite (bind_step _ _ _ _ _ H). Qed.

(** C4: a task with the status 'ProcessingFailed' at the head of an
    iteration makes the loop throw the processing-failure error with the
    history untouched, in both revisions.  So when the answer to the
    submission reports it, the run ends with that error before any status
    query or sleep; and when the answer to a status query reports it, the run
    ends with that error and that query is its last call. *)
Theorem failed_status_ends_the_run (E : env) (fuel : nat) (start : Z) (delay : Q)
  (h : history) :
  (forall budget task,
      is_str (field task "Status") "ProcessingFailed" = true ->
      Old.poll E (S fuel) start budget task delay h = (Throw ProcessingFailed, h))
  /\ (forall task,
      is_str (field task "status") "ProcessingFailed" = true ->
      New.poll E (S fuel) start task delay h = (Throw ProcessingFailed, h))
  /\ (forall payload name task0 began h1,
      Old.prepare E payload h = (Ok (name, task0, began), h1) ->
      is_str (field task0 "Status") "ProcessingFailed" = true ->
      Old.convert E (S fuel) payload h = (Throw ProcessingFailed, h1))
  /\ (forall payload name task0 began h1,
      New.prepare E payload h = (Ok (name, task0, began), h1) ->
      is_str (field task0 "status") "ProcessingFailed" = true ->
      New.convert E (S fuel) payload h = (Throw ProcessingFailed, h1))
  /\ (forall budget task body task',
      old_pending task = true ->
      exceeds E (clock E h - start) budget = false ->
      answer E (EvSetTimeout delay :: EvDateNow :: h)
        (EvGetTaskStatus (field task "Id")) = Some body ->
      Old.parseTask E body [] = (Ok task', []) ->
      is_str (field task' "Status") "ProcessingFailed" = true ->
      Old.poll E (S (S fuel)) start budget task delay h
      = (Throw ProcessingFailed,
         EvGetTaskStatus (field task "Id") :: EvSetTimeout delay :: EvDateNow :: h))
  /\ (forall task task',
      new_pending task = true ->
      (New.timeoutMs <? clock E h - start)%Z = false ->
      answer E (EvSetTimeout delay :: EvDateNow :: h)
        (EvGetTaskStatus (field task "taskId")) = Some task' ->
      is_str (field task' "status") "ProcessingFailed" = true ->
      New.poll E (S (S fuel)) start task delay h
      = (Throw ProcessingFailed,
         EvGetTaskStatus (field task "taskId") :: EvSetTimeout delay :: EvDateNow :: h)).
Proof.
  repeat split.
  - intros. now apply old_poll_failed.
  - intros. now apply new_poll_failed.
  - intros payload name task0 began h1 Hp Hf.
    rewrite (old_convert_at_loop _ _ _ _ _ _ _ _ Hp).
    apply bind_throw. now apply old_poll_failed.
  - intros payload name task0 began h1 Hp Hf.
    rewrite (new_convert_at_loop _ _ _ _ _ _ _ _ Hp).
    apply bind_throw. now apply new_poll_failed.
  - intros budget task body task' Hpend Hclock Hans Hparse Hf.
    rewrite old_poll_pending by exact Hpend. rewrite Hclock.
    unfold bind at 1. unfold getStatus, call. rewrite Hans.
    unfold bind. rewrite old_parseTask_pure, Hparse. simpl fst.
    now apply old_poll_failed.
  - intros task task' Hpend Hclock Hans Hf.
    rewrite new_poll_pending by exact Hpend. rewrite Hclock.
    unfold bind. unfold getStatus, call. rewrite Hans.
    now apply new_poll_failed.
Qed.

Lemma failed_status_witness :
  Old.poll (Script.play Fixtures.failing_old) 1 0 (int 360000)
    Fixtures.failed_old 1500 [] = (Throw ProcessingFailed, [])
  /\ New.poll (Script.play Fixtures.failing_new) 1 0
       Fixtures.failed_new 1500 [] = (Throw ProcessingFailed, [])
  /\ (Old.prepare (Script.play Fixtures.stillborn_old) Fixtures.inline_pdf []
      = (Ok (JStr "converted.docx", Fixtures.failed_old, 0%Z),
         [EvDateNow; EvStart (obj [("decoded", JStr "JVBERi0xLjQK")]) (JStr "eng") "docx"])
      /\ Old.convert (Script.play Fixtures.stillborn_old) 1 Fixtures.inline_pdf []
         = (Throw ProcessingFailed,
            [EvDateNow; EvStart (obj [("decoded", JStr "JVBERi0xLjQK")]) (JStr "eng") "docx"]))
  /\ (New.prepare (Script.play Fixtures.stillborn_new) Fixtures.inline_pdf []
      = (Ok (JStr "converted.docx", Fixtures.failed_new, 0%Z),
         [EvDateNow;
          EvStart (obj [("decoded", JStr "JVBERi0xLjQK")]) (JStr "English,Vietnamese") "docx"])
      /\ New.convert (Script.play Fixtures.stillborn_new) 1 Fixtures.inline_pdf []
         = (Throw ProcessingFailed,
            [EvDateNow;
             EvStart (obj [("decoded", JStr "JVBERi0xLjQK")]) (JStr "English,Vietnamese") "docx"]))
  /\ Old.poll (Script.play Fixtures.failing_old) 2 0 (int 360000)
       Fixtures.queued_old 1500 []
     = (Throw ProcessingFailed,
        [EvGetTaskStatus (JStr "t1"); EvSetTimeout 1500; EvDateNow])
  /\ New.poll (Script.play Fixtures.failing_new) 2 0 Fixtures.queued_new 1500 []
     = (Throw ProcessingFailed,
        [EvGetTaskStatus (JStr "t1"); EvSetTimeout 1500; EvDateNow]).
Proof.
  pose proof (failed_status_ends_the_run (Script.play Fixtures.failing_old) 0 0 1500 [])
    as (Hold & _ & _ & _ & Hold' & _).
  pose proof (failed_status_ends_the_run (Script.play Fixtures.failing_new) 0 0 1500 [])
    as (_ & Hnew & _ & _ & _ & Hnew').
  pose proof (failed_status_ends_the_run (Script.play Fixtures.stillborn_old) 0 0 1500 [])
    as (_ & _ & Hold0 & _).
  pose proof (failed_status_ends_the_run (Script.play Fixtures.stillborn_new) 0 0 1500 [])
    as (_ & _ & _ & Hnew0 & _).
  split; [apply Hold; reflexivity | ].
  split; [apply Hnew; reflexivity | ].
  split; [split; [reflexivity | ] | ].
  { apply (Hold0 Fixtures.inline_pdf (JStr "converted.docx") Fixtures.failed_old 0%Z);
      reflexivity. }
  split; [split; [reflexivity | ] | ].
  { apply (Hnew0 Fixtures.inline_pdf (JStr "converted.docx") Fixtures.failed_new 0%Z);
      reflexivity. }
  split.
  - apply (Hold' (int 360000) Fixtures.queued_old
             (obj [("response", obj [("task", Fixtures.failed_old)])])
             Fixtures.failed_old); reflexivity.
  - apply (Hnew' Fixtures.queued_new Fixtures.failed_new); reflexivity.
Defined.

(** ** The delays of a run *)

Lemma quiet_run {A} (m : M A) h r h' :
  grows (fun e => Script.is_sleep e = false) m ->
  m h = (r, h') -> sleeps_of h' = sleeps_of h.
Proof.
  intros G H. destruct (G _ _ _ H) as (l & -> & Hl).
  rewrite sleeps_of_app, (sleeps_of_quiet _ Hl). apply app_nil_r.
Qed.

Lemma grows_weaken {A} (P Q : event -> Prop) (m : M A) :
  (forall e, P e -> Q e) -> grows P m -> grows Q m.
Proof.
  intros HPQ G h r h' H. destruct (G _ _ _ H) as (l & -> & Hl).
  exists l. split; [reflexivity | ]. revert Hl. now apply Forall_impl.
Qed.

Lemma registry_call_is_quiet e :
  is_registry_call e = true -> Script.is_sleep e = false.
Proof. destruct e; simpl; congruence. Qed.

Lemma old_prepare_quiet E payload :
  grows (fun e => Script.is_sleep e = false) (Old.prepare E payload).
Proof.
  unfold Old.prepare, Old.resolvePdfBytes, Old.startProcess, Old.parseTask.
  grows_cases.
Qed.

Lemma new_prepare_quiet E payload :
  grows (fun e => Script.is_sleep e = false) (New.prepare E payload).
Proof.
  unfold New.prepare, New.resolvePdfBytes, New.startProcess, New.parseTask.
  grows_cases.
Qed.

Lemma old_finish_quiet E name task :
  grows (fun e => Script.is_sleep e = false) (Old.finish E name task).
Proof. unfold Old.finish, Old.downloadResult. grows_cases. Qed.

Lemma old_poll_sleeps E fuel :
  forall start budget k task h r h',
    Old.poll E fuel start budget task (backoff k) h = (r, h') ->
    exists l n, h' = l ++ h /\ sleeps_of l = map backoff (seq k n).
Proof.
  induction fuel as [ | fuel IH]; intros start budget k task h r h' H.
  - inversion H. now exists [], 0%nat.
  - destruct (is_str (field task "Status") "Completed"
              && truthy (field task "resultUrl")) eqn:Hdone.
    { rewrite old_poll_done in H by exact Hdone. inversion H. now exists [], 0%nat. }
    destruct (is_str (field task "Status") "ProcessingFailed") eqn:Hfail.
    { rewrite old_poll_failed in H by exact Hfail. inversion H. now exists [], 0%nat. }
    rewrite old_poll_pending in H
      by (unfold old_pending; now rewrite Hdone, Hfail).
    destruct (exceeds E (clock E h - start) budget).
    { inversion H. now exists [EvDateNow], 0%nat. }
    unfold bind at 1 in H. unfold getStatus, call in H.
    destruct (answer E _ _) as [body | ].
    + unfold bind in H. rewrite old_parseTask_pure in H.
      destruct (fst (Old.parseTask E body [])) as [task' | e | ].
      * change (next_delay (backoff k)) with (backoff (S k)) in H.
        apply IH in H as (l & n & -> & Hl).
        exists (l ++ [EvGetTaskStatus (field task "Id");
                      EvSetTimeout (backoff k); EvDateNow]), (S n).
        split; [now rewrite <- app_assoc | ].
        rewrite sleeps_of_app, Hl. reflexivity.
      * inversion H.
        now exists [EvGetTaskStatus (field task "Id");
                    EvSetTimeout (backoff k); EvDateNow], 1%nat.
      * inversion H.
        now exists [EvGetTaskStatus (field task "Id");
                    EvSetTimeout (backoff k); EvDateNow], 1%nat.
    + inversion H.
      now exists [EvGetTaskStatus (field task "Id");
                  EvSetTimeout (backoff k); EvDateNow], 1%nat.
Qed.

Lemma new_poll_sleeps E fuel :
  forall start k task h r h',
    New.poll E fuel start task (backoff k) h = (r, h') ->
    exists l n, h' = l ++ h /\ sleeps_of l = map backoff (seq k n).
Proof.
  induction fuel as [ | fuel IH]; intros start k task h r h' H.
  - inversion H. now exists [], 0%nat.
  - simpl in H. unfold bind at 1 in H. rewrite new_completed_pure in H.
    destruct (fst (New.completed task [])) as [[ | ] | e | ];
      try (inversion H; now exists [], 0%nat).
    destruct (is_str (field task "status") "ProcessingFailed").
    { inversion H. now exists [], 0%nat. }
    unfold bind at 1 in H. unfold Date_now in H.
    destruct (New.timeoutMs <? clock E h - start)%Z.
    { inversion H. now exists [EvDateNow], 0%nat. }
    unfold bind at 1 in H. unfold sleep in H.
    unfold bind in H. unfold getStatus, call in H.
    destruct (answer E _ _) as [task' | ].
    + change (next_delay (backoff k)) with (backoff (S k)) in H.
      apply IH in H as (l & n & -> & Hl).
      exists (l ++ [EvGetTaskStatus (field task "taskId");
                    EvSetTimeout (backoff k); EvDateNow]), (S n).
      split; [now rewrite <- app_assoc | ].
      rewrite sleeps_of_app, Hl. reflexivity.
    + inversion H.
      now exists [EvGetTaskStatus (field task "taskId");
                  EvSetTimeout (backoff k); EvDateNow], 1%nat.
Qed.

Lemma old_call_sleeps E this fuel input r h :
  Old._call E this fuel input [] = (r, h) ->
  exists n, sleeps_of h = map backoff (seq 0 n).
Proof.
  unfold Old._call, Old.convert. intros H.
  destruct (credentials_missing E); [inversion H; now exists 0%nat | ].
  unfold bind at 1 in H.
  destruct (Old.resolve E this input []) as [r1 h1] eqn:Hr.
  assert (Hq1 : sleeps_of h1 = []).
  { apply (quiet_run _ _ _ _
             (grows_weaken _ _ _ registry_call_is_quiet (grows_old_resolve E this input)) Hr). }
  destruct r1 as [payload | e | ]; try (inversion H; subst; now exists 0%nat).
  unfold bind at 1 in H.
  destruct (Old.prepare E payload h1) as [r2 h2] eqn:Hp.
  assert (Hq2 : sleeps_of h2 = []).
  { rewrite <- Hq1. apply (quiet_run _ _ _ _ (old_prepare_quiet E payload) Hp). }
  destruct r2 as [[[name task0] start] | e | ]; try (inversion H; subst; now exists 0%nat).
  unfold bind at 1 in H.
  destruct (Old.poll E fuel start (Old.budget payload) task0 1500 h2) as [r3 h3] eqn:Hl.
  apply (old_poll_sleeps E fuel start (Old.budget payload) 0%nat) in Hl
    as (l & n & -> & Hs).
  assert (Hq3 : sleeps_of (l ++ h2) = map backoff (seq 0 n)).
  { now rewrite sleeps_of_app, Hq2, Hs. }
  destruct r3 as [task | e | ]; try (inversion H; subst; now exists n).
  exists n. rewrite <- Hq3.
  apply (quiet_run _ _ _ _ (old_finish_quiet E name task) H).
Qed.

Lemma new_call_sleeps E this fuel input r h :
  New._call E this fuel input [] = (r, h) ->
  exists n, sleeps_of h = map backoff (seq 0 n).
Proof.
  unfold New._call, New.convert. intros H.
  destruct (credentials_missing E); [inversion H; now exists 0%nat | ].
  unfold bind at 1 in H.
  destruct (New.resolve E this input []) as [r1 h1] eqn:Hr.
  assert (Hq1 : sleeps_of h1 = []).
  { apply (quiet_run _ _ _ _
             (grows_weaken _ _ _ registry_call_is_quiet (grows_new_resolve E this input)) Hr). }
  destruct r1 as [payload | e | ]; try (inversion H; subst; now exists 0%nat).
  unfold bind at 1 in H.
  destruct (New.prepare E payload h1) as [r2 h2] eqn:Hp.
  assert (Hq2 : sleeps_of h2 = []).
  { rewrite <- Hq1. apply (quiet_run _ _ _ _ (new_prepare_quiet E payload) Hp). }
  destruct r2 as [[[name task0] start] | e | ]; try (inversion H; subst; now exists 0%nat).
  unfold bind at 1 in H.
  destruct (New.poll E fuel start task0 1500 h2) as [r3 h3] eqn:Hl.
  apply (new_poll_sleeps E fuel start 0%nat) in Hl as (l & n & -> & Hs).
  assert (Hq3 : sleeps_of (l ++ h2) = map backoff (seq 0 n)).
  { now rewrite sleeps_of_app, Hq2, Hs. }
  destruct r3 as [task | e | ]; inversion H; subst; now exists n.
Qed.

(** ** The mocked service *)

Lemma count_cons p e h :
  Script.count p (e :: h)
  = if p e then S (Script.count p h) else Script.count p h.
Proof. unfold Script.count. simpl. destruct (p e); reflexivity. Qed.

Lemma is_str_eq v lit : is_str v lit = true -> v = JStr lit.
Proof.
  destruct v; try discriminate. simpl. intros H.
  apply String.eqb_eq in H. now subst.
Qed.

Lemma old_submitted_pending task :
  is_str (field task "Status") "Submitted" = true -> old_pending task = true.
Proof. intros H. unfold old_pending. now rewrite (is_str_eq _ _ H). Qed.

Lemma new_submitted_pending task :
  is_str (field task "status") "Submitted" = true -> new_pending task = true.
Proof.
  intros H. unfold new_pending. rewrite (is_str_eq _ _ H). simpl.
  destruct task; try discriminate; reflexivity.
Qed.

Lemma new_completed_true task h :
  is_str (field task "status") "Completed" = true ->
  truthy (field (field task "resultUrls") "0") = true ->
  New.completed task h = (Ok true, h).
Proof.
  intros Hs Hr. unfold New.completed.
  assert (Ht : nullish task = false) by (destruct task; try discriminate; reflexivity).
  assert (Hu : nullish (field task "resultUrls") = false)
    by (destruct (field task "resultUrls"); try discriminate; reflexivity).
  now rewrite Ht, Hs, Hu, Hr.
Qed.

Lemma old_poll_next E fuel start budget task delay h body task' :
  old_pending task = true ->
  exceeds E (clock E h - start) budget = false ->
  answer E (EvSetTimeout delay :: EvDateNow :: h)
    (EvGetTaskStatus (field task "Id")) = Some body ->
  Old.parseTask E body [] = (Ok task', []) ->
  Old.poll E (S fuel) start budget task delay h
  = Old.poll E fuel start budget task' (next_delay delay)
      (EvGetTaskStatus (field task "Id") :: EvSetTimeout delay :: EvDateNow :: h).
Proof.
  intros Hpend Hclock Hans Hparse.
  rewrite old_poll_pending by exact Hpend. rewrite Hclock.
  unfold bind at 1. unfold getStatus, call. rewrite Hans.
  unfold bind. now rewrite old_parseTask_pure, Hparse.
Qed.

Lemma new_poll_next E fuel start task delay h task' :
  new_pending task = true ->
  (New.timeoutMs <? clock E h - start)%Z = false ->
  answer E (EvSetTimeout delay :: EvDateNow :: h)
    (EvGetTaskStatus (field task "taskId")) = Some task' ->
  New.poll E (S fuel) start task delay h
  = New.poll E fuel start task' (next_delay delay)
      (EvGetTaskStatus (field task "taskId") :: EvSetTimeout delay :: EvDateNow :: h).
Proof.
  intros Hpend Hclock Hans.
  rewrite new_poll_pending by exact Hpend. rewrite Hclock.
  unfold bind. unfold getStatus, call. now rewrite Hans.
Qed.

Lemma old_mocked_run E fuel start budget h t0 b1 b2 b3 t1 t2 t3 :
  Script.count Script.is_status_query h = 0%nat ->
  (forall h' id, answer E h' (EvGetTaskStatus id)
                 = nth_error [b1; b2; b3] (Script.count Script.is_status_query h')) ->
  (forall h', exceeds E (clock E h' - start) budget = false) ->
  Old.parseTask E b1 [] = (Ok t1, []) ->
  Old.parseTask E b2 [] = (Ok t2, []) ->
  Old.parseTask E b3 [] = (Ok t3, []) ->
  old_pending t0 = true ->
  is_str (field t1 "Status") "Submitted" = true ->
  is_str (field t2 "Status") "Submitted" = true ->
  is_str (field t3 "Status") "Completed" = true ->
  truthy (field t3 "resultUrl") = true ->
  Old.poll E (4 + fuel) start budget t0 1500 h
  = (Ok t3,
     [EvGetTaskStatus (field t2 "Id"); EvSetTimeout 3375; EvDateNow;
      EvGetTaskStatus (field t1 "Id"); EvSetTimeout 2250; EvDateNow;
      EvGetTaskStatus (field t0 "Id"); EvSetTimeout 1500; EvDateNow] ++ h).
Proof.
  intros Hc Hans Hclock Hp1 Hp2 Hp3 H0 H1 H2 H3 Hr.
  change (4 + fuel)%nat with (S (S (S (S fuel)))).
  rewrite (old_poll_next E _ start budget t0 1500 h b1 t1); auto.
  2:{ rewrite Hans, !count_cons, Hc. reflexivity. }
  rewrite (old_poll_next E _ start budget t1 _ _ b2 t2);
    auto using old_submitted_pending.
  2:{ rewrite Hans, !count_cons, Hc. reflexivity. }
  rewrite (old_poll_next E _ start budget t2 _ _ b3 t3);
    auto using old_submitted_pending.
  2:{ rewrite Hans, !count_cons, Hc. reflexivity. }
  rewrite old_poll_done by now rewrite H3, Hr.
  reflexivity.
Qed.

Lemma new_mocked_run E fuel start h t0 t1 t2 t3 :
  Script.count Script.is_status_query h = 0%nat ->
  (forall h' id, answer E h' (EvGetTaskStatus id)
                 = nth_error [t1; t2; t3] (Script.count Script.is_status_query h')) ->
  (forall h', (New.timeoutMs <? clock E h' - start)%Z = false) ->
  new_pending t0 = true ->
  is_str (field t1 "status") "Submitted" = true ->
  is_str (field t2 "status") "Submitted" = true ->
  is_str (field t3 "status") "Completed" = true ->
  truthy (field (field t3 "resultUrls") "0") = true ->
  New.poll E (4 + fuel) start t0 1500 h
  = (Ok t3,
     [EvGetTaskStatus (field t2 "taskId"); EvSetTimeout 3375; EvDateNow;
      EvGetTaskStatus (field t1 "taskId"); EvSetTimeout 2250; EvDateNow;
      EvGetTaskStatus (field t0 "taskId"); EvSetTimeout 1500; EvDateNow] ++ h).
Proof.
  intros Hc Hans Hclock H0 H1 H2 H3 Hr.
  change (4 + fuel)%nat with (S (S (S (S fuel)))).
  rewrite (new_poll_next E _ start t0 1500 h t1); auto.
  2:{ rewrite Hans, !count_cons, Hc. reflexivity. }
  rewrite (new_poll_next E _ start t1 _ _ t2); auto using new_submitted_pending.
  2:{ rewrite Hans, !count_cons, Hc. reflexivity. }
  rewrite (new_poll_next E _ start t2 _ _ t3); auto using new_submitted_pending.
  2:{ rewrite Hans, !count_cons, Hc. reflexivity. }
  rewrite new_poll_done by now apply new_completed_true.
  reflexivity.
Qed.

(** C3: the delays of the loop follow one schedule, [backoff]: 1500 first,
    then the minimum of one and a half times the previous delay and 7000; the
    schedule never decreases and never exceeds 7000.  In every run of either
    revision the delays slept, in order, are the first terms of that
    schedule.  And when the task of the submission is pending, the clock
    stays within the budget and the successive status queries are answered
    Submitted, Submitted, Completed with its result, the loop makes exactly
    those three status queries, sleeping 1500, 2250 and 3375 before them, and
    exits with the completed task. *)
Theorem backoff_schedule_and_mocked_run :
  (backoff 0 = 1500
   /\ (forall n, backoff (S n) == Qmin (backoff n * (3 # 2)) 7000)
   /\ (forall n, backoff n <= backoff (S n))
   /\ (forall n, backoff n <= 7000))
  /\ (forall E this fuel input r h,
        Old._call E this fuel input [] = (r, h) ->
        exists n, sleeps_of h = map backoff (seq 0 n))
  /\ (forall E this fuel input r h,
        New._call E this fuel input [] = (r, h) ->
        exists n, sleeps_of h = map backoff (seq 0 n))
  /\ (forall E fuel start budget h t0 b1 b2 b3 t1 t2 t3,
        Script.count Script.is_status_query h = 0%nat ->
        (forall h' id, answer E h' (EvGetTaskStatus id)
                       = nth_error [b1; b2; b3] (Script.count Script.is_status_query h')) ->
        (forall h', exceeds E (clock E h' - start) budget = false) ->
        Old.parseTask E b1 [] = (Ok t1, []) ->
        Old.parseTask E b2 [] = (Ok t2, []) ->
        Old.parseTask E b3 [] = (Ok t3, []) ->
        old_pending t0 = true ->
        is_str (field t1 "Status") "Submitted" = true ->
        is_str (field t2 "Status") "Submitted" = true ->
        is_str (field t3 "Status") "Completed" = true ->
        truthy (field t3 "resultUrl") = true ->
        Old.poll E (4 + fuel) start budget t0 1500 h
        = (Ok t3,
           [EvGetTaskStatus (field t2 "Id"); EvSetTimeout 3375; EvDateNow;
            EvGetTaskStatus (field t1 "Id"); EvSetTimeout 2250; EvDateNow;
            EvGetTaskStatus (field t0 "Id"); EvSetTimeout 1500; EvDateNow] ++ h))
  /\ (forall E fuel start h t0 t1 t2 t3,
        Script.count Script.is_status_query h = 0%nat ->
        (forall h' id, answer E h' (EvGetTaskStatus id)
                       = nth_error [t1; t2; t3] (Script.count Script.is_status_query h')) ->
        (forall h', (New.timeoutMs <? clock E h' - start)%Z = false) ->
        new_pending t0 = true ->
        is_str (field t1 "status") "Submitted" = true ->
        is_str (field t2 "status") "Submitted" = true ->
        is_str (field t3 "status") "Completed" = true ->
        truthy (field (field t3 "resultUrls") "0") = true ->
        New.poll E (4 + fuel) start t0 1500 h
        = (Ok t3,
           [EvGetTaskStatus (field t2 "taskId"); EvSetTimeout 3375; EvDateNow;
            EvGetTaskStatus (field t1 "taskId"); EvSetTimeout 2250; EvDateNow;
            EvGetTaskStatus (field t0 "taskId"); EvSetTimeout 1500; EvDateNow] ++ h)).
Proof.
  split; [ | split; [ | split; [ | split]]].
  - split; [reflexivity | ]. split; [exact backoff_step | ].
    split; [exact backoff_monotone | exact backoff_bounded].
  - exact old_call_sleeps.
  - exact new_call_sleeps.
  - exact old_mocked_run.
  - exact new_mocked_run.
Qed.

Lemma mocked_run_witness :
  (exists r h,
      Old._call (Script.play Fixtures.mocked_old) Fixtures.anonymous_old 9
        Fixtures.inline_pdf [] = (r, h)
      /\ exists n, sleeps_of h = map backoff (seq 0 n))
  /\ (exists r h,
      New._call (Script.play Fixtures.mocked_new) Fixtures.anonymous_new 9
        Fixtures.inline_pdf [] = (r, h)
      /\ exists n, sleeps_of h = map backoff (seq 0 n))
  /\ Old.poll (Script.play Fixtures.mocked_old) 4 0 (int 360000)
       Fixtures.queued_old 1500 []
     = (Ok Fixtures.completed_old,
        [EvGetTaskStatus (JStr "t1"); EvSetTimeout 3375; EvDateNow;
         EvGetTaskStatus (JStr "t1"); EvSetTimeout 2250; EvDateNow;
         EvGetTaskStatus (JStr "t1"); EvSetTimeout 1500; EvDateNow])
  /\ New.poll (Script.play Fixtures.mocked_new) 4 0 Fixtures.queued_new 1500 []
     = (Ok Fixtures.completed_new,
        [EvGetTaskStatus (JStr "t1"); EvSetTimeout 3375; EvDateNow;
         EvGetTaskStatus (JStr "t1"); EvSetTimeout 2250; EvDateNow;
         EvGetTaskStatus (JStr "t1"); EvSetTimeout 1500; EvDateNow]).
Proof.
  destruct backoff_schedule_and_mocked_run as (_ & Hold & Hnew & Hmold & Hmnew).
  split.
  { eexists. eexists. split; [vm_compute; reflexivity | ].
    eapply (Hold (Script.play Fixtures.mocked_old) Fixtures.anonymous_old 9%nat
              Fixtures.inline_pdf).
    vm_compute. reflexivity. }
  split.
  { eexists. eexists. split; [vm_compute; reflexivity | ].
    eapply (Hnew (Script.play Fixtures.mocked_new) Fixtures.anonymous_new 9%nat
              Fixtures.inline_pdf).
    vm_compute. reflexivity. }
  split.
  - apply (Hmold (Script.play Fixtures.mocked_old) 0%nat 0%Z (int 360000) []
             Fixtures.queued_old
             (Fixtures.body_old Fixtures.submitted_old)
             (Fixtures.body_old Fixtures.submitted_old)
             (Fixtures.body_old Fixtures.completed_old)
             Fixtures.submitted_old Fixtures.submitted_old Fixtures.completed_old);
      try reflexivity.
    intros h' id. simpl.
    destruct (Script.count Script.is_status_query h') as [ | [ | [ | [ | n]]]];
      reflexivity.
  - apply (Hmnew (Script.play Fixtures.mocked_new) 0%nat 0%Z []
             Fixtures.queued_new Fixtures.submitted_new Fixtures.submitted_new
             Fixtures.completed_new);
      try reflexivity.
    intros h' id. simpl.
    destruct (Script.count Script.is_status_query h') as [ | [ | [ | [ | n]]]];
      reflexivity.
Defined.

(** ** Success *)

Lemma call_ok E e h v h' :
  call E e h = (Ok v, h') -> answer E h e = Some v /\ h' = e :: h.
Proof.
  unfold call. destruct (answer E h e); intros H; inversion H. now split.
Qed.

Lemma old_parseTask_ok E body h task h' :
  Old.parseTask E body h = (Ok task, h') ->
  Old.parseTask E body [] = (Ok task, []) /\ h' = h.
Proof.
  rewrite old_parseTask_pure. intros H. inversion H; subst.
  split; [ | reflexivity].
  rewrite (old_parseTask_pure E body []). now rewrite H1.
Qed.

Lemma new_completed_ok task h h' :
  New.completed task h = (Ok true, h') ->
  is_str (field task "status") "Completed" = true
  /\ truthy (field (field task "resultUrls") "0") = true.
Proof.
  unfold New.completed, ret, throw.
  destruct (nullish task); [discriminate | ].
  destruct (is_str (field task "status") "Completed"); [ | discriminate].
  destruct (nullish (field task "resultUrls")); [discriminate | ].
  intros H. split; [reflexivity | ]. now injection H.
Qed.

Lemma old_poll_ok E fuel :
  forall start budget task delay h t h',
    Old.poll E fuel start budget task delay h = (Ok t, h') ->
    (is_str (field t "Status") "Completed" = true
     /\ truthy (field t "resultUrl") = true)
    /\ ((t = task /\ h' = h)
        \/ exists id before body,
             h' = EvGetTaskStatus id :: before
             /\ answer E before (EvGetTaskStatus id) = Some body
             /\ Old.parseTask E body [] = (Ok t, [])).
Proof.
  induction fuel as [ | fuel IH]; intros start budget task delay h t h' H.
  - discriminate.
  - destruct (is_str (field task "Status") "Completed"
              && truthy (field task "resultUrl")) eqn:Hdone.
    { rewrite old_poll_done in H by exact Hdone. inversion H; subst.
      split; [now apply andb_true_iff | now left]. }
    destruct (is_str (field task "Status") "ProcessingFailed") eqn:Hfail.
    { rewrite old_poll_failed in H by exact Hfail. discriminate. }
    rewrite old_poll_pending in H
      by (unfold old_pending; now rewrite Hdone, Hfail).
    destruct (exceeds E (clock E h - start) budget); [discriminate | ].
    apply bind_ok in H as (body & h1 & Hcall & H).
    apply call_ok in Hcall as [Hans ->].
    apply bind_ok in H as (task' & h2 & Hparse & H).
    apply old_parseTask_ok in Hparse as [Hparse ->].
    apply IH in H as [Hc [[-> ->] | (id & before & body' & -> & Hans' & Hparse')]].
    + split; [exact Hc | right].
      now exists (field task "Id"), (EvSetTimeout delay :: EvDateNow :: h), body.
    + split; [exact Hc | right]. now exists id, before, body'.
Qed.

Lemma new_poll_ok E fuel :
  forall start task delay h t h',
    New.poll E fuel start task delay h = (Ok t, h') ->
    (is_str (field t "status") "Completed" = true
     /\ truthy (field (field t "resultUrls") "0") = true)
    /\ ((t = task /\ h' = h)
        \/ exists id before,
             h' = EvGetTaskStatus id :: before
             /\ answer E before (EvGetTaskStatus id) = Some t).
Proof.
  induction fuel as [ | fuel IH]; intros start task delay h t h' H.
  - discriminate.
  - simpl in H. apply bind_ok in H as (done & h0 & Hc & H).
    rewrite new_completed_pure in Hc.
    assert (h0 = h) as -> by now inversion Hc.
    destruct done.
    + unfold ret in H. injection H as <- <-. split; [ | now left].
      rewrite <- (new_completed_pure task h) in Hc.
      now apply new_completed_ok in Hc.
    + destruct (is_str (field task "status") "ProcessingFailed"); [discriminate | ].
      apply bind_ok in H as (now_ & h1 & Hnow & H).
      inversion Hnow; subst.
      destruct (New.timeoutMs <? clock E h - start)%Z; [discriminate | ].
      apply bind_ok in H as (u & h2 & Hsleep & H). inversion Hsleep; subst.
      apply bind_ok in H as (task' & h3 & Hcall & H).
      apply call_ok in Hcall as [Hans ->].
      apply IH in H as [Hd [[-> ->] | (id & before & -> & Hans')]].
      * split; [exact Hd | right].
        now exists (field task "taskId"), (EvSetTimeout delay :: EvDateNow :: h).
      * split; [exact Hd | right]. now exists id, before.
Qed.

Lemma old_prepare_report E payload h name task0 start h2 :
  Old.prepare E payload h = (Ok (name, task0, start), h2) ->
  exists body,
    last_report E h2 = Some body /\ Old.parseTask E body [] = (Ok task0, []).
Proof.
  unfold Old.prepare. intros H.
  destruct (negb _ && _ && _); [discriminate | ].
  apply bind_ok in H as (buf & h1 & _ & H).
  apply bind_ok in H as (name' & h1' & _ & H).
  apply bind_ok in H as (xml & h3 & Hstart & H).
  unfold Old.startProcess in Hstart. apply call_ok in Hstart as [Hans ->].
  apply bind_ok in H as (task' & h4 & Hparse & H).
  apply old_parseTask_ok in Hparse as [Hparse ->].
  apply bind_ok in H as (start' & h5 & Hnow & H).
  inversion Hnow; subst. inversion H; subst.
  exists xml. split; [exact Hans | exact Hparse].
Qed.

Lemma new_prepare_report E payload h name task0 start h2 :
  New.prepare E payload h = (Ok (name, task0, start), h2) ->
  last_report E h2 = Some task0.
Proof.
  unfold New.prepare. intros H.
  destruct (negb _ && _); [discriminate | ].
  apply bind_ok in H as (buf & h1 & _ & H).
  apply bind_ok in H as (name' & h1' & _ & H).
  apply bind_ok in H as (json & h3 & Hstart & H).
  unfold New.startProcess in Hstart. apply call_ok in Hstart as [Hans ->].
  apply bind_ok in H as (task' & h4 & Hparse & H).
  rewrite new_parseTask_pure in Hparse. unfold New.parseTask in Hparse.
  destruct (negb _ || negb _); [discriminate | ].
  inversion Hparse; subst.
  apply bind_ok in H as (start' & h5 & Hnow & H).
  inversion Hnow; subst. inversion H; subst.
  exact Hans.
Qed.

(** C10: a run succeeds only when the latest answer of the service, to the
    submission or to a status query, carries the status 'Completed' and a
    result locator (resultUrl, resultUrls[0]) that is present, in both
    revisions.  In particular the loop does not leave with a task that is
    'Completed' without its locator: if it succeeds from there, it does so
    on the answer to a later status query, which is complete. *)
Theorem success_needs_completed_with_result (E : env) (fuel : nat) :
  (forall this input out h,
      Old._call E this fuel input [] = (Ok out, h) ->
      exists body task,
        last_report E h = Some body
        /\ Old.parseTask E body [] = (Ok task, [])
        /\ is_str (field task "Status") "Completed" = true
        /\ truthy (field task "resultUrl") = true)
  /\ (forall this input out h,
      New._call E this fuel input [] = (Ok out, h) ->
      exists task,
        last_report E h = Some task
        /\ is_str (field task "status") "Completed" = true
        /\ truthy (field (field task "resultUrls") "0") = true)
  /\ (forall start budget task delay h t h',
      truthy (field task "resultUrl") = false ->
      Old.poll E fuel start budget task delay h = (Ok t, h') ->
      exists id before body,
        h' = EvGetTaskStatus id :: before
        /\ answer E before (EvGetTaskStatus id) = Some body
        /\ Old.parseTask E body [] = (Ok t, [])
        /\ is_str (field t "Status") "Completed" = true
        /\ truthy (field t "resultUrl") = true)
  /\ (forall start task delay h t h',
      truthy (field (field task "resultUrls") "0") = false ->
      New.poll E fuel start task delay h = (Ok t, h') ->
      exists id before,
        h' = EvGetTaskStatus id :: before
        /\ answer E before (EvGetTaskStatus id) = Some t
        /\ is_str (field t "status") "Completed" = true
        /\ truthy (field (field t "resultUrls") "0") = true).
Proof.
  split; [ | split; [ | split]].
  - intros this input out h H.
    apply old_call_ok in H
      as (payload & h1 & name & task0 & start & h2 & task & h3 & _ & Hp & Hl & Hf).
    apply old_finish_ok in Hf as (docx & _ & -> & _).
    apply old_prepare_report in Hp as (body0 & Hrep & Hparse0).
    apply old_poll_ok in Hl
      as [[Hs Hu] [[-> ->] | (id & before & body & -> & Hans & Hparse)]].
    + now exists body0, task0.
    + now exists body, task.
  - intros this input out h H.
    apply new_call_ok in H
      as (payload & h1 & name & task0 & start & h2 & task & _ & Hp & Hl & _).
    apply new_prepare_report in Hp.
    apply new_poll_ok in Hl as [[Hs Hu] [[-> ->] | (id & before & -> & Hans)]].
    + now exists task0.
    + now exists task.
  - intros start budget task delay h t h' Hno H.
    apply old_poll_ok in H
      as [[Hs Hu] [[-> ->] | (id & before & body & -> & Hans & Hparse)]].
    + congruence.
    + now exists id, before, body.
  - intros start task delay h t h' Hno H.
    apply new_poll_ok in H as [[Hs Hu] [[-> ->] | (id & before & -> & Hans)]].
    + congruence.
    + now exists id, before.
Qed.

Lemma success_witness :
  (exists out h,
      Old._call (Script.play Fixtures.upload_old) Fixtures.caller_old 5 (obj []) []
      = (Ok out, h)
      /\ exists body task,
           last_report (Script.play Fixtures.upload_old) h = Some body
           /\ Old.parseTask (Script.play Fixtures.upload_old) body [] = (Ok task, [])
           /\ is_str (field task "Status") "Completed" = true
           /\ truthy (field task "resultUrl") = true)
  /\ (exists out h,
      New._call (Script.play Fixtures.upload_new) Fixtures.caller_new 5 (obj []) []
      = (Ok out, h)
      /\ exists task,
           last_report (Script.play Fixtures.upload_new) h = Some task
           /\ is_str (field task "status") "Completed" = true
           /\ truthy (field (field task "resultUrls") "0") = true)
  /\ (truthy (field Fixtures.bare_completed_old "resultUrl") = false
      /\ Old.poll (Script.play Fixtures.late_locator_old) 5 0 (int 360000)
           Fixtures.bare_completed_old 1500 []
         = (Ok Fixtures.completed_old,
            [EvGetTaskStatus (JStr "t1"); EvSetTimeout 1500; EvDateNow])
      /\ exists id before body,
           [EvGetTaskStatus (JStr "t1"); EvSetTimeout 1500; EvDateNow]
           = EvGetTaskStatus id :: before
           /\ answer (Script.play Fixtures.late_locator_old) before (EvGetTaskStatus id)
              = Some body
           /\ Old.parseTask (Script.play Fixtures.late_locator_old) body []
              = (Ok Fixtures.completed_old, [])
           /\ is_str (field Fixtures.completed_old "Status") "Completed" = true
           /\ truthy (field Fixtures.completed_old "resultUrl") = true)
  /\ (truthy (field (field Fixtures.bare_completed_new "resultUrls") "0") = false
      /\ New.poll (Script.play Fixtures.late_locator_new) 5 0
           Fixtures.bare_completed_new 1500 []
         = (Ok Fixtures.completed_new,
            [EvGetTaskStatus (JStr "t1"); EvSetTimeout 1500; EvDateNow])
      /\ exists id before,
           [EvGetTaskStatus (JStr "t1"); EvSetTimeout 1500; EvDateNow]
           = EvGetTaskStatus id :: before
           /\ answer (Script.play Fixtures.late_locator_new) before (EvGetTaskStatus id)
              = Some Fixtures.completed_new
           /\ is_str (field Fixtures.completed_new "status") "Completed" = true
           /\ truthy (field (field Fixtures.completed_new "resultUrls") "0") = true).
Proof.
  split.
  { eexists. eexists. split; [vm_compute; reflexivity | ].
    eapply (proj1 (success_needs_completed_with_result
                     (Script.play Fixtures.upload_old) 5)
              Fixtures.caller_old (obj [])).
    vm_compute. reflexivity. }
  split.
  { eexists. eexists. split; [vm_compute; reflexivity | ].
    eapply (proj1 (proj2 (success_needs_completed_with_result
                            (Script.play Fixtures.upload_new) 5))
              Fixtures.caller_new (obj [])).
    vm_compute. reflexivity. }
  split.
  - split; [reflexivity | ]. split; [reflexivity | ].
    apply (proj1 (proj2 (proj2 (success_needs_completed_with_result
                                  (Script.play Fixtures.late_locator_old) 5)))
             0%Z (int 360000) Fixtures.bare_completed_old 1500 []);
      reflexivity.
  - split; [reflexivity | ]. split; [reflexivity | ].
    apply (proj2 (proj2 (proj2 (success_needs_completed_with_result
                                  (Script.play Fixtures.late_locator_new) 5)))
             0%Z Fixtures.bare_completed_new 1500 []);
      reflexivity.
Defined.

(** ** The timeout *)

Lemma old_poll_timeout E fuel start budget task delay h :
  old_pending task = true ->
  exceeds E (clock E h - start) budget = true ->
  Old.poll E (S fuel) start budget task delay h = (Throw Timeout, EvDateNow :: h).
Proof. intros Hp Hx. rewrite old_poll_pending by exact Hp. now rewrite Hx. Qed.








(** The later revision does not read the timeout of the request: asked for
    one second, it finds the task pending two seconds after the start and
    polls on. *)
Lemma requested_timeout_is_not_read_by_later_revision :
  field Fixtures.hurried_request "timeoutMs" = int 1000
  /\ New.prepare (Script.play Fixtures.unhurried_new) Fixtures.hurried_request []
     = (Ok (JStr "converted.docx", Fixtures.queued_new, 0%Z),
        [EvDateNow;
         EvStart (obj [("decoded", JStr "JVBERi0xLjQK")])
           (JStr "English,Vietnamese") "docx"])
  /\ new_pending Fixtures.queued_new = true
  /\ (clock (Script.play Fixtures.unhurried_new)
        [EvDateNow;
         EvStart (obj [("decoded", JStr "JVBERi0xLjQK")])
           (JStr "English,Vietnamese") "docx"] - 0 = 2000)%Z
  /\ New._call (Script.play Fixtures.unhurried_new) Fixtures.anonymous_new 5
       Fixtures.hurried_request []
     = (Ok (Stringified (obj [("filename", JStr "converted.docx");
                              ("fileUrl", JStr "https://ocr.example/result/1")])),
        [EvGetTaskStatus (JStr "t1"); EvSetTimeout 2250; EvDateNow;
         EvGetTaskStatus (JStr "t1"); EvSetTimeout 1500; EvDateNow;
         EvDateNow;
         EvStart (obj [("decoded", JStr "JVBERi0xLjQK")])
           (JStr "English,Vietnamese") "docx"]).
Proof. repeat split; vm_compute; reflexivity. Qed.




(** ** Malformed answers *)

(** The older revision passes every answer of the service through
    [parseTask]: a body without a task, or whose task has no identifier,
    ends the run with the malformed-response error, whether it answers the
    submission or a status query. *)
Lemma old_parseTask_malformed E body parsed h :
  XMLParser_parse E body = Some parsed ->
  truthy (field (opt_field (opt_field parsed "response") "task") "Id") = false ->
  Old.parseTask E body h = (Throw Malformed, h).
Proof.
  intros Hx Hid. unfold Old.parseTask. rewrite Hx, Hid.
  now rewrite orb_true_r.
Qed.

Lemma old_poll_malformed E fuel start budget task delay h body :
  old_pending task = true ->
  exceeds E (clock E h - start) budget = false ->
  answer E (EvSetTimeout delay :: EvDateNow :: h)
    (EvGetTaskStatus (field task "Id")) = Some body ->
  Old.parseTask E body [] = (Throw Malformed, []) ->
  Old.poll E (S fuel) start budget task delay h
  = (Throw Malformed,
     EvGetTaskStatus (field task "Id") :: EvSetTimeout delay :: EvDateNow :: h).
Proof.
  intros Hpend Hclock Hans Hparse.
  rewrite old_poll_pending by exact Hpend. rewrite Hclock.
  unfold bind at 1. unfold getStatus, call. rewrite Hans.
  unfold bind. now rewrite old_parseTask_pure, Hparse.
Qed.

(** The later revision does so for the answer to the submission. *)
Lemma new_parseTask_malformed json h :
  truthy (field json "taskId") = false ->
  New.parseTask json h = (Throw Malformed, h).
Proof.
  intros Hid. unfold New.parseTask. rewrite Hid. now rewrite orb_true_r.
Qed.

Lemma old_run_with_lost_identifier :
  Old._call (Script.play Fixtures.lost_identifier_old) Fixtures.anonymous_old 5
    Fixtures.inline_pdf []
  = (Throw Malformed,
     [EvGetTaskStatus (JStr "t1"); EvSetTimeout 1500; EvDateNow; EvDateNow;
      EvStart (obj [("decoded", JStr "JVBERi0xLjQK")]) (JStr "eng") "docx"]).
Proof. vm_compute. reflexivity. Qed.

(** C7 at the failing input: in the later revision the answer to a status
    query is taken as the next task unchecked.  An answer without [taskId],
    which [parseTask] rejects, does not end the run: the loop sleeps again,
    queries the status of the task [undefined], and here goes on to
    succeed. *)
Lemma new_run_with_lost_identifier :
  New.parseTask Fixtures.nameless_new [] = (Throw Malformed, [])
  /\ New._call (Script.play Fixtures.lost_identifier_new) Fixtures.anonymous_new 5
       Fixtures.inline_pdf []
     = (Ok (Stringified (obj [("filename", JStr "converted.docx");
                              ("fileUrl", JStr "https://ocr.example/result/1")])),
        [EvGetTaskStatus JUndef; EvSetTimeout 2250; EvDateNow;
         EvGetTaskStatus (JStr "t1"); EvSetTimeout 1500; EvDateNow;
         EvDateNow;
         EvStart (obj [("decoded", JStr "JVBERi0xLjQK")])
           (JStr "English,Vietnamese") "docx"]).
Proof. split; vm_compute; reflexivity. Qed.

(** ** The latest upload *)

Section RegistryOrder.
Variable name_matches : string * string -> Registry.file_record -> bool.

Let newest_first (l : list Registry.file_record) : Prop :=
  forall x rest, l = x :: rest ->
  forall y, In y l -> (Registry.updatedAt y <= Registry.updatedAt x)%Z.

Lemma in_insert r l y :
  In y (Registry.insert r l) <-> y = r \/ In y l.
Proof.
  induction l as [ | x rest IH]; simpl.
  - intuition.
  - destruct (Registry.updatedAt x <=? Registry.updatedAt r)%Z; simpl.
    + intuition.
    + rewrite IH. intuition.
Qed.

Lemma insert_newest_first r l :
  newest_first l -> newest_first (Registry.insert r l).
Proof.
  unfold newest_first. intros Hl x rest Hx y Hy.
  apply in_insert in Hy.
  destruct l as [ | x0 rest0]; simpl in Hx.
  - inversion Hx; subst. destruct Hy as [-> | []]. lia.
  - destruct (Registry.updatedAt x0 <=? Registry.updatedAt r)%Z eqn:Hle.
    + inversion Hx; subst. apply Z.leb_le in Hle.
      destruct Hy as [-> | Hy]; [lia | ].
      specialize (Hl x0 rest0 eq_refl y Hy). lia.
    + inversion Hx; subst. apply Z.leb_gt in Hle.
      destruct Hy as [-> | Hy]; [lia | ].
      exact (Hl x rest0 eq_refl y Hy).
Qed.

Lemma sorted_newest_first l :
  newest_first (fold_right Registry.insert [] l).
Proof.
  induction l as [ | r l IH]; simpl.
  - intros x rest H. discriminate.
  - now apply insert_newest_first.
Qed.

Lemma in_sorted l y : In y (fold_right Registry.insert [] l) <-> In y l.
Proof.
  induction l as [ | r l IH]; simpl; [reflexivity | ].
  rewrite in_insert, IH. intuition.
Qed.

(** The head of what the registry answers is a matching record, and no
    matching record is more recent. *)
Lemma getFiles_head db q r rest :
  Registry.getFiles name_matches db q = r :: rest ->
  In r db
  /\ Registry.matches name_matches q r = true
  /\ forall r', In r' db -> Registry.matches name_matches q r' = true ->
                (Registry.updatedAt r' <= Registry.updatedAt r)%Z.
Proof.
  unfold Registry.getFiles. intros H.
  assert (Hin : In r (filter (Registry.matches name_matches q) db)).
  { apply in_sorted. rewrite H. now left. }
  apply filter_In in Hin as [Hin Hm].
  split; [exact Hin | ]. split; [exact Hm | ].
  intros r' Hin' Hm'.
  apply (sorted_newest_first _ r rest H).
  apply in_sorted. apply filter_In. now split.
Qed.
End RegistryOrder.

Lemma first_of_encoded r rest :
  first_of (Registry.encode_all (r :: rest)) = Registry.encode r.
Proof. reflexivity. Qed.

Lemma first_of_none : first_of (Registry.encode_all []) = JUndef.
Proof. reflexivity. Qed.

Lemma getFreshSignedURL_returns E req path user name h :
  exists url h', New.getFreshSignedURL E req path user name h = (Ok url, h').
Proof.
  unfold New.getFreshSignedURL, bind, attempt, ret.
  repeat match goal with
    | |- context [if ?c then _ else _] => destruct c
    | |- context [match ?x with _ => _ end] => destruct x
    end; eauto.
Qed.

Lemma old_name_filter nameHint h :
  (truthy nameHint = true -> typeof_string nameHint = true) ->
  Old.name_filter nameHint h
  = (Ok match nameHint with
        | JStr s => if (s =? "")%string then None else Some (s, escapeRegExp s)
        | _ => None
        end, h).
Proof.
  unfold Old.name_filter. intros H.
  destruct nameHint as [ | | b | n | s | a props]; try reflexivity.
  - destruct b; [specialize (H eq_refl); discriminate | reflexivity].
  - destruct (truthy (JNum n)) eqn:Hn; [specialize (H eq_refl); discriminate | reflexivity].
  - simpl. destruct (s =? "")%string; reflexivity.
  - specialize (H eq_refl). discriminate.
Qed.

Lemma old_resolve_takes_first E this input files :
  truthy (Old.userId this) = true ->
  no_explicit_source (normalize E input) ->
  (truthy (field (normalize E input) "filename") = true ->
   typeof_string (field (normalize E input) "filename") = true) ->
  answer E [] (EvGetFiles (old_query (Old.userId this) (normalize E input)))
  = Some files ->
  Old.resolve E this input []
  = (Ok (if truthy (field (first_of files) "filepath")
         then adopt (normalize E input)
                (field (first_of files) "filepath")
                (field (first_of files) "filename")
         else normalize E input),
     [EvGetFiles (old_query (Old.userId this) (normalize E input))]).
Proof.
  intros Hu (Hb & Hf & Hp & Hi) Hname Hans.
  unfold Old.resolve, Old.resolve_file_id. rewrite Hi. simpl andb.
  unfold bind at 1. unfold ret at 1.
  unfold Old.resolve_latest, Old.hasSource. rewrite Hb, Hf, Hp, Hu. simpl.
  unfold bind at 1. rewrite (old_name_filter _ _ Hname).
  unfold bind, attempt. unfold old_query in Hans. rewrite Hans.
  unfold first_of, opt_field.
  destruct (truthy (field (field files "0") "filepath")); reflexivity.
Qed.

Lemma new_resolve_takes_first E this input files :
  truthy (New.userId this) = true ->
  truthy (field (normalize E input) "base64") = false ->
  truthy (field (normalize E input) "fileUrl") = false ->
  answer E [] (EvGetFiles (new_query (New.userId this))) = Some files ->
  (truthy (field (first_of files) "filepath") = false ->
   New.resolve E this input []
   = (Ok (normalize E input), [EvGetFiles (new_query (New.userId this))]))
  /\ (truthy (field (first_of files) "filepath") = true ->
      exists freshUrl h',
        New.getFreshSignedURL E (New.req this)
          (field (first_of files) "filepath") (New.userId this)
          (field (first_of files) "filename")
          [EvGetFiles (new_query (New.userId this))] = (Ok freshUrl, h')
        /\ New.resolve E this input []
           = (Ok (adopt (normalize E input)
                    (coalesce freshUrl (field (first_of files) "filepath"))
                    (field (first_of files) "filename")), h')).
Proof.
  intros Hu Hb Hf Hans.
  assert (Hres : New.resolve E this input []
                 = (if truthy (field (first_of files) "filepath")
                    then
                      bind (New.getFreshSignedURL E (New.req this)
                              (field (first_of files) "filepath") (New.userId this)
                              (field (first_of files) "filename"))
                        (fun freshUrl =>
                           ret (adopt (normalize E input)
                                  (coalesce freshUrl (field (first_of files) "filepath"))
                                  (field (first_of files) "filename")))
                    else ret (normalize E input))
                     [EvGetFiles (new_query (New.userId this))]).
  { unfold New.resolve, New.resolve_latest. rewrite Hb, Hf, Hu. cbn [negb andb].
    unfold bind at 1. unfold attempt at 1. unfold new_query in Hans. rewrite Hans.
    reflexivity. }
  rewrite Hres. split; intros Hpath; rewrite Hpath.
  - reflexivity.
  - destruct (getFreshSignedURL_returns E (New.req this)
                (field (first_of files) "filepath") (New.userId this)
                (field (first_of files) "filename")
                [EvGetFiles (new_query (New.userId this))])
      as (url & h' & Hfresh).
    exists url, h'. split; [exact Hfresh | ].
    unfold bind. now rewrite Hfresh.
Qed.

(** C9: with a caller identity and no explicit source, the fallback asks
    the registry for the caller's PDFs (with the name filter, in the older
    revision, when the payload names a file), newest first, and looks at the
    first element of the answer only: that record is adopted when it has a
    path, and what is adopted is a function of the answer.  Under the
    registry of the spec, which answers the matching records by descending
    update time, that first element is a matching record than which no
    matching record is more recently updated. *)
Theorem latest_upload_is_chosen
  (name_matches : string * string -> Registry.file_record -> bool)
  (db : list Registry.file_record) :
  (forall q r rest,
      Registry.getFiles name_matches db q = r :: rest ->
      first_of (Registry.encode_all (r :: rest)) = Registry.encode r
      /\ In r db
      /\ Registry.matches name_matches q r = true
      /\ forall r', In r' db -> Registry.matches name_matches q r' = true ->
                    (Registry.updatedAt r' <= Registry.updatedAt r)%Z)
  /\ (forall E this input files,
      truthy (Old.userId this) = true ->
      no_explicit_source (normalize E input) ->
      (truthy (field (normalize E input) "filename") = true ->
       typeof_string (field (normalize E input) "filename") = true) ->
      answer E [] (EvGetFiles (old_query (Old.userId this) (normalize E input)))
      = Some files ->
      Old.resolve E this input []
      = (Ok (if truthy (field (first_of files) "filepath")
             then adopt (normalize E input)
                    (field (first_of files) "filepath")
                    (field (first_of files) "filename")
             else normalize E input),
         [EvGetFiles (old_query (Old.userId this) (normalize E input))]))
  /\ (forall E this input files,
      truthy (New.userId this) = true ->
      truthy (field (normalize E input) "base64") = false ->
      truthy (field (normalize E input) "fileUrl") = false ->
      answer E [] (EvGetFiles (new_query (New.userId this))) = Some files ->
      truthy (field (first_of files) "filepath") = true ->
      exists freshUrl h',
        New.getFreshSignedURL E (New.req this)
          (field (first_of files) "filepath") (New.userId this)
          (field (first_of files) "filename")
          [EvGetFiles (new_query (New.userId this))] = (Ok freshUrl, h')
        /\ New.resolve E this input []
           = (Ok (adopt (normalize E input)
                    (coalesce freshUrl (field (first_of files) "filepath"))
                    (field (first_of files) "filename")), h')).
Proof.
  split; [ | split].
  - intros q r rest H. split; [apply first_of_encoded | ].
    now apply (getFiles_head name_matches db q r rest).
  - intros. now apply old_resolve_takes_first.
  - intros E this input files Hu Hb Hf Hans Hpath.
    now apply (proj2 (new_resolve_takes_first E this input files Hu Hb Hf Hans)).
Qed.

Lemma latest_upload_witness :
  (Registry.getFiles Fixtures.exact_name Fixtures.uploads
     (old_query (JStr "u1") (obj [])) = [Fixtures.may; Fixtures.march]
   /\ first_of (Registry.encode_all [Fixtures.may; Fixtures.march])
      = Registry.encode Fixtures.may
   /\ In Fixtures.may Fixtures.uploads
   /\ Registry.matches Fixtures.exact_name (old_query (JStr "u1") (obj []))
        Fixtures.may = true
   /\ forall r', In r' Fixtures.uploads ->
         Registry.matches Fixtures.exact_name (old_query (JStr "u1") (obj [])) r' = true ->
         (Registry.updatedAt r' <= Registry.updatedAt Fixtures.may)%Z)
  /\ Old.resolve Fixtures.hosted Fixtures.caller_old (obj []) []
     = (Ok (obj [("fileUrl", JStr "https://files.example/uploads/u1/may.pdf");
                 ("filename", JStr "may.pdf")]),
        [EvGetFiles (LatestPdf (JStr "u1") None)])
  /\ (exists freshUrl h',
        New.getFreshSignedURL Fixtures.hosted JUndef
          (JStr "https://files.example/uploads/u1/may.pdf") (JStr "u1")
          (JStr "may.pdf") [EvGetFiles (LatestPdfWithPath (JStr "u1"))]
        = (Ok freshUrl, h')
        /\ New.resolve Fixtures.hosted Fixtures.caller_new (obj []) []
           = (Ok (adopt (obj [])
                    (coalesce freshUrl (JStr "https://files.example/uploads/u1/may.pdf"))
                    (JStr "may.pdf")), h')).
Proof.
  destruct (latest_upload_is_chosen Fixtures.exact_name Fixtures.uploads)
    as (Hreg & Hold & Hnew).
  split; [split; [reflexivity | ] | split].
  - apply (Hreg (old_query (JStr "u1") (obj [])) Fixtures.may [Fixtures.march]).
    reflexivity.
  - apply (Hold Fixtures.hosted Fixtures.caller_old (obj [])
             (Registry.encode_all [Fixtures.may; Fixtures.march])).
    + reflexivity.
    + repeat split.
    + intros H. discriminate H.
    + reflexivity.
  - apply (Hnew Fixtures.hosted Fixtures.caller_new (obj [])
             (Registry.encode_all [Fixtures.may; Fixtures.march]));
      reflexivity.
Defined.

(** ** The file name of a result *)









(** * Further properties of the two revisions *)

(** ** Which lookups a request causes *)

Lemma old_resolve_with_source E this input h :
  Old.hasSource (normalize E input) = true ->
  Old.resolve E this input h = (Ok (normalize E input), h).
Proof.
  intros Hs.
  assert (Hid : Old.resolve_file_id E (normalize E input) h
                = (Ok (normalize E input), h)).
  { unfold Old.resolve_file_id. unfold Old.hasSource in Hs.
    destruct (truthy (field (normalize E input) "base64")),
             (truthy (field (normalize E input) "fileUrl")),
             (truthy (field (normalize E input) "filePath"));
      try discriminate; rewrite ?andb_false_r; reflexivity. }
  unfold Old.resolve. rewrite (bind_step _ _ _ _ _ Hid).
  unfold Old.resolve_latest. now rewrite Hs.
Qed.

Lemma new_resolve_with_source E this input h :
  truthy (field (normalize E input) "base64")
  || truthy (field (normalize E input) "fileUrl") = true ->
  New.resolve E this input h = (Ok (normalize E input), h).
Proof.
  intros Hs. unfold New.resolve, New.resolve_latest.
  destruct (truthy (field (normalize E input) "base64")),
           (truthy (field (normalize E input) "fileUrl"));
    try discriminate; reflexivity.
Qed.

(** X1: a request that brings its own source (base64, fileUrl or, in the
    older revision, filePath) causes no registry lookup at all, with or
    without a file identifier or a caller identity: the fallbacks return the
    normalized payload as it is and leave the history untouched. *)
Theorem explicit_source_skips_the_registry (E : env) (input : value) (h : history) :
  (forall this : Old.tool,
      Old.hasSource (normalize E input) = true ->
      Old.resolve E this input h = (Ok (normalize E input), h))
  /\ (forall this : New.tool,
      truthy (field (normalize E input) "base64")
      || truthy (field (normalize E input) "fileUrl") = true ->
      New.resolve E this input h = (Ok (normalize E input), h)).
Proof.
  split; intros this Hs.
  - now apply old_resolve_with_source.
  - now apply new_resolve_with_source.
Qed.

Lemma explicit_source_witness :
  Old.resolve Fixtures.hosted Fixtures.caller_old
    (obj [("file_id", JStr "f1"); ("filePath", JStr "/data/in.pdf")]) []
  = (Ok (obj [("file_id", JStr "f1"); ("filePath", JStr "/data/in.pdf")]), [])
  /\ New.resolve Fixtures.hosted Fixtures.caller_new Fixtures.inline_pdf []
     = (Ok Fixtures.inline_pdf, []).
Proof.
  split.
  - apply (proj1 (explicit_source_skips_the_registry Fixtures.hosted
                    (obj [("file_id", JStr "f1"); ("filePath", JStr "/data/in.pdf")]) [])).
    reflexivity.
  - apply (proj2 (explicit_source_skips_the_registry Fixtures.hosted
                    Fixtures.inline_pdf [])).
    reflexivity.
Defined.

Lemma old_resolve_lookup_rejected E this input :
  truthy (Old.userId this) = true ->
  no_explicit_source (normalize E input) ->
  name_is_text (normalize E input) ->
  answer E [] (EvGetFiles (old_query (Old.userId this) (normalize E input))) = None ->
  Old.resolve E this input []
  = (Ok (normalize E input),
     [EvGetFiles (old_query (Old.userId this) (normalize E input))]).
Proof.
  intros Hu (Hb & Hf & Hp & Hi) Hname Hans.
  unfold Old.resolve, Old.resolve_file_id. rewrite Hi. simpl andb.
  unfold bind at 1. unfold ret at 1.
  unfold Old.resolve_latest, Old.hasSource. rewrite Hb, Hf, Hp, Hu. simpl.
  unfold bind at 1. rewrite (old_name_filter _ _ Hname).
  unfold bind, attempt. unfold old_query in Hans. now rewrite Hans.
Qed.

Lemma no_explicit_source_no_source payload :
  no_explicit_source payload -> Old.hasSource payload = false.
Proof. intros (Hb & Hf & Hp & _). unfold Old.hasSource. now rewrite Hb, Hf, Hp. Qed.

Lemma old_call_without_source E this fuel input h :
  credentials_missing E = false ->
  Old.resolve E this input [] = (Ok (normalize E input), h) ->
  Old.hasSource (normalize E input) = false ->
  Old._call E this fuel input [] = (Throw NoInput, h).
Proof.
  intros Hc Hr Hs. unfold Old._call, Old.convert. rewrite Hc.
  rewrite (bind_step _ _ _ _ _ Hr).
  apply bind_throw. now apply old_prepare_without_source.
Qed.

Lemma new_call_without_source E this fuel input h :
  credentials_missing E = false ->
  New.resolve E this input [] = (Ok (normalize E input), h) ->
  truthy (field (normalize E input) "base64") = false ->
  truthy (field (normalize E input) "fileUrl") = false ->
  New._call E this fuel input [] = (Throw NoInput, h).
Proof.
  intros Hc Hr Hb Hf. unfold New._call, New.convert. rewrite Hc.
  rewrite (bind_step _ _ _ _ _ Hr).
  apply bind_throw. now apply new_prepare_without_source.
Qed.

(** X2: a registry lookup that bears no fruit is not an error of its own.
    When the request has no source and the lookup is rejected, or answers
    nothing whose first element has a path, the [catch] (or the test on
    [latest?.filepath]) lets the run go on, and it ends with the no-input
    error right after that one lookup.  The same holds in the older revision
    for a file identifier that [findFileById] does not resolve, when no
    caller is known. *)
Theorem fruitless_lookup_is_a_missing_input (E : env) (fuel : nat) (input : value) :
  credentials_missing E = false ->
  (forall this : Old.tool,
      truthy (Old.userId this) = true ->
      no_explicit_source (normalize E input) ->
      name_is_text (normalize E input) ->
      (forall files,
          answer E [] (EvGetFiles (old_query (Old.userId this) (normalize E input)))
          = Some files ->
          truthy (field (first_of files) "filepath") = false) ->
      Old._call E this fuel input []
      = (Throw NoInput,
         [EvGetFiles (old_query (Old.userId this) (normalize E input))]))
  /\ (forall this : New.tool,
      truthy (New.userId this) = true ->
      truthy (field (normalize E input) "base64") = false ->
      truthy (field (normalize E input) "fileUrl") = false ->
      (forall files,
          answer E [] (EvGetFiles (new_query (New.userId this))) = Some files ->
          truthy (field (first_of files) "filepath") = false) ->
      New._call E this fuel input []
      = (Throw NoInput, [EvGetFiles (new_query (New.userId this))]))
  /\ (forall this : Old.tool,
      truthy (Old.userId this) = false ->
      Old.hasSource (normalize E input) = false ->
      truthy (field (normalize E input) "file_id") = true ->
      (forall file,
          answer E [] (EvFindFileById (field (normalize E input) "file_id"))
          = Some file ->
          truthy (field file "filepath") = false) ->
      Old._call E this fuel input []
      = (Throw NoInput, [EvFindFileById (field (normalize E input) "file_id")])).
Proof.
  intros Hc. split; [ | split].
  - intros this Hu Hno Hname Hfruit.
    apply old_call_without_source;
      [exact Hc | | now apply no_explicit_source_no_source].
    destruct (answer E [] (EvGetFiles (old_query (Old.userId this) (normalize E input))))
      as [files | ] eqn:Hans.
    + rewrite (old_resolve_takes_first E this input files Hu Hno Hname Hans).
      now rewrite (Hfruit files eq_refl).
    + now apply old_resolve_lookup_rejected.
  - intros this Hu Hb Hf Hfruit.
    apply new_call_without_source; [exact Hc | | exact Hb | exact Hf].
    destruct (answer E [] (EvGetFiles (new_query (New.userId this))))
      as [files | ] eqn:Hans.
    + apply (proj1 (new_resolve_takes_first E this input files Hu Hb Hf Hans)).
      now apply Hfruit.
    + unfold New.resolve, New.resolve_latest. rewrite Hb, Hf, Hu. cbn [negb andb].
      unfold bind, attempt. unfold new_query in Hans. now rewrite Hans.
  - intros this Hu Hs Hid Hfruit.
    apply old_call_without_source; [exact Hc | | exact Hs].
    unfold Old.resolve, Old.resolve_file_id. rewrite Hid.
    unfold Old.hasSource in Hs.
    destruct (truthy (field (normalize E input) "base64")) eqn:Hb,
             (truthy (field (normalize E input) "fileUrl")) eqn:Hf,
             (truthy (field (normalize E input) "filePath")) eqn:Hp;
      try discriminate.
    cbn [negb andb]. unfold bind at 1. unfold bind at 1. unfold attempt.
    destruct (answer E [] (EvFindFileById (field (normalize E input) "file_id")))
      as [file | ] eqn:Hans.
    + unfold opt_field. rewrite (Hfruit file eq_refl). unfold ret at 1.
      unfold Old.resolve_latest, Old.hasSource. rewrite Hb, Hf, Hp, Hu. reflexivity.
    + unfold ret at 1.
      unfold Old.resolve_latest, Old.hasSource. rewrite Hb, Hf, Hp, Hu. reflexivity.
Qed.

Lemma fruitless_lookup_witness :
  Old._call (Script.play Fixtures.silent) Fixtures.caller_old 3 (JStr "scan.pdf") []
  = (Throw NoInput,
     [EvGetFiles (LatestPdf (JStr "u1") (Some ("scan.pdf", "scan\.pdf")))])
  /\ New._call (Script.play Fixtures.silent) Fixtures.caller_new 3 (JStr "scan.pdf") []
     = (Throw NoInput, [EvGetFiles (LatestPdfWithPath (JStr "u1"))])
  /\ Old._call (Script.play Fixtures.silent) Fixtures.anonymous_old 3
       (obj [("file_id", JStr "f1")]) []
     = (Throw NoInput, [EvFindFileById (JStr "f1")]).
Proof.
  destruct (fruitless_lookup_is_a_missing_input (Script.play Fixtures.silent) 3
              (JStr "scan.pdf") eq_refl) as (Hold & Hnew & _).
  destruct (fruitless_lookup_is_a_missing_input (Script.play Fixtures.silent) 3
              (obj [("file_id", JStr "f1")]) eq_refl) as (_ & _ & Hid).
  split; [ | split].
  - apply (Hold Fixtures.caller_old); try reflexivity.
    + repeat split.
    + intros _. reflexivity.
    + intros files H. discriminate H.
  - apply (Hnew Fixtures.caller_new); try reflexivity.
    intros files H. discriminate H.
  - apply (Hid Fixtures.anonymous_old); try reflexivity.
    intros file H. discriminate H.
Defined.

Lemma adopt_has_source p url name :
  is_object p = true -> truthy url = true ->
  Old.hasSource (adopt p url name) = true.
Proof.
  intros Hp Hu. unfold Old.hasSource.
  rewrite (adopt_fileUrl p url name Hp), Hu. apply orb_true_iff. left.
  apply orb_true_r.
Qed.

(** X3: in the older revision a file identifier that resolves comes before
    the latest-upload lookup.  When the request has a [file_id] and no other
    source, and [findFileById] answers a record with a path, that path
    becomes the download URL and nothing else is asked of the registry, even
    for a known caller. *)
Theorem file_identifier_comes_first (E : env) (this : Old.tool) (input file : value) :
  truthy (field (normalize E input) "file_id") = true ->
  Old.hasSource (normalize E input) = false ->
  answer E [] (EvFindFileById (field (normalize E input) "file_id")) = Some file ->
  truthy (field file "filepath") = true ->
  Old.resolve E this input []
  = (Ok (adopt (normalize E input) (field file "filepath") (field file "filename")),
     [EvFindFileById (field (normalize E input) "file_id")]).
Proof.
  intros Hid Hs Hans Hpath.
  unfold Old.resolve, Old.resolve_file_id. rewrite Hid.
  pose proof Hs as Hs'. unfold Old.hasSource in Hs'.
  destruct (truthy (field (normalize E input) "base64")),
           (truthy (field (normalize E input) "fileUrl")),
           (truthy (field (normalize E input) "filePath"));
    try discriminate.
  cbn [negb andb]. unfold bind at 1. unfold bind at 1. unfold attempt.
  rewrite Hans. unfold opt_field. rewrite Hpath. unfold ret at 1.
  unfold Old.resolve_latest.
  rewrite adopt_has_source; [reflexivity | apply normalize_is_object | exact Hpath].
Qed.

Lemma file_identifier_witness :
  Old.resolve
    (Script.play
       {| Script.credentials := (JStr "app", JStr "secret");
          Script.json_texts := [];
          Script.file_by_id :=
            Some (obj [("filepath", JStr "https://files.example/uploads/u1/old.pdf");
                       ("filename", JStr "old.pdf")]);
          Script.files := Script.files Fixtures.upload_old;
          Script.signed_url := None;
          Script.submitted := None;
          Script.statuses := [];
          Script.afterwards := None;
          Script.readings := fun _ => 0%Z |})
    Fixtures.caller_old (obj [("file_id", JStr "f1")]) []
  = (Ok (obj [("file_id", JStr "f1");
              ("fileUrl", JStr "https://files.example/uploads/u1/old.pdf");
              ("filename", JStr "old.pdf")]),
     [EvFindFileById (JStr "f1")]).
Proof.
  apply (file_identifier_comes_first _ Fixtures.caller_old (obj [("file_id", JStr "f1")])
           (obj [("filepath", JStr "https://files.example/uploads/u1/old.pdf");
                 ("filename", JStr "old.pdf")]));
    reflexivity.
Defined.

(** ** What the fallbacks leave alone *)

Lemma same_elsewhere_refl p : is_object p = true -> same_elsewhere p p.
Proof. intros H. now split. Qed.

Lemma same_elsewhere_trans p q r :
  same_elsewhere p q -> same_elsewhere q r -> same_elsewhere p r.
Proof.
  intros [_ Hpq] [Hr Hqr]. split; [exact Hr | ].
  intros k Hu Hn. rewrite (Hqr k Hu Hn). now apply Hpq.
Qed.

Lemma same_elsewhere_adopt p url name :
  is_object p = true -> same_elsewhere p (adopt p url name).
Proof.
  intros Hp. split; [now apply adopt_is_object | ].
  intros k Hu Hn. unfold adopt.
  assert (Ek : forall k', k <> k' -> (k =? k')%string = false)
    by (intros k' Hk; now apply String.eqb_neq).
  destruct (truthy (field (set_field p "fileUrl" url) "filename")).
  - rewrite field_set_field by exact Hp. now rewrite (Ek _ Hu).
  - rewrite field_set_field by now apply set_field_is_object.
    rewrite (Ek _ Hn). rewrite field_set_field by exact Hp. now rewrite (Ek _ Hu).
Qed.

Lemma old_resolve_same_elsewhere E this input h p h' :
  Old.resolve E this input h = (Ok p, h') -> same_elsewhere (normalize E input) p.
Proof.
  intros H. unfold Old.resolve in H.
  apply bind_ok in H as (p1 & h1 & H1 & H2).
  assert (S1 : same_elsewhere (normalize E input) p1).
  { pose proof (normalize_is_object E input) as Hp.
    unfold Old.resolve_file_id, bind, attempt, ret in H1.
    split_run H1; inversion H1; subst;
      first [now apply same_elsewhere_adopt | now apply same_elsewhere_refl]. }
  apply (same_elsewhere_trans _ _ _ S1).
  destruct S1 as [Hp1 _].
  unfold Old.resolve_latest, Old.name_filter, bind, attempt, ret, throw in H2.
  split_run H2; inversion H2; subst;
    first [now apply same_elsewhere_adopt | now apply same_elsewhere_refl].
Qed.

Lemma new_resolve_same_elsewhere E this input h p h' :
  New.resolve E this input h = (Ok p, h') -> same_elsewhere (normalize E input) p.
Proof.
  intros H. pose proof (normalize_is_object E input) as Hp.
  unfold New.resolve, New.resolve_latest, bind, attempt, ret in H.
  split_run H; inversion H; subst;
    first [now apply same_elsewhere_adopt | now apply same_elsewhere_refl].
Qed.

(** X4: the fallbacks write two fields of the payload and no other.
    Whatever the registry answers, the payload that comes out of the source
    resolution is an object that agrees with the normalized request on every
    field but [fileUrl] and [filename]: the inline bytes, the language, the
    timeout and the file identifier are the request's. *)
Theorem fallbacks_write_two_fields_only (E : env) (input : value) (h : history) :
  (forall (this : Old.tool) payload h',
      Old.resolve E this input h = (Ok payload, h') ->
      is_object payload = true
      /\ forall k, k <> "fileUrl" -> k <> "filename" ->
                   field payload k = field (normalize E input) k)
  /\ (forall (this : New.tool) payload h',
      New.resolve E this input h = (Ok payload, h') ->
      is_object payload = true
      /\ forall k, k <> "fileUrl" -> k <> "filename" ->
                   field payload k = field (normalize E input) k).
Proof.
  split; intros this payload h' H.
  - exact (old_resolve_same_elsewhere E this input h payload h' H).
  - exact (new_resolve_same_elsewhere E this input h payload h' H).
Qed.

Lemma fallbacks_witness :
  (Old.resolve Fixtures.hosted Fixtures.caller_old
     (obj [("language", JStr "deu"); ("timeoutMs", int 1000)]) []
   = (Ok (obj [("language", JStr "deu"); ("timeoutMs", int 1000);
               ("fileUrl", JStr "https://files.example/uploads/u1/may.pdf");
               ("filename", JStr "may.pdf")]),
      [EvGetFiles (LatestPdf (JStr "u1") None)])
   /\ field (obj [("language", JStr "deu"); ("timeoutMs", int 1000);
                  ("fileUrl", JStr "https://files.example/uploads/u1/may.pdf");
                  ("filename", JStr "may.pdf")]) "timeoutMs"
      = field (normalize Fixtures.hosted
                 (obj [("language", JStr "deu"); ("timeoutMs", int 1000)])) "timeoutMs")
  /\ (New.resolve Fixtures.hosted Fixtures.caller_new
        (obj [("language", JStr "deu"); ("timeoutMs", int 1000)]) []
      = (Ok (obj [("language", JStr "deu"); ("timeoutMs", int 1000);
                  ("fileUrl", JStr "https://files.example/uploads/u1/may.pdf");
                  ("filename", JStr "may.pdf")]),
         [EvGetFiles (LatestPdfWithPath (JStr "u1"))])
      /\ field (obj [("language", JStr "deu"); ("timeoutMs", int 1000);
                     ("fileUrl", JStr "https://files.example/uploads/u1/may.pdf");
                     ("filename", JStr "may.pdf")]) "language"
         = field (normalize Fixtures.hosted
                    (obj [("language", JStr "deu"); ("timeoutMs", int 1000)])) "language").
Proof.
  destruct (fallbacks_write_two_fields_only Fixtures.hosted
              (obj [("language", JStr "deu"); ("timeoutMs", int 1000)]) [])
    as [Hold Hnew].
  split; (split; [reflexivity | ]).
  - eapply (Hold Fixtures.caller_old); [reflexivity | | ]; discriminate.
  - eapply (Hnew Fixtures.caller_new); [reflexivity | | ]; discriminate.
Defined.

(** ** The calls of a run *)

Lemma count_app p l h :
  Script.count p (l ++ h) = (Script.count p l + Script.count p h)%nat.
Proof. unfold Script.count. now rewrite filter_app, length_app. Qed.

Lemma count_none p l :
  Forall (fun e => p e = false) l -> Script.count p l = 0%nat.
Proof.
  unfold Script.count. induction 1 as [ | e l He _ IH]; [reflexivity | ].
  simpl. now rewrite He.
Qed.

Lemma grows_old_parseTask E P body : grows P (Old.parseTask E body).
Proof. unfold Old.parseTask. grows_cases. Qed.

Lemma grows_new_parseTask P body : grows P (New.parseTask body).
Proof. unfold New.parseTask. grows_cases. Qed.

Lemma grows_new_completed P task : grows P (New.completed task).
Proof. unfold New.completed. grows_cases. Qed.

Lemma grows_old_poll E (P : event -> Prop) :
  P EvDateNow -> (forall d, P (EvSetTimeout d)) -> (forall id, P (EvGetTaskStatus id)) ->
  forall fuel start budget task delay,
    grows P (Old.poll E fuel start budget task delay).
Proof.
  intros Hn Hs Hq. pose proof (grows_old_parseTask E P) as Hp.
  induction fuel as [ | fuel IH]; intros start budget task delay; simpl.
  - apply grows_spin.
  - unfold getStatus. grows_cases.
Qed.

Lemma grows_new_poll E (P : event -> Prop) :
  P EvDateNow -> (forall d, P (EvSetTimeout d)) -> (forall id, P (EvGetTaskStatus id)) ->
  forall fuel start task delay,
    grows P (New.poll E fuel start task delay).
Proof.
  intros Hn Hs Hq. pose proof (grows_new_completed P) as Hc.
  induction fuel as [ | fuel IH]; intros start task delay; simpl.
  - apply grows_spin.
  - unfold getStatus. grows_cases.
Qed.

Lemma old_startProcess_language E buffer requested h :
  Old.startProcess E buffer (or_else requested (JStr "eng")) "docx" h
  = call E (EvStart buffer (or_else requested (JStr "eng")) "docx") h.
Proof.
  unfold Old.startProcess, or_else.
  destruct (truthy requested) eqn:Ht; [ | reflexivity].
  destruct requested; try discriminate; reflexivity.
Qed.

Lemma grows_old_prepare E (P : event -> Prop) payload :
  (forall u, P (EvFetch u)) -> (forall f, P (EvReadFile f)) ->
  (forall b, P (EvStart b (or_else (field payload "language") (JStr "eng")) "docx")) ->
  P EvDateNow ->
  grows P (Old.prepare E payload).
Proof.
  intros Hf Hr Hs Hn. pose proof (grows_old_parseTask E P) as Hp.
  assert (Hstart : forall b,
             grows P (Old.startProcess E b
                        (or_else (field payload "language") (JStr "eng")) "docx")).
  { intros b h r h'. rewrite old_startProcess_language. now apply grows_call. }
  unfold Old.prepare, Old.resolvePdfBytes. grows_cases.
Qed.

Lemma grows_new_prepare E (P : event -> Prop) payload :
  (forall u, P (EvFetch u)) ->
  (forall b, P (EvStart b (JStr "English,Vietnamese") "docx")) ->
  P EvDateNow ->
  grows P (New.prepare E payload).
Proof.
  intros Hf Hs Hn. pose proof (grows_new_parseTask P) as Hp.
  unfold New.prepare, New.resolvePdfBytes, New.startProcess. grows_cases.
Qed.

Lemma grows_old_finish E (P : event -> Prop) name task :
  (forall u, P (EvFetch u)) -> grows P (Old.finish E name task).
Proof. intros Hf. unfold Old.finish, Old.downloadResult. grows_cases. Qed.

Lemma grows_new_finish (P : event -> Prop) name task :
  grows P (New.finish name task).
Proof. unfold New.finish. grows_cases. Qed.

Lemma grows_bind_ok {A B} (P : event -> Prop) (m : M A) (f : A -> M B) :
  grows P m ->
  (forall a h h', m h = (Ok a, h') -> grows P (f a)) ->
  grows P (bind m f).
Proof.
  intros Hm Hf h r h' H. unfold bind in H.
  destruct (m h) as [[a | e | ] h1] eqn:Em;
    destruct (Hm _ _ _ Em) as (l1 & -> & Hl1).
  - destruct (Hf a _ _ Em _ _ _ H) as (l2 & -> & Hl2).
    exists (l2 ++ l1). split; [now rewrite app_assoc | now apply Forall_app].
  - inversion H; subst. now exists l1.
  - inversion H; subst. now exists l1.
Qed.

Lemma grows_old_convert E (P : event -> Prop) fuel payload :
  (forall u, P (EvFetch u)) -> (forall f, P (EvReadFile f)) ->
  (forall b, P (EvStart b (or_else (field payload "language") (JStr "eng")) "docx")) ->
  P EvDateNow -> (forall d, P (EvSetTimeout d)) -> (forall id, P (EvGetTaskStatus id)) ->
  grows P (Old.convert E fuel payload).
Proof.
  intros Hf Hr Hs Hn Ht Hq. unfold Old.convert.
  apply grows_bind; [now apply grows_old_prepare | ].
  intros [[name task] start].
  apply grows_bind; [now apply grows_old_poll | ].
  intros task'. now apply grows_old_finish.
Qed.

Lemma grows_new_convert E (P : event -> Prop) fuel payload :
  (forall u, P (EvFetch u)) ->
  (forall b, P (EvStart b (JStr "English,Vietnamese") "docx")) ->
  P EvDateNow -> (forall d, P (EvSetTimeout d)) -> (forall id, P (EvGetTaskStatus id)) ->
  grows P (New.convert E fuel payload).
Proof.
  intros Hf Hs Hn Ht Hq. unfold New.convert.
  apply grows_bind; [now apply grows_new_prepare | ].
  intros [[name task] start].
  apply grows_bind; [now apply grows_new_poll | ].
  intros task'. apply grows_new_finish.
Qed.

Lemma grows_old_call E (P : event -> Prop) this fuel input :
  (forall e, is_registry_call e = true -> P e) ->
  (forall u, P (EvFetch u)) -> (forall f, P (EvReadFile f)) ->
  (forall b, P (EvStart b (or_else (field (normalize E input) "language") (JStr "eng"))
                  "docx")) ->
  P EvDateNow -> (forall d, P (EvSetTimeout d)) -> (forall id, P (EvGetTaskStatus id)) ->
  grows P (Old._call E this fuel input).
Proof.
  intros Hreg Hf Hr Hs Hn Ht Hq. unfold Old._call.
  destruct (credentials_missing E); [apply grows_throw | ].
  apply grows_bind_ok.
  - apply (grows_weaken _ _ _ Hreg (grows_old_resolve E this input)).
  - intros payload h h' Hres. apply grows_old_convert; auto.
    destruct (old_resolve_same_elsewhere _ _ _ _ _ _ Hres) as [_ Hsame].
    rewrite (Hsame "language") by discriminate. exact Hs.
Qed.

Lemma grows_new_call E (P : event -> Prop) this fuel input :
  (forall e, is_registry_call e = true -> P e) ->
  (forall u, P (EvFetch u)) ->
  (forall b, P (EvStart b (JStr "English,Vietnamese") "docx")) ->
  P EvDateNow -> (forall d, P (EvSetTimeout d)) -> (forall id, P (EvGetTaskStatus id)) ->
  grows P (New._call E this fuel input).
Proof.
  intros Hreg Hf Hs Hn Ht Hq. unfold New._call.
  destruct (credentials_missing E); [apply grows_throw | ].
  apply grows_bind.
  - apply (grows_weaken _ _ _ Hreg (grows_new_resolve E this input)).
  - intros payload. now apply grows_new_convert.
Qed.

Lemma grown_from_nothing {A} (P : event -> Prop) (m : M A) r h :
  grows P m -> m [] = (r, h) -> Forall P h.
Proof.
  intros G H. destruct (G _ _ _ H) as (l & -> & Hl). now rewrite app_nil_r.
Qed.

(** X5: the language of the job.  In every run of the older revision the
    submission, if there is one, asks for the language of the request when
    that is truthy and for 'eng' otherwise, whatever the registry fallbacks
    did to the payload; in every run of the later revision it asks for
    'English,Vietnamese' whatever the request says.  Both export docx. *)
Theorem language_of_the_submission (E : env) (fuel : nat) (input : value) :
  (forall (this : Old.tool) r h,
      Old._call E this fuel input [] = (r, h) ->
      Forall (submits_in (or_else (field (normalize E input) "language") (JStr "eng"))) h)
  /\ (forall (this : New.tool) r h,
      New._call E this fuel input [] = (r, h) ->
      Forall (submits_in (JStr "English,Vietnamese")) h).
Proof.
  split; intros this r h H.
  - apply (grown_from_nothing _ _ _ _
             (grows_old_call E
                (submits_in (or_else (field (normalize E input) "language") (JStr "eng")))
                this fuel input
                ltac:(intros [] He; try discriminate He; exact I)
                ltac:(intros; exact I) ltac:(intros; exact I)
                ltac:(intros; split; reflexivity)
                I ltac:(intros; exact I) ltac:(intros; exact I)) H).
  - apply (grown_from_nothing _ _ _ _
             (grows_new_call E (submits_in (JStr "English,Vietnamese"))
                this fuel input
                ltac:(intros [] He; try discriminate He; exact I)
                ltac:(intros; exact I)
                ltac:(intros; split; reflexivity)
                I ltac:(intros; exact I) ltac:(intros; exact I)) H).
Qed.

Lemma language_witness :
  (exists r h,
      Old._call (Script.play Fixtures.mocked_old) Fixtures.anonymous_old 9
        (obj [("base64", JStr "JVBERi0xLjQK"); ("language", JStr "deu")]) [] = (r, h)
      /\ In (EvStart (obj [("decoded", JStr "JVBERi0xLjQK")]) (JStr "deu") "docx") h
      /\ Forall (submits_in (JStr "deu")) h)
  /\ (exists r h,
      New._call (Script.play Fixtures.mocked_new) Fixtures.anonymous_new 9
        (obj [("base64", JStr "JVBERi0xLjQK"); ("language", JStr "deu")]) [] = (r, h)
      /\ In (EvStart (obj [("decoded", JStr "JVBERi0xLjQK")])
               (JStr "English,Vietnamese") "docx") h
      /\ Forall (submits_in (JStr "English,Vietnamese")) h).
Proof.
  split.
  - eexists. eexists. split; [vm_compute; reflexivity | ].
    split; [simpl; tauto | ].
    apply (proj1 (language_of_the_submission (Script.play Fixtures.mocked_old) 9
                    (obj [("base64", JStr "JVBERi0xLjQK"); ("language", JStr "deu")]))
             Fixtures.anonymous_old
             (fst (Old._call (Script.play Fixtures.mocked_old) Fixtures.anonymous_old 9
                (obj [("base64", JStr "JVBERi0xLjQK"); ("language", JStr "deu")]) []))).
    vm_compute. reflexivity.
  - eexists. eexists. split; [vm_compute; reflexivity | ].
    split; [simpl; tauto | ].
    apply (proj2 (language_of_the_submission (Script.play Fixtures.mocked_new) 9
                    (obj [("base64", JStr "JVBERi0xLjQK"); ("language", JStr "deu")]))
             Fixtures.anonymous_new
             (fst (New._call (Script.play Fixtures.mocked_new) Fixtures.anonymous_new 9
                (obj [("base64", JStr "JVBERi0xLjQK"); ("language", JStr "deu")]) []))).
    vm_compute. reflexivity.
Defined.

(** X6: without a caller identity nothing is asked of the host.  A tool of
    the later revision that knows no caller, and one of the older revision
    that knows no caller and is given no file identifier, make no registry
    or storage call in any run, whatever else the request holds. *)
Theorem anonymous_run_asks_no_registry (E : env) (fuel : nat) (input : value) :
  (forall (this : Old.tool) r h,
      truthy (Old.userId this) = false ->
      truthy (field (normalize E input) "file_id") = false ->
      Old._call E this fuel input [] = (r, h) ->
      Forall (fun e => is_registry_call e = false) h)
  /\ (forall (this : New.tool) r h,
      truthy (New.userId this) = false ->
      New._call E this fuel input [] = (r, h) ->
      Forall (fun e => is_registry_call e = false) h).
Proof.
  split.
  - intros this r h Hu Hid H. unfold Old._call in H.
    destruct (credentials_missing E); [inversion H; constructor | ].
    rewrite (bind_step _ _ _ _ _ (old_resolve_anonymous E this input [] Hu Hid)) in H.
    apply (grown_from_nothing _ _ _ _
             (grows_old_convert E (fun e => is_registry_call e = false) fuel
                (normalize E input)
                ltac:(reflexivity) ltac:(reflexivity) ltac:(reflexivity)
                eq_refl ltac:(reflexivity) ltac:(reflexivity)) H).
  - intros this r h Hu H. unfold New._call in H.
    destruct (credentials_missing E); [inversion H; constructor | ].
    rewrite (bind_step _ _ _ _ _ (new_resolve_anonymous E this input [] Hu)) in H.
    apply (grown_from_nothing _ _ _ _
             (grows_new_convert E (fun e => is_registry_call e = false) fuel
                (normalize E input)
                ltac:(reflexivity) ltac:(reflexivity)
                eq_refl ltac:(reflexivity) ltac:(reflexivity)) H).
Qed.

Lemma anonymous_run_witness :
  (exists r h,
      Old._call Fixtures.hosted Fixtures.anonymous_old 4 Fixtures.inline_pdf [] = (r, h)
      /\ Forall (fun e => is_registry_call e = false) h)
  /\ (exists r h,
      New._call Fixtures.hosted Fixtures.anonymous_new 4 (JStr "march.pdf") [] = (r, h)
      /\ Forall (fun e => is_registry_call e = false) h).
Proof.
  split.
  - eexists. eexists. split; [vm_compute; reflexivity | ].
    apply (proj1 (anonymous_run_asks_no_registry Fixtures.hosted 4 Fixtures.inline_pdf)
             Fixtures.anonymous_old
             (fst (Old._call Fixtures.hosted Fixtures.anonymous_old 4
                     Fixtures.inline_pdf [])));
      vm_compute; reflexivity.
  - eexists. eexists. split; [vm_compute; reflexivity | ].
    apply (proj2 (anonymous_run_asks_no_registry Fixtures.hosted 4 (JStr "march.pdf"))
             Fixtures.anonymous_new
             (fst (New._call Fixtures.hosted Fixtures.anonymous_new 4
                     (JStr "march.pdf") [])));
      vm_compute; reflexivity.
Defined.

(** ** How many calls, and in which order *)

Lemma quiet_stage_counts {A} (m : M A) h r h' :
  grows (fun e => is_start e = false /\ Script.is_status_query e = false
                  /\ Script.is_sleep e = false) m ->
  m h = (r, h') ->
  Script.count is_start h' = Script.count is_start h
  /\ Script.count Script.is_status_query h' = Script.count Script.is_status_query h
  /\ Script.count Script.is_sleep h' = Script.count Script.is_sleep h.
Proof.
  intros G H. destruct (G _ _ _ H) as (l & -> & Hl).
  rewrite !count_app.
  rewrite (count_none is_start l), (count_none Script.is_status_query l),
    (count_none Script.is_sleep l); auto;
    revert Hl; apply Forall_impl; tauto.
Qed.

Lemma output_filename_pure payload h r h' :
  output_filename payload h = (r, h') -> h' = h.
Proof.
  unfold output_filename, ret, throw.
  destruct (truthy (field payload "filename")); [ | now inversion 1].
  destruct (field payload "filename"); now inversion 1.
Qed.

Lemma old_startProcess_event E buffer language format h r h' :
  Old.startProcess E buffer language format h = (r, h') ->
  exists e, is_start e = true /\ h' = e :: h.
Proof.
  unfold Old.startProcess, call. intros H.
  destruct (answer E h _); inversion H; eexists; (split; [ | reflexivity]); reflexivity.
Qed.

Lemma new_startProcess_event E buffer language format h r h' :
  New.startProcess E buffer language format h = (r, h') ->
  exists e, is_start e = true /\ h' = e :: h.
Proof.
  unfold New.startProcess, call. intros H.
  destruct (answer E h _); inversion H; eexists; (split; [ | reflexivity]); reflexivity.
Qed.

Lemma old_resolvePdfBytes_quiet E payload :
  grows (fun e => is_start e = false /\ Script.is_status_query e = false
                  /\ Script.is_sleep e = false) (Old.resolvePdfBytes E payload).
Proof.
  unfold Old.resolvePdfBytes.
  repeat match goal with
    | |- grows _ (if ?c then _ else _) => destruct c
    | |- grows _ (match ?x with _ => _ end) => destruct x
    end;
    first [apply grows_ret | apply grows_throw | apply grows_call; auto].
Qed.

Lemma new_resolvePdfBytes_quiet E payload :
  grows (fun e => is_start e = false /\ Script.is_status_query e = false
                  /\ Script.is_sleep e = false) (New.resolvePdfBytes E payload).
Proof.
  unfold New.resolvePdfBytes.
  repeat match goal with
    | |- grows _ (if ?c then _ else _) => destruct c
    | |- grows _ (match ?x with _ => _ end) => destruct x
    end;
    first [apply grows_ret | apply grows_throw | apply grows_call; auto].
Qed.

(** Closing a count goal once the history is known. *)
Ltac count_up :=
  repeat rewrite count_cons; cbn [is_start Script.is_status_query Script.is_sleep];
  repeat split; try (intros ? Hok; discriminate Hok); intros; lia.

Lemma old_prepare_counts E payload h r h' :
  Old.prepare E payload h = (r, h') ->
  (Script.count is_start h' <= Script.count is_start h + 1)%nat
  /\ (forall a, r = Ok a -> Script.count is_start h' = Script.count is_start h + 1)%nat
  /\ Script.count Script.is_status_query h' = Script.count Script.is_status_query h
  /\ Script.count Script.is_sleep h' = Script.count Script.is_sleep h.
Proof.
  unfold Old.prepare. intros H.
  destruct (negb _ && _ && _); [inversion H; count_up | ].
  unfold bind at 1 in H.
  destruct (Old.resolvePdfBytes E payload h) as [r1 h1] eqn:Hb.
  destruct (quiet_stage_counts _ _ _ _ (old_resolvePdfBytes_quiet E payload) Hb)
    as (Hs1 & Hq1 & Hz1).
  destruct r1 as [buf | e | ]; try (inversion H; subst; count_up).
  unfold bind at 1 in H.
  destruct (output_filename payload h1) as [r2 h2] eqn:Hn.
  apply output_filename_pure in Hn as Hh2. subst h2.
  destruct r2 as [name | e | ]; try (inversion H; subst; count_up).
  unfold bind at 1 in H.
  destruct (Old.startProcess E buf _ "docx" h1) as [r3 h3] eqn:Hst.
  apply old_startProcess_event in Hst as (ev & Hev & ->).
  destruct r3 as [xml | e | ];
    try (inversion H; subst; repeat rewrite count_cons; rewrite ?Hev;
         destruct ev; try discriminate Hev; count_up).
  unfold bind at 1 in H. rewrite old_parseTask_pure in H.
  destruct (fst (Old.parseTask E xml [])) as [task | e | ];
    try (inversion H; subst; repeat rewrite count_cons; rewrite ?Hev;
         destruct ev; try discriminate Hev; count_up).
Qed.

Lemma new_prepare_counts E payload h r h' :
  New.prepare E payload h = (r, h') ->
  (Script.count is_start h' <= Script.count is_start h + 1)%nat
  /\ (forall a, r = Ok a -> Script.count is_start h' = Script.count is_start h + 1)%nat
  /\ Script.count Script.is_status_query h' = Script.count Script.is_status_query h
  /\ Script.count Script.is_sleep h' = Script.count Script.is_sleep h.
Proof.
  unfold New.prepare. intros H.
  destruct (negb _ && _); [inversion H; count_up | ].
  unfold bind at 1 in H.
  destruct (New.resolvePdfBytes E payload h) as [r1 h1] eqn:Hb.
  destruct (quiet_stage_counts _ _ _ _ (new_resolvePdfBytes_quiet E payload) Hb)
    as (Hs1 & Hq1 & Hz1).
  destruct r1 as [buf | e | ]; try (inversion H; subst; count_up).
  unfold bind at 1 in H.
  destruct (output_filename payload h1) as [r2 h2] eqn:Hn.
  apply output_filename_pure in Hn as Hh2. subst h2.
  destruct r2 as [name | e | ]; try (inversion H; subst; count_up).
  unfold bind at 1 in H.
  destruct (New.startProcess E buf _ "docx" h1) as [r3 h3] eqn:Hst.
  apply new_startProcess_event in Hst as (ev & Hev & ->).
  destruct r3 as [json | e | ];
    try (inversion H; subst; repeat rewrite count_cons; rewrite ?Hev;
         destruct ev; try discriminate Hev; count_up).
  unfold bind at 1 in H. rewrite new_parseTask_pure in H.
  destruct (fst (New.parseTask json [])) as [task | e | ];
    try (inversion H; subst; repeat rewrite count_cons; rewrite ?Hev;
         destruct ev; try discriminate Hev; count_up).
Qed.

Lemma old_poll_counts E fuel :
  forall start budget task delay h r h',
    Old.poll E fuel start budget task delay h = (r, h') ->
    Script.count is_start h' = Script.count is_start h
    /\ (Script.count Script.is_sleep h' + Script.count Script.is_status_query h
        = Script.count Script.is_status_query h' + Script.count Script.is_sleep h)%nat.
Proof.
  induction fuel as [ | fuel IH]; intros start budget task delay h r h' H.
  - inversion H. split; [reflexivity | lia].
  - simpl in H.
    destruct (is_str (field task "Status") "Completed" && truthy (field task "resultUrl")).
    { inversion H. split; [reflexivity | lia]. }
    destruct (is_str (field task "Status") "ProcessingFailed").
    { inversion H. split; [reflexivity | lia]. }
    unfold bind at 1 in H. unfold Date_now in H.
    destruct (exceeds E (clock E h - start) budget).
    { inversion H. repeat rewrite count_cons. cbn [is_start Script.is_status_query Script.is_sleep]. split; [reflexivity | lia]. }
    unfold bind at 1 in H. unfold sleep in H.
    unfold bind at 1 in H. unfold getStatus, call in H.
    destruct (answer E _ _) as [body | ].
    + unfold bind at 1 in H. rewrite old_parseTask_pure in H.
      destruct (fst (Old.parseTask E body [])) as [task' | e | ].
      * apply IH in H as [Hs Hq]. repeat rewrite count_cons in Hs; repeat rewrite count_cons in Hq.
        cbn [is_start Script.is_status_query Script.is_sleep] in Hs, Hq.
        split; [exact Hs | lia].
      * inversion H. repeat rewrite count_cons. cbn [is_start Script.is_status_query Script.is_sleep]. split; [reflexivity | lia].
      * inversion H. repeat rewrite count_cons. cbn [is_start Script.is_status_query Script.is_sleep]. split; [reflexivity | lia].
    + inversion H. repeat rewrite count_cons. cbn [is_start Script.is_status_query Script.is_sleep]. split; [reflexivity | lia].
Qed.

Lemma new_poll_counts E fuel :
  forall start task delay h r h',
    New.poll E fuel start task delay h = (r, h') ->
    Script.count is_start h' = Script.count is_start h
    /\ (Script.count Script.is_sleep h' + Script.count Script.is_status_query h
        = Script.count Script.is_status_query h' + Script.count Script.is_sleep h)%nat.
Proof.
  induction fuel as [ | fuel IH]; intros start task delay h r h' H.
  - inversion H. split; [reflexivity | lia].
  - simpl in H. unfold bind at 1 in H. rewrite new_completed_pure in H.
    destruct (fst (New.completed task [])) as [[ | ] | e | ];
      try (inversion H; split; [reflexivity | lia]).
    destruct (is_str (field task "status") "ProcessingFailed").
    { inversion H. split; [reflexivity | lia]. }
    unfold bind at 1 in H. unfold Date_now in H.
    destruct (New.timeoutMs <? clock E h - start)%Z.
    { inversion H. repeat rewrite count_cons. cbn [is_start Script.is_status_query Script.is_sleep]. split; [reflexivity | lia]. }
    unfold bind at 1 in H. unfold sleep in H.
    unfold bind in H. unfold getStatus, call in H.
    destruct (answer E _ _) as [task' | ].
    + apply IH in H as [Hs Hq]. repeat rewrite count_cons in Hs; repeat rewrite count_cons in Hq.
        cbn [is_start Script.is_status_query Script.is_sleep] in Hs, Hq.
      split; [exact Hs | lia].
    + inversion H. repeat rewrite count_cons. cbn [is_start Script.is_status_query Script.is_sleep]. split; [reflexivity | lia].
Qed.

Lemma registry_call_is_no_job_step e :
  is_registry_call e = true ->
  is_start e = false /\ Script.is_status_query e = false /\ Script.is_sleep e = false.
Proof. destruct e; simpl; intros H; try discriminate H; auto. Qed.

Lemma old_finish_no_job_step E name task :
  grows (fun e => is_start e = false /\ Script.is_status_query e = false
                  /\ Script.is_sleep e = false) (Old.finish E name task).
Proof. apply grows_old_finish. intros u. repeat split. Qed.

Lemma old_call_counts E this fuel input r h :
  Old._call E this fuel input [] = (r, h) ->
  (Script.count is_start h <= 1)%nat
  /\ Script.count Script.is_sleep h = Script.count Script.is_status_query h
  /\ (0 < Script.count Script.is_status_query h -> Script.count is_start h = 1)%nat.
Proof.
  unfold Old._call, Old.convert. intros H.
  destruct (credentials_missing E); [inversion H; cbn; lia | ].
  unfold bind at 1 in H.
  destruct (Old.resolve E this input []) as [r1 h1] eqn:Hr.
  destruct (quiet_stage_counts _ _ _ _
              (grows_weaken _ _ _ registry_call_is_no_job_step
                 (grows_old_resolve E this input)) Hr) as (Hs1 & Hq1 & Hz1).
  change (Script.count is_start []) with 0%nat in Hs1.
  change (Script.count Script.is_status_query []) with 0%nat in Hq1.
  change (Script.count Script.is_sleep []) with 0%nat in Hz1.
  destruct r1 as [payload | e | ]; try (inversion H; subst; lia).
  unfold bind at 1 in H.
  destruct (Old.prepare E payload h1) as [r2 h2] eqn:Hp.
  destruct (old_prepare_counts _ _ _ _ _ Hp) as (Hs2 & Hok2 & Hq2 & Hz2).
  destruct r2 as [[[name task0] start] | e | ]; try (inversion H; subst; lia).
  specialize (Hok2 _ eq_refl).
  unfold bind at 1 in H.
  destruct (Old.poll E fuel start (Old.budget payload) task0 1500 h2) as [r3 h3] eqn:Hl.
  destruct (old_poll_counts _ _ _ _ _ _ _ _ _ Hl) as (Hs3 & Hq3).
  destruct r3 as [task | e | ]; try (inversion H; subst; lia).
  destruct (quiet_stage_counts _ _ _ _ (old_finish_no_job_step E name task) H)
    as (Hs4 & Hq4 & Hz4).
  lia.
Qed.

Lemma new_call_counts E this fuel input r h :
  New._call E this fuel input [] = (r, h) ->
  (Script.count is_start h <= 1)%nat
  /\ Script.count Script.is_sleep h = Script.count Script.is_status_query h
  /\ (0 < Script.count Script.is_status_query h -> Script.count is_start h = 1)%nat.
Proof.
  unfold New._call, New.convert. intros H.
  destruct (credentials_missing E); [inversion H; cbn; lia | ].
  unfold bind at 1 in H.
  destruct (New.resolve E this input []) as [r1 h1] eqn:Hr.
  destruct (quiet_stage_counts _ _ _ _
              (grows_weaken _ _ _ registry_call_is_no_job_step
                 (grows_new_resolve E this input)) Hr) as (Hs1 & Hq1 & Hz1).
  change (Script.count is_start []) with 0%nat in Hs1.
  change (Script.count Script.is_status_query []) with 0%nat in Hq1.
  change (Script.count Script.is_sleep []) with 0%nat in Hz1.
  destruct r1 as [payload | e | ]; try (inversion H; subst; lia).
  unfold bind at 1 in H.
  destruct (New.prepare E payload h1) as [r2 h2] eqn:Hp.
  destruct (new_prepare_counts _ _ _ _ _ Hp) as (Hs2 & Hok2 & Hq2 & Hz2).
  destruct r2 as [[[name task0] start] | e | ]; try (inversion H; subst; lia).
  specialize (Hok2 _ eq_refl).
  unfold bind at 1 in H.
  destruct (New.poll E fuel start task0 1500 h2) as [r3 h3] eqn:Hl.
  destruct (new_poll_counts _ _ _ _ _ _ _ _ Hl) as (Hs3 & Hq3).
  destruct r3 as [task | e | ]; inversion H; subst; lia.
Qed.

(** X7: a job is submitted at most once in a run, never again after an
    error; every status query follows a sleep of its own, so there are as
    many sleeps as status queries; and the status is only ever queried of a
    job that was submitted.  In both revisions, for every request and every
    environment. *)
Theorem one_submission_and_a_sleep_per_query (E : env) (fuel : nat) (input : value) :
  (forall (this : Old.tool) r h,
      Old._call E this fuel input [] = (r, h) ->
      (Script.count is_start h <= 1)%nat
      /\ Script.count Script.is_sleep h = Script.count Script.is_status_query h
      /\ (0 < Script.count Script.is_status_query h -> Script.count is_start h = 1)%nat)
  /\ (forall (this : New.tool) r h,
      New._call E this fuel input [] = (r, h) ->
      (Script.count is_start h <= 1)%nat
      /\ Script.count Script.is_sleep h = Script.count Script.is_status_query h
      /\ (0 < Script.count Script.is_status_query h -> Script.count is_start h = 1)%nat).
Proof.
  split; intros this r h H.
  - exact (old_call_counts E this fuel input r h H).
  - exact (new_call_counts E this fuel input r h H).
Qed.

Lemma one_submission_witness :
  (exists r h,
      Old._call (Script.play Fixtures.mocked_old) Fixtures.anonymous_old 9
        Fixtures.inline_pdf [] = (r, h)
      /\ Script.count is_start h = 1%nat
      /\ Script.count Script.is_status_query h = 3%nat
      /\ (Script.count is_start h <= 1)%nat
      /\ Script.count Script.is_sleep h = Script.count Script.is_status_query h
      /\ (0 < Script.count Script.is_status_query h -> Script.count is_start h = 1)%nat)
  /\ (exists r h,
      New._call (Script.play Fixtures.endless_new) Fixtures.anonymous_new 3
        Fixtures.inline_pdf [] = (r, h)
      /\ r = Spin
      /\ (Script.count is_start h <= 1)%nat
      /\ Script.count Script.is_sleep h = Script.count Script.is_status_query h
      /\ (0 < Script.count Script.is_status_query h -> Script.count is_start h = 1)%nat).
Proof.
  split.
  - eexists. eexists. split; [vm_compute; reflexivity | ].
    split; [reflexivity | ]. split; [reflexivity | ].
    apply (proj1 (one_submission_and_a_sleep_per_query
                    (Script.play Fixtures.mocked_old) 9 Fixtures.inline_pdf)
             Fixtures.anonymous_old
             (fst (Old._call (Script.play Fixtures.mocked_old) Fixtures.anonymous_old 9
                     Fixtures.inline_pdf []))).
    vm_compute. reflexivity.
  - eexists. eexists. split; [vm_compute; reflexivity | ].
    split; [reflexivity | ].
    apply (proj2 (one_submission_and_a_sleep_per_query
                    (Script.play Fixtures.endless_new) 3 Fixtures.inline_pdf)
             Fixtures.anonymous_new
             (fst (New._call (Script.play Fixtures.endless_new) Fixtures.anonymous_new 3
                     Fixtures.inline_pdf []))).
    vm_compute. reflexivity.
Defined.

(** ** The identifier of the task *)

Lemma old_parseTask_identified E body h task h' :
  Old.parseTask E body h = (Ok task, h') -> truthy (field task "Id") = true.
Proof.
  unfold Old.parseTask, throw, ret.
  destruct (XMLParser_parse E body) as [parsed | ]; [ | discriminate].
  destruct (negb (truthy (opt_field (opt_field parsed "response") "task"))
            || negb (truthy (field (opt_field (opt_field parsed "response") "task") "Id")))
    eqn:Hbad; [discriminate | ].
  intros H. inversion H; subst.
  apply orb_false_iff in Hbad as [_ Hid]. now apply negb_false_iff in Hid.
Qed.

Lemma old_prepare_identified E payload h name task0 start h' :
  Old.prepare E payload h = (Ok (name, task0, start), h') ->
  truthy (field task0 "Id") = true.
Proof.
  unfold Old.prepare. intros H.
  destruct (negb _ && _ && _); [discriminate | ].
  apply bind_ok in H as (buf & h1 & _ & H).
  apply bind_ok in H as (name' & h2 & _ & H).
  apply bind_ok in H as (xml & h3 & _ & H).
  apply bind_ok in H as (task' & h4 & Hparse & H).
  apply bind_ok in H as (start' & h5 & _ & H).
  inversion H; subst. exact (old_parseTask_identified _ _ _ _ _ Hparse).
Qed.

Lemma old_poll_asks_known_task E fuel :
  forall start budget task delay,
    truthy (field task "Id") = true ->
    grows asks_known_task (Old.poll E fuel start budget task delay).
Proof.
  induction fuel as [ | fuel IH]; intros start budget task delay Hid; simpl.
  - apply grows_spin.
  - destruct (_ && _); [apply grows_ret | ].
    destruct (is_str _ _); [apply grows_throw | ].
    apply grows_bind; [now apply grows_Date_now | intros now_].
    destruct (exceeds _ _ _); [apply grows_throw | ].
    apply grows_bind; [now apply grows_sleep | intros _].
    apply grows_bind; [now apply grows_call | intros body].
    apply grows_bind_ok; [apply grows_old_parseTask | ].
    intros task' h h' Hparse. apply IH.
    exact (old_parseTask_identified _ _ _ _ _ Hparse).
Qed.

(** X8: the older revision never asks for the status of a task it cannot
    name.  Every answer of the service passes [parseTask] before its
    identifier is used, so in every run each status query carries a truthy
    task identifier. *)
Theorem older_revision_asks_of_known_tasks
  (E : env) (this : Old.tool) (fuel : nat) (input : value) (r : res output)
  (h : history) :
  Old._call E this fuel input [] = (r, h) -> Forall asks_known_task h.
Proof.
  apply grown_from_nothing. unfold Old._call, Old.convert.
  destruct (credentials_missing E); [apply grows_throw | ].
  apply grows_bind.
  - apply (grows_weaken (fun e => is_registry_call e = true)); [ | apply grows_old_resolve].
    intros [] He; try discriminate He; exact I.
  - intros payload. apply grows_bind_ok.
    + apply grows_old_prepare; intros; exact I.
    + intros [[name task0] start] h0 h1 Hp.
      apply grows_bind.
      * apply old_poll_asks_known_task. exact (old_prepare_identified _ _ _ _ _ _ _ Hp).
      * intros task. apply grows_old_finish. intros; exact I.
Qed.

Lemma known_tasks_witness :
  exists h,
    Old._call (Script.play Fixtures.lost_identifier_old) Fixtures.anonymous_old 5
      Fixtures.inline_pdf [] = (Throw Malformed, h)
    /\ In (EvGetTaskStatus (JStr "t1")) h
    /\ Forall asks_known_task h.
Proof.
  eexists. split; [vm_compute; reflexivity | ].
  split; [simpl; tauto | ].
  apply (older_revision_asks_of_known_tasks (Script.play Fixtures.lost_identifier_old)
           Fixtures.anonymous_old 5 Fixtures.inline_pdf (Throw Malformed)).
  vm_compute. reflexivity.
Defined.

(** ** The errors of a run *)

Section Throws.
Context {A B : Type} (Q : error -> Prop).

Lemma throws_ret (a : A) : throws_only Q (ret a).
Proof. intros h e h' H. discriminate H. Qed.

Lemma throws_spin : throws_only Q (@spin A).
Proof. intros h e h' H. discriminate H. Qed.

Lemma throws_throw (e : error) : Q e -> throws_only Q (@throw A e).
Proof. intros He h e' h' H. inversion H; subst. exact He. Qed.

Lemma throws_bind_ok (m : M A) (f : A -> M B) :
  throws_only Q m ->
  (forall a h h', m h = (Ok a, h') -> throws_only Q (f a)) ->
  throws_only Q (bind m f).
Proof.
  intros Hm Hf h e h' H. unfold bind in H.
  destruct (m h) as [[a | e0 | ] h1] eqn:Em.
  - exact (Hf a _ _ Em _ _ _ H).
  - inversion H; subst. exact (Hm _ _ _ Em).
  - discriminate H.
Qed.

Lemma throws_bind (m : M A) (f : A -> M B) :
  throws_only Q m -> (forall a, throws_only Q (f a)) -> throws_only Q (bind m f).
Proof. intros Hm Hf. apply throws_bind_ok; auto. Qed.
End Throws.

Section ThrowsCalls.
Variable E : env.
Variable Q : error -> Prop.

Lemma throws_attempt e : throws_only Q (attempt E e).
Proof. intros h e' h' H. discriminate H. Qed.

Lemma throws_call e : Q (Rejected e) -> throws_only Q (call E e).
Proof.
  intros He h e' h' H. unfold call in H.
  destruct (answer E h e); inversion H; subst. exact He.
Qed.

Lemma throws_Date_now : throws_only Q (Date_now E).
Proof. intros h e' h' H. discriminate H. Qed.

Lemma throws_sleep d : throws_only Q (sleep d).
Proof. intros h e' h' H. discriminate H. Qed.

Lemma throws_output_filename payload :
  Q TypeError -> throws_only Q (output_filename payload).
Proof.
  intros Ht. unfold output_filename.
  destruct (truthy (field payload "filename")); [ | apply throws_ret].
  destruct (field payload "filename"); try (now apply throws_throw). apply throws_ret.
Qed.
End ThrowsCalls.

Create HintDb throws.
#[local] Hint Resolve throws_ret throws_spin throws_throw throws_attempt throws_call
  throws_Date_now throws_sleep throws_output_filename : throws.

Ltac throws_cases :=
  repeat first
    [ apply throws_bind; [ | intros ? ]
    | match goal with
      | |- throws_only _ (if ?c then _ else _) => destruct c
      | |- throws_only _ (match ?x with _ => _ end) => destruct x
      | |- throws_only _ (let '(_, _) := ?x in _) => destruct x
      end
    | solve [ eauto with throws ] ].

Lemma throws_old_resolve E Q this input :
  Q TypeError -> throws_only Q (Old.resolve E this input).
Proof.
  intros Ht.
  unfold Old.resolve, Old.resolve_file_id, Old.resolve_latest, Old.name_filter.
  throws_cases.
Qed.

Lemma throws_getFreshSignedURL E Q req path user name :
  throws_only Q (New.getFreshSignedURL E req path user name).
Proof. unfold New.getFreshSignedURL. throws_cases. Qed.

Lemma throws_new_resolve E Q this input : throws_only Q (New.resolve E this input).
Proof.
  pose proof (throws_getFreshSignedURL E Q) as G.
  unfold New.resolve, New.resolve_latest. throws_cases; apply G.
Qed.

Lemma throws_old_parseTask E Q body :
  Q Malformed -> Q (Thrown "XMLParser.parse") -> throws_only Q (Old.parseTask E body).
Proof. intros Hm Ht. unfold Old.parseTask. throws_cases. Qed.

Lemma throws_new_parseTask Q body :
  Q Malformed -> throws_only Q (New.parseTask body).
Proof. intros Hm. unfold New.parseTask. throws_cases. Qed.

Lemma throws_old_prepare E Q payload :
  Q NoInput -> Q TypeError -> Q Malformed -> (forall s, Q (Thrown s)) ->
  (forall e, Q (Rejected e)) ->
  throws_only Q (Old.prepare E payload).
Proof.
  intros Hn Ht Hm Hs Hr. pose proof (throws_old_parseTask E Q) as Hp.
  unfold Old.prepare, Old.resolvePdfBytes, Old.startProcess.
  destruct (truthy (field payload "base64")),
           (truthy (field payload "fileUrl")),
           (truthy (field payload "filePath")); cbn [negb andb]; throws_cases.
Qed.

Lemma throws_new_prepare E Q payload :
  Q NoInput -> Q TypeError -> Q Malformed -> (forall s, Q (Thrown s)) ->
  (forall e, Q (Rejected e)) ->
  throws_only Q (New.prepare E payload).
Proof.
  intros Hn Ht Hm Hs Hr. pose proof (throws_new_parseTask Q) as Hp.
  unfold New.prepare, New.resolvePdfBytes, New.startProcess.
  destruct (truthy (field payload "base64")),
           (truthy (field payload "fileUrl")); cbn [negb andb]; throws_cases.
Qed.

Lemma throws_old_poll E Q :
  Q ProcessingFailed -> Q Malformed -> (forall s, Q (Thrown s)) ->
  (forall e, Q (Rejected e)) ->
  forall fuel start budget task delay,
    (Q Timeout \/ forall elapsed, exceeds E elapsed budget = false) ->
    throws_only Q (Old.poll E fuel start budget task delay).
Proof.
  intros Hf Hm Hs Hr. pose proof (throws_old_parseTask E Q) as Hp.
  induction fuel as [ | fuel IH]; intros start budget task delay Hto; simpl.
  - apply throws_spin.
  - destruct (_ && _); [apply throws_ret | ].
    destruct (is_str _ _); [now apply throws_throw | ].
    apply throws_bind; [apply throws_Date_now | intros now_].
    destruct (exceeds E (now_ - start) budget) eqn:Hx.
    + destruct Hto as [Hto | Hto]; [now apply throws_throw | ].
      rewrite Hto in Hx. discriminate Hx.
    + unfold getStatus. throws_cases.
Qed.

Lemma throws_new_poll E Q :
  Q ProcessingFailed -> Q Timeout -> Q TypeError -> (forall e, Q (Rejected e)) ->
  forall fuel start task delay,
    throws_only Q (New.poll E fuel start task delay).
Proof.
  intros Hf Hto Ht Hr.
  induction fuel as [ | fuel IH]; intros start task delay; simpl.
  - apply throws_spin.
  - unfold New.completed, getStatus. throws_cases.
Qed.

Lemma throws_old_finish E Q name task :
  (forall e, Q (Rejected e)) -> throws_only Q (Old.finish E name task).
Proof. intros Hr. unfold Old.finish, Old.downloadResult. throws_cases. Qed.

Lemma thrown {A} (Q : error -> Prop) (m : M A) h e h' :
  throws_only Q m -> m h = (Throw e, h') -> Q e.
Proof. intros T H. exact (T _ _ _ H). Qed.

(** X9: 'No PDF bytes.', the error of [resolvePdfBytes], never surfaces from
    [_call].  The validation that precedes it has the same three (two, in the
    later revision) tests, so whenever [resolvePdfBytes] runs one of its
    branches applies; a run without a source ends with the no-input error
    instead. *)
Theorem no_pdf_bytes_is_unreachable (E : env) (fuel : nat) (input : value)
  (h h' : history) :
  (forall this : Old.tool,
      Old._call E this fuel input h <> (Throw NoPdfBytes, h'))
  /\ (forall this : New.tool,
      New._call E this fuel input h <> (Throw NoPdfBytes, h')).
Proof.
  split; intros this H.
  - apply (thrown reachable_error _ _ _ _) in H; [exact H | ].
    unfold Old._call, Old.convert.
    destruct (credentials_missing E); [now apply throws_throw | ].
    apply throws_bind; [now apply throws_old_resolve | intros payload].
    apply throws_bind; [apply throws_old_prepare; intros; exact I | ].
    intros [[name task0] start].
    apply throws_bind; [apply throws_old_poll; intros; try exact I; now left | ].
    intros task. apply throws_old_finish. intros; exact I.
  - apply (thrown reachable_error _ _ _ _) in H; [exact H | ].
    unfold New._call, New.convert.
    destruct (credentials_missing E); [now apply throws_throw | ].
    apply throws_bind; [apply throws_new_resolve | intros payload].
    apply throws_bind; [apply throws_new_prepare; intros; exact I | ].
    intros [[name task0] start].
    apply throws_bind; [apply throws_new_poll; intros; exact I | ].
    intros task. unfold New.finish. apply throws_ret.
Qed.

(** ** A timeout that is not a number *)

Lemma old_budget_of_resolved E this input h payload h' :
  Old.resolve E this input h = (Ok payload, h') ->
  Old.budget payload = Old.budget (normalize E input).
Proof.
  intros H. destruct (old_resolve_same_elsewhere _ _ _ _ _ _ H) as [_ Hsame].
  unfold Old.budget. now rewrite (Hsame "timeoutMs") by discriminate.
Qed.

Lemma old_call_never_times_out E this fuel input h h' :
  to_num E (Old.budget (normalize E input)) = NaN
  \/ to_num E (Old.budget (normalize E input)) = PosInf ->
  Old._call E this fuel input h <> (Throw Timeout, h').
Proof.
  intros Hnum H.
  apply (thrown not_timeout _ _ _ _) in H; [exact H | ].
  unfold Old._call, Old.convert.
  destruct (credentials_missing E); [now apply throws_throw | ].
  apply throws_bind_ok; [now apply throws_old_resolve | ].
  intros payload h0 h1 Hres.
  apply throws_bind; [apply throws_old_prepare; intros; exact I | ].
  intros [[name task0] start].
  apply throws_bind.
  - apply throws_old_poll; intros; try exact I. right.
    intros elapsed. rewrite (old_budget_of_resolved _ _ _ _ _ _ Hres).
    unfold exceeds. destruct Hnum as [-> | ->]; reflexivity.
  - intros task. apply throws_old_finish. intros; exact I.
Qed.

Lemma exceeds_finite E elapsed budget q :
  to_num E budget = Fin q ->
  exceeds E elapsed budget = true <-> (q < inject_Z elapsed)%Q.
Proof.
  intros Hq. unfold exceeds. rewrite Hq. rewrite negb_true_iff.
  split.
  - intros H. apply Qnot_le_lt. intros Hle.
    apply Qle_bool_iff in Hle. congruence.
  - intros H. destruct (Qle_bool (inject_Z elapsed) q) eqn:Hb; [ | reflexivity].
    apply Qle_bool_iff in Hb. apply Qlt_not_le in H. now elim H.
Qed.

(** X10: the older revision compares a truthy [timeoutMs] as a number,
    whatever its type.  When it converts to NaN (a word, an object) or is
    Infinity, the comparison [Date.now() - start > timeoutMs] is false at every
    reading of the clock, and no run ends with the timeout error, however long
    the service stays pending.  When it converts to a finite number, as a
    number or a numeric string such as "1000" does, that number is the budget:
    the comparison holds exactly when the elapsed time is above it, and an
    iteration that finds the task pending and the elapsed time above it throws
    the timeout error. *)
Theorem timeout_is_compared_as_a_number (E : env) (this : Old.tool) (fuel : nat)
  (input : value) :
  (to_num E (Old.budget (normalize E input)) = NaN
   \/ to_num E (Old.budget (normalize E input)) = PosInf ->
   forall h h', Old._call E this fuel input h <> (Throw Timeout, h'))
  /\ (forall q,
      to_num E (Old.budget (normalize E input)) = Fin q ->
      (forall elapsed,
          exceeds E elapsed (Old.budget (normalize E input)) = true
          <-> (q < inject_Z elapsed)%Q)
      /\ (forall start task delay h,
          old_pending task = true ->
          (q < inject_Z (clock E h - start))%Q ->
          Old.poll E (S fuel) start (Old.budget (normalize E input)) task delay h
          = (Throw Timeout, EvDateNow :: h))).
Proof.
  split.
  - intros Hnum h h'. now apply old_call_never_times_out.
  - intros q Hq. split.
    + intros elapsed. now apply exceeds_finite.
    + intros start task delay h Hp Hlt. apply old_poll_timeout; [exact Hp | ].
      now apply (exceeds_finite E _ _ q Hq).
Qed.

Lemma numeric_timeout_witness :
  to_num (Fixtures.numerate (Script.play Fixtures.endless_old))
    (Old.budget (normalize (Fixtures.numerate (Script.play Fixtures.endless_old))
                   Fixtures.vague_request))
  = NaN
  /\ Old._call (Fixtures.numerate (Script.play Fixtures.endless_old))
       Fixtures.anonymous_old 40 Fixtures.vague_request []
     <> (Throw Timeout, [])
  /\ fst (Old._call (Fixtures.numerate (Script.play Fixtures.endless_old))
            Fixtures.anonymous_old 40 Fixtures.vague_request [])
     = Spin
  /\ to_num (Fixtures.numerate (Script.play Fixtures.endless_old))
       (Old.budget (normalize (Fixtures.numerate (Script.play Fixtures.endless_old))
                      Fixtures.spelled_request))
     = Fin 1000
  /\ Old.poll (Fixtures.numerate (Script.play Fixtures.endless_old)) 1 0
       (Old.budget (normalize (Fixtures.numerate (Script.play Fixtures.endless_old))
                      Fixtures.spelled_request))
       Fixtures.submitted_old 1500 [EvDateNow; EvDateNow]
     = (Throw Timeout, [EvDateNow; EvDateNow; EvDateNow])
  /\ fst (Old._call (Fixtures.numerate (Script.play Fixtures.endless_old))
            Fixtures.anonymous_old 40 Fixtures.spelled_request [])
     = Throw Timeout.
Proof.
  split; [reflexivity | ]. split.
  { apply (proj1 (timeout_is_compared_as_a_number
                    (Fixtures.numerate (Script.play Fixtures.endless_old))
                    Fixtures.anonymous_old 40 Fixtures.vague_request)).
    left. reflexivity. }
  split; [vm_compute; reflexivity | ].
  split; [vm_compute; reflexivity | ].
  split; [ | vm_compute; reflexivity].
  apply (proj2 (proj2 (timeout_is_compared_as_a_number
                         (Fixtures.numerate (Script.play Fixtures.endless_old))
                         Fixtures.anonymous_old 0 Fixtures.spelled_request)
                  1000 ltac:(vm_compute; reflexivity))).
  - reflexivity.
  - vm_compute. reflexivity.
Defined.

Lemma no_pdf_bytes_witness :
  Old._call (Script.play Fixtures.silent) Fixtures.anonymous_old 3
    (obj [("file_id", JStr "f1")]) [] <> (Throw NoPdfBytes, [EvFindFileById (JStr "f1")])
  /\ New._call (Script.play Fixtures.silent) Fixtures.anonymous_new 3
       (obj [("filePath", JStr "/data/in.pdf")]) [] <> (Throw NoPdfBytes, []).
Proof.
  split.
  - apply (proj1 (no_pdf_bytes_is_unreachable (Script.play Fixtures.silent) 3
                    (obj [("file_id", JStr "f1")]) [] [EvFindFileById (JStr "f1")])).
  - apply (proj2 (no_pdf_bytes_is_unreachable (Script.play Fixtures.silent) 3
                    (obj [("filePath", JStr "/data/in.pdf")]) [] [])).
Defined.

(** ** A file name that is not a string *)

Lemma output_filename_not_text payload h :
  truthy (field payload "filename") = true ->
  typeof_string (field payload "filename") = false ->
  output_filename payload h = (Throw TypeError, h).
Proof.
  unfold output_filename. intros -> Hs.
  destruct (field payload "filename"); try discriminate Hs; reflexivity.
Qed.

Lemma returns_ret {A} (a : A) : returns (ret a).
Proof. intros h h' H. discriminate H. Qed.

Lemma returns_throw {A} (e : error) : returns (@throw A e).
Proof. intros h h' H. discriminate H. Qed.

Lemma returns_bind {A B} (m : M A) (f : A -> M B) :
  returns m -> (forall a, returns (f a)) -> returns (bind m f).
Proof.
  intros Hm Hf h h' H. unfold bind in H.
  destruct (m h) as [[a | e | ] h1] eqn:Em.
  - exact (Hf a _ _ H).
  - discriminate H.
  - exact (Hm _ _ Em).
Qed.

Lemma returns_attempt E e : returns (attempt E e).
Proof. intros h h' H. discriminate H. Qed.

Lemma returns_call E e : returns (call E e).
Proof. intros h h' H. unfold call in H. destruct (answer E h e); discriminate H. Qed.

Create HintDb returns.
#[local] Hint Resolve returns_ret returns_throw returns_attempt returns_call : returns.

Ltac returns_cases :=
  repeat first
    [ apply returns_bind; [ | intros ? ]
    | match goal with
      | |- returns (if ?c then _ else _) => destruct c
      | |- returns (match ?x with _ => _ end) => destruct x
      end
    | solve [ eauto with returns ] ].

Lemma old_resolve_returns E this input : returns (Old.resolve E this input).
Proof.
  unfold Old.resolve, Old.resolve_file_id, Old.resolve_latest, Old.name_filter.
  returns_cases.
Qed.

Lemma getFreshSignedURL_always_returns E req path user name :
  returns (New.getFreshSignedURL E req path user name).
Proof. unfold New.getFreshSignedURL. returns_cases. Qed.

Lemma new_resolve_returns E this input : returns (New.resolve E this input).
Proof.
  pose proof (getFreshSignedURL_always_returns E) as G.
  unfold New.resolve, New.resolve_latest. returns_cases; apply G.
Qed.

Lemma old_resolvePdfBytes_returns E payload : returns (Old.resolvePdfBytes E payload).
Proof. unfold Old.resolvePdfBytes. returns_cases. Qed.

Lemma new_resolvePdfBytes_returns E payload : returns (New.resolvePdfBytes E payload).
Proof. unfold New.resolvePdfBytes. returns_cases. Qed.

Lemma old_prepare_not_text E payload h r h' :
  truthy (field payload "filename") = true ->
  typeof_string (field payload "filename") = false ->
  Old.prepare E payload h = (r, h') ->
  (exists e, r = Throw e) /\ Script.count is_start h' = Script.count is_start h.
Proof.
  intros Ht Hs H. unfold Old.prepare in H.
  destruct (negb _ && _ && _); [inversion H; eauto | ].
  unfold bind at 1 in H.
  destruct (Old.resolvePdfBytes E payload h) as [r1 h1] eqn:Hb.
  destruct (quiet_stage_counts _ _ _ _ (old_resolvePdfBytes_quiet E payload) Hb)
    as (Hs1 & _ & _).
  destruct r1 as [buf | e | ].
  - unfold bind at 1 in H. rewrite (output_filename_not_text _ _ Ht Hs) in H.
    inversion H; subst. eauto.
  - inversion H; subst. eauto.
  - now apply old_resolvePdfBytes_returns in Hb.
Qed.

Lemma new_prepare_not_text E payload h r h' :
  truthy (field payload "filename") = true ->
  typeof_string (field payload "filename") = false ->
  New.prepare E payload h = (r, h') ->
  (exists e, r = Throw e) /\ Script.count is_start h' = Script.count is_start h.
Proof.
  intros Ht Hs H. unfold New.prepare in H.
  destruct (negb _ && _); [inversion H; eauto | ].
  unfold bind at 1 in H.
  destruct (New.resolvePdfBytes E payload h) as [r1 h1] eqn:Hb.
  destruct (quiet_stage_counts _ _ _ _ (new_resolvePdfBytes_quiet E payload) Hb)
    as (Hs1 & _ & _).
  destruct r1 as [buf | e | ].
  - unfold bind at 1 in H. rewrite (output_filename_not_text _ _ Ht Hs) in H.
    inversion H; subst. eauto.
  - inversion H; subst. eauto.
  - now apply new_resolvePdfBytes_returns in Hb.
Qed.

(** X11: a file name that is truthy but not a string (a number or an object
    out of a JSON text) never reaches the service.  [endsWith], or in the
    older revision [replace] on the name hint, is called on it outside any
    [try]: every run ends with an exception, and no job has been submitted. *)
Theorem name_that_is_not_text_submits_nothing (E : env) (fuel : nat) (input : value) :
  truthy (field (normalize E input) "filename") = true ->
  typeof_string (field (normalize E input) "filename") = false ->
  (forall (this : Old.tool) r h,
      Old._call E this fuel input [] = (r, h) ->
      (exists e, r = Throw e) /\ Script.count is_start h = 0%nat)
  /\ (forall (this : New.tool) r h,
      New._call E this fuel input [] = (r, h) ->
      (exists e, r = Throw e) /\ Script.count is_start h = 0%nat).
Proof.
  intros Ht Hs. split; intros this r h H.
  - unfold Old._call, Old.convert in H.
    destruct (credentials_missing E); [inversion H; eauto | ].
    unfold bind at 1 in H.
    destruct (Old.resolve E this input []) as [r1 h1] eqn:Hr.
    destruct (quiet_stage_counts _ _ _ _
                (grows_weaken _ _ _ registry_call_is_no_job_step
                   (grows_old_resolve E this input)) Hr) as (Hs1 & _ & _).
    change (Script.count is_start []) with 0%nat in Hs1.
    destruct r1 as [payload | e | ].
    + destruct (old_resolve_keeps _ _ _ _ _ _ Hr) as [_ Hkeep].
      specialize (Hkeep Ht).
      unfold bind at 1 in H.
      destruct (Old.prepare E payload h1) as [r2 h2] eqn:Hp.
      apply old_prepare_not_text in Hp as [[e ->] Hc]; [ | now rewrite Hkeep ..].
      inversion H; subst. split; [eauto | lia].
    + inversion H; subst. eauto.
    + now apply old_resolve_returns in Hr.
  - unfold New._call, New.convert in H.
    destruct (credentials_missing E); [inversion H; eauto | ].
    unfold bind at 1 in H.
    destruct (New.resolve E this input []) as [r1 h1] eqn:Hr.
    destruct (quiet_stage_counts _ _ _ _
                (grows_weaken _ _ _ registry_call_is_no_job_step
                   (grows_new_resolve E this input)) Hr) as (Hs1 & _ & _).
    change (Script.count is_start []) with 0%nat in Hs1.
    destruct r1 as [payload | e | ].
    + destruct (new_resolve_keeps _ _ _ _ _ _ Hr) as [_ Hkeep].
      specialize (Hkeep Ht).
      unfold bind at 1 in H.
      destruct (New.prepare E payload h1) as [r2 h2] eqn:Hp.
      apply new_prepare_not_text in Hp as [[e ->] Hc]; [ | now rewrite Hkeep ..].
      inversion H; subst. split; [eauto | lia].
    + inversion H; subst. eauto.
    + now apply new_resolve_returns in Hr.
Qed.

Lemma name_not_text_witness :
  Old._call Fixtures.hosted Fixtures.caller_old 4 (obj [("filename", int 5)]) []
  = (Throw TypeError, [])
  /\ New._call (Script.play Fixtures.upload_new) Fixtures.caller_new 4
       (obj [("filename", int 5)]) []
     = (Throw TypeError,
        [EvFetch (JStr "https://files.example/uploads/u1/scan.docx");
         EvGetFiles (LatestPdfWithPath (JStr "u1"))])
  /\ (exists e, Throw (A := output) TypeError = Throw e)
  /\ Script.count is_start
       [EvFetch (JStr "https://files.example/uploads/u1/scan.docx");
        EvGetFiles (LatestPdfWithPath (JStr "u1"))] = 0%nat.
Proof.
  split; [vm_compute; reflexivity | ].
  split; [vm_compute; reflexivity | ].
  apply (proj2 (name_that_is_not_text_submits_nothing (Script.play Fixtures.upload_new) 4
                  (obj [("filename", int 5)]) eq_refl eq_refl)
           Fixtures.caller_new).
  vm_compute. reflexivity.
Defined.

(** ** Answers with fields missing, in the later revision *)

(** X12: the later revision reads [task.status] and [task.resultUrls[0]]
    without a guard.  A task that is null or undefined, or one that is
    'Completed' with no [resultUrls], ends the loop with a TypeError at the
    head of the iteration, before any further call; so does, one iteration
    later, a status query answered with null.  The older revision, whose test
    reads [task.resultUrl] of a checked task, treats 'Completed' without its
    URL as pending. *)
Theorem later_revision_trips_on_missing_fields (E : env) (fuel : nat) (start : Z)
  (delay : Q) (h : history) :
  (forall task,
      nullish task = true ->
      New.poll E (S fuel) start task delay h = (Throw TypeError, h))
  /\ (forall task,
      is_str (field task "status") "Completed" = true ->
      nullish (field task "resultUrls") = true ->
      New.poll E (S fuel) start task delay h = (Throw TypeError, h))
  /\ (forall task answered,
      new_pending task = true ->
      (New.timeoutMs <? clock E h - start)%Z = false ->
      answer E (EvSetTimeout delay :: EvDateNow :: h)
        (EvGetTaskStatus (field task "taskId")) = Some answered ->
      nullish answered = true ->
      New.poll E (S (S fuel)) start task delay h
      = (Throw TypeError,
         EvGetTaskStatus (field task "taskId") :: EvSetTimeout delay :: EvDateNow :: h))
  /\ (forall task,
      is_str (field task "Status") "Completed" = true ->
      truthy (field task "resultUrl") = false ->
      old_pending task = true).
Proof.
  assert (Hnull : forall task fuel' d h0,
             nullish task = true ->
             New.poll E (S fuel') start task d h0 = (Throw TypeError, h0)).
  { intros task fuel' d h0 Hn. simpl. unfold bind, New.completed. now rewrite Hn. }
  split; [ | split; [ | split]].
  - intros task Hn. now apply Hnull.
  - intros task Hs Hn. simpl. unfold bind, New.completed. rewrite Hs, Hn.
    destruct task; try discriminate Hs; reflexivity.
  - intros task answered Hp Hc Hans Hn.
    rewrite (new_poll_next E _ start task delay h answered Hp Hc Hans).
    now apply Hnull.
  - intros task Hs Hu. unfold old_pending. rewrite Hu, andb_false_r.
    now rewrite (is_str_eq _ _ Hs).
Qed.

Lemma missing_fields_witness :
  New.poll (Script.play Fixtures.silent) 1 0 JNull 1500 [] = (Throw TypeError, [])
  /\ New.poll (Script.play Fixtures.silent) 1 0
       (obj [("taskId", JStr "t1"); ("status", JStr "Completed")]) 1500 []
     = (Throw TypeError, [])
  /\ New.poll
       (Script.play
          {| Script.credentials := (JStr "app", JStr "secret");
             Script.json_texts := [];
             Script.file_by_id := None;
             Script.files := None;
             Script.signed_url := None;
             Script.submitted := None;
             Script.statuses := [JNull];
             Script.afterwards := None;
             Script.readings := fun _ => 0%Z |})
       2 0 Fixtures.queued_new 1500 []
     = (Throw TypeError, [EvGetTaskStatus (JStr "t1"); EvSetTimeout 1500; EvDateNow])
  /\ old_pending Fixtures.bare_completed_old = true.
Proof.
  split; [ | split; [ | split]].
  - apply (proj1 (later_revision_trips_on_missing_fields
                    (Script.play Fixtures.silent) 0 0 1500 [])).
    reflexivity.
  - apply (proj1 (proj2 (later_revision_trips_on_missing_fields
                           (Script.play Fixtures.silent) 0 0 1500 [])));
      reflexivity.
  - apply (proj1 (proj2 (proj2 (later_revision_trips_on_missing_fields _ 0 0 1500 [])))
             Fixtures.queued_new JNull); reflexivity.
  - apply (proj2 (proj2 (proj2 (later_revision_trips_on_missing_fields
                                  (Script.play Fixtures.silent) 0 0 1500 []))));
      reflexivity.
Defined.

(** ** The file name and the locator of a result *)

Lemma substring_whole s : substring 0 (String.length s) s = s.
Proof. induction s as [ | c s IH]; simpl; [reflexivity | now rewrite IH]. Qed.

Lemma substring_split s :
  forall n, (n <= String.length s)%nat ->
  s = (substring 0 n s ++ substring n (String.length s - n) s)%string.
Proof.
  induction s as [ | c s IH]; intros n Hn.
  - destruct n; [reflexivity | simpl in Hn; lia].
  - destruct n as [ | n].
    + simpl. now rewrite substring_whole.
    + simpl. f_equal. apply IH. simpl in Hn. lia.
Qed.

Lemma substring_after p s :
  substring (String.length p) (String.length s) (p ++ s)%string = s.
Proof.
  induction p as [ | c p IH]; simpl.
  - apply substring_whole.
  - exact IH.
Qed.

Lemma length_append p s :
  String.length (p ++ s)%string = (String.length p + String.length s)%nat.
Proof. induction p as [ | c p IH]; simpl; [reflexivity | now rewrite IH]. Qed.

(** [endsWith] is what its name says. *)
Lemma endsWith_iff s suffix :
  endsWith s suffix = true <-> exists stem, s = (stem ++ suffix)%string.
Proof.
  unfold endsWith. split.
  - intros H. apply andb_true_iff in H as [Hle Heq].
    apply Nat.leb_le in Hle. apply String.eqb_eq in Heq.
    exists (substring 0 (String.length s - String.length suffix) s).
    pose proof (substring_split s (String.length s - String.length suffix)
                  ltac:(lia)) as Hsplit.
    replace (String.length s - (String.length s - String.length suffix))%nat
      with (String.length suffix) in Hsplit by lia.
    now rewrite Heq in Hsplit.
  - intros [stem ->]. rewrite length_append. apply andb_true_iff. split.
    + apply Nat.leb_le. lia.
    + replace (String.length stem + String.length suffix - String.length suffix)%nat
        with (String.length stem) by lia.
      rewrite substring_after. apply String.eqb_refl.
Qed.

Lemma filename_claimed_docx v :
  exists stem, filename_claimed v = JStr (stem ++ ".docx")%string.
Proof.
  unfold filename_claimed.
  destruct v as [ | | b | n | s | a props];
    try (exists "converted"; reflexivity).
  destruct (endsWith s ".docx") eqn:Hs.
  - apply endsWith_iff in Hs as [stem ->]. now exists stem.
  - exists "converted". reflexivity.
Qed.

(** X13: the file name of a success result is always a string that ends in
    ".docx", in both revisions: a requested or adopted name that qualifies,
    or "converted.docx". *)
Theorem result_name_ends_in_docx (E : env) (fuel : nat) (input : value) :
  (forall (this : Old.tool) out h,
      Old._call E this fuel input [] = (Ok (Stringified out), h) ->
      exists stem, field out "filename" = JStr (stem ++ ".docx")%string)
  /\ (forall (this : New.tool) out h,
      New._call E this fuel input [] = (Ok (Stringified out), h) ->
      exists stem, field out "filename" = JStr (stem ++ ".docx")%string).
Proof.
  split; intros this out h H.
  - apply old_call_ok in H
      as (payload & h1 & name & task0 & start & h2 & task & h3 & _ & Hp & _ & Hf).
    apply old_prepare_filename in Hp. apply old_finish_ok in Hf as (docx & _ & _ & Ho).
    inversion Ho; subst. apply filename_claimed_docx.
  - apply new_call_ok in H
      as (payload & h1 & name & task0 & start & h2 & task & _ & Hp & _ & Ho).
    apply new_prepare_filename in Hp. inversion Ho; subst.
    apply filename_claimed_docx.
Qed.

Lemma result_name_witness :
  (exists out h,
      Old._call (Script.play Fixtures.upload_old) Fixtures.caller_old 5
        (obj [("filename", JStr "report.docx")]) [] = (Ok (Stringified out), h)
      /\ field out "filename" = JStr "report.docx"
      /\ exists stem, field out "filename" = JStr (stem ++ ".docx")%string)
  /\ (exists out h,
      New._call (Script.play Fixtures.upload_new) Fixtures.caller_new 5
        (JStr "scan.pdf") [] = (Ok (Stringified out), h)
      /\ field out "filename" = JStr "converted.docx"
      /\ exists stem, field out "filename" = JStr (stem ++ ".docx")%string).
Proof.
  split.
  - eexists. eexists. split; [vm_compute; reflexivity | ].
    split; [reflexivity | ].
    eapply (proj1 (result_name_ends_in_docx (Script.play Fixtures.upload_old) 5
                     (obj [("filename", JStr "report.docx")]))
              Fixtures.caller_old).
    vm_compute. reflexivity.
  - eexists. eexists. split; [vm_compute; reflexivity | ].
    split; [reflexivity | ].
    eapply (proj2 (result_name_ends_in_docx (Script.play Fixtures.upload_new) 5
                     (JStr "scan.pdf"))
              Fixtures.caller_new).
    vm_compute. reflexivity.
Defined.

Lemma new_prepare_ends_on_the_clock E payload h name task0 start h2 :
  New.prepare E payload h = (Ok (name, task0, start), h2) ->
  exists before, h2 = EvDateNow :: before.
Proof.
  unfold New.prepare. intros H.
  destruct (negb _ && _); [discriminate | ].
  apply bind_ok in H as (buf & h1 & _ & H).
  apply bind_ok in H as (name' & h1' & _ & H).
  apply bind_ok in H as (json & h3 & _ & H).
  apply bind_ok in H as (task' & h4 & _ & H).
  apply bind_ok in H as (start' & h5 & Hnow & H).
  inversion Hnow; subst. inversion H; subst. eauto.
Qed.

Lemma written_text v : typeof_string v = true -> written v = v.
Proof. destruct v; try discriminate. reflexivity. Qed.

Lemma read_back_old_result name mime bytes :
  field (written (obj [("filename", name); ("mime", JStr mime); ("base64", bytes)]))
    "base64" = written bytes
  /\ field (written (obj [("filename", name); ("mime", JStr mime); ("base64", bytes)]))
       "mime" = JStr mime.
Proof. destruct name, bytes; split; reflexivity. Qed.

Lemma read_back_new_result name locator :
  field (written (obj [("filename", name); ("fileUrl", locator)])) "fileUrl"
  = written locator.
Proof. destruct name, locator; reflexivity. Qed.

(** X14: what a success result carries.  In the older revision the last call
    of a successful run is the download of the [resultUrl] of the latest
    answer of the service, and the text returned, read back as JSON, holds
    under [base64] what [JSON.stringify] writes of the base64 of exactly those
    bytes, under the docx mime type.  In the later revision nothing is
    downloaded: the last call is one of the loop's, the locator is the first
    of the [resultUrls] of the latest answer and is truthy, and the text holds
    under [fileUrl] what [JSON.stringify] writes of it: the locator itself
    when it is a string. *)
Theorem result_carries_the_latest_locator (E : env) (fuel : nat) (input : value) :
  (forall (this : Old.tool) out h,
      Old._call E this fuel input [] = (Ok out, h) ->
      exists body task docx before,
        h = EvFetch (field task "resultUrl") :: before
        /\ last_report E before = Some body
        /\ Old.parseTask E body [] = (Ok task, [])
        /\ answer E before (EvFetch (field task "resultUrl")) = Some docx
        /\ field (read_back out) "base64" = written (Buffer_toString_base64 E docx)
        /\ field (read_back out) "mime"
           = JStr "application/vnd.openxmlformats-officedocument.wordprocessingml.document")
  /\ (forall (this : New.tool) out h,
      New._call E this fuel input [] = (Ok out, h) ->
      exists task e before,
        h = e :: before
        /\ is_loop_call e = true
        /\ last_report E h = Some task
        /\ truthy (field (field task "resultUrls") "0") = true
        /\ field (read_back out) "fileUrl" = written (field (field task "resultUrls") "0")
        /\ (typeof_string (field (field task "resultUrls") "0") = true ->
            field (read_back out) "fileUrl" = field (field task "resultUrls") "0")).
Proof.
  split; intros this [out] h H.
  - apply old_call_ok in H
      as (payload & h1 & name & task0 & start & h2 & task & h3 & _ & Hp & Hl & Hf).
    apply old_finish_ok in Hf as (docx & Hans & -> & Ho). inversion Ho; subst.
    cbn [read_back].
    destruct (read_back_old_result name
                "application/vnd.openxmlformats-officedocument.wordprocessingml.document"
                (Buffer_toString_base64 E docx)) as [Hb Hm].
    apply old_prepare_report in Hp as (body0 & Hrep & Hparse0).
    apply old_poll_ok in Hl
      as [_ [[-> ->] | (id & before & body & -> & Hans' & Hparse)]].
    + exists body0, task0, docx, h2. repeat split; auto.
    + exists body, task, docx, (EvGetTaskStatus id :: before). repeat split; auto.
  - apply new_call_ok in H
      as (payload & h1 & name & task0 & start & h2 & task & _ & Hp & Hl & Ho).
    inversion Ho; subst. cbn [read_back].
    pose proof (read_back_new_result name (field (field task "resultUrls") "0")) as Hw.
    assert (Ht : typeof_string (field (field task "resultUrls") "0") = true ->
                 field (written (obj [("filename", name);
                                      ("fileUrl", field (field task "resultUrls") "0")]))
                   "fileUrl" = field (field task "resultUrls") "0").
    { intros Hs. rewrite Hw. now apply written_text. }
    pose proof (new_prepare_ends_on_the_clock _ _ _ _ _ _ _ Hp) as (before0 & Hh2).
    apply new_prepare_report in Hp.
    apply new_poll_ok in Hl as [[_ Hu] [[-> ->] | (id & before & -> & Hans)]].
    + exists task0, EvDateNow, before0. subst h2. repeat split; auto.
    + exists task, (EvGetTaskStatus id), before. repeat split; auto.
Qed.

Lemma result_locator_witness :
  (exists out h,
      Old._call (Script.play Fixtures.upload_old) Fixtures.caller_old 5 (obj []) []
      = (Ok out, h)
      /\ field (read_back out) "base64"
         = obj [("encoded", obj [("bytes of", JStr "https://ocr.example/result/1")])]
      /\ exists body task docx before,
           h = EvFetch (field task "resultUrl") :: before
           /\ last_report (Script.play Fixtures.upload_old) before = Some body
           /\ Old.parseTask (Script.play Fixtures.upload_old) body [] = (Ok task, [])
           /\ answer (Script.play Fixtures.upload_old) before
                (EvFetch (field task "resultUrl")) = Some docx
           /\ field (read_back out) "base64"
              = written (Buffer_toString_base64 (Script.play Fixtures.upload_old) docx)
           /\ field (read_back out) "mime"
              = JStr "application/vnd.openxmlformats-officedocument.wordprocessingml.document")
  /\ (exists out h,
      New._call (Script.play Fixtures.upload_new) Fixtures.caller_new 5 (obj []) []
      = (Ok out, h)
      /\ field (read_back out) "fileUrl" = JStr "https://ocr.example/result/1"
      /\ exists task e before,
           h = e :: before
           /\ is_loop_call e = true
           /\ last_report (Script.play Fixtures.upload_new) h = Some task
           /\ truthy (field (field task "resultUrls") "0") = true
           /\ field (read_back out) "fileUrl"
              = written (field (field task "resultUrls") "0")
           /\ (typeof_string (field (field task "resultUrls") "0") = true ->
               field (read_back out) "fileUrl" = field (field task "resultUrls") "0"))
  /\ written (obj [("filename", JStr "converted.docx");
                   ("fileUrl", JNum PosInf); ("note", JUndef)])
     = obj [("filename", JStr "converted.docx"); ("fileUrl", JNull)].
Proof.
  split; [ | split; [ | reflexivity]].
  - eexists. eexists. split; [vm_compute; reflexivity | ].
    split; [reflexivity | ].
    eapply (proj1 (result_carries_the_latest_locator
                     (Script.play Fixtures.upload_old) 5 (obj []))
              Fixtures.caller_old).
    vm_compute. reflexivity.
  - eexists. eexists. split; [vm_compute; reflexivity | ].
    split; [reflexivity | ].
    eapply (proj2 (result_carries_the_latest_locator
                     (Script.play Fixtures.upload_new) 5 (obj []))
              Fixtures.caller_new).
    vm_compute. reflexivity.
Defined.

(** ** The signed URL *)

Lemma fresh_answer_defined E h key user : fresh_answer E h key user <> JUndef.
Proof.
  unfold fresh_answer, coalesce.
  destruct (answer E h (EvGetFileURL key user)) as [[ | | | | | ] | ];
    simpl; discriminate.
Qed.

Lemma fresh_call E h key user :
  key <> ""%string ->
  match key with
  | EmptyString => ret JNull
  | _ =>
      bind (attempt E (EvGetFileURL key user))
        (fun fresh => match fresh with
                      | Some freshUrl => ret (coalesce freshUrl JNull)
                      | None => ret JNull
                      end)
  end h
  = (Ok (fresh_answer E h key user), EvGetFileURL key user :: h).
Proof.
  intros Hk. destruct key as [ | c key]; [now elim Hk | ].
  unfold bind, attempt, fresh_answer.
  destruct (answer E h (EvGetFileURL (String c key) user)); reflexivity.
Qed.

Lemma joined_key_not_empty (a b : string) : (a ++ "/" ++ b)%string <> ""%string.
Proof. destruct a; discriminate. Qed.

(** X15: [getFreshSignedURL] never throws and never returns undefined, and
    it returns the answer of the storage strategy whenever there is one.
    Without a configuration on the request, or without a [getFileURL] of the
    strategy, it returns null and calls nothing.  Otherwise it makes exactly
    one call, [getFileURL] for an object key and the caller: the key derived
    from the stored path when there is one and it is not empty, else the
    caller's identifier, a slash and the file name when both are truthy; with
    neither it returns null and calls nothing.  What it returns of the call is
    the answer itself unless the call fails or answers null or undefined,
    which give null. *)
Theorem fresh_url_is_null_or_the_answer
  (E : env) (req path user name : value) (h : history) :
  (exists url h',
      New.getFreshSignedURL E req path user name h = (Ok url, h') /\ url <> JUndef)
  /\ (truthy (opt_field req "config") = false
      \/ strategy_getFileURL E (opt_field req "config") <> Some true ->
      New.getFreshSignedURL E req path user name h = (Ok JNull, h))
  /\ (truthy (opt_field req "config") = true ->
      strategy_getFileURL E (opt_field req "config") = Some true ->
      (forall key,
          New.key_of_path E path user = Some key ->
          key <> ""%string ->
          New.getFreshSignedURL E req path user name h
          = (Ok (fresh_answer E h key user), EvGetFileURL key user :: h))
      /\ (New.key_of_path E path user = None
          \/ New.key_of_path E path user = Some ""%string ->
          (truthy user && truthy name = true ->
           New.getFreshSignedURL E req path user name h
           = (Ok (fresh_answer E h (to_str E user ++ "/" ++ to_str E name) user),
              EvGetFileURL (to_str E user ++ "/" ++ to_str E name) user :: h))
          /\ (truthy user && truthy name = false ->
              New.getFreshSignedURL E req path user name h = (Ok JNull, h))))
  /\ (forall key url,
      answer E h (EvGetFileURL key user) = Some url ->
      nullish url = false ->
      fresh_answer E h key user = url)
  /\ (forall key,
      answer E h (EvGetFileURL key user) = None ->
      fresh_answer E h key user = JNull).
Proof.
  assert (Hoff : truthy (opt_field req "config") = false
                 \/ strategy_getFileURL E (opt_field req "config") <> Some true ->
                 New.getFreshSignedURL E req path user name h = (Ok JNull, h)).
  { intros H. unfold New.getFreshSignedURL.
    destruct (truthy (opt_field req "config")); cbn [negb]; [ | reflexivity].
    destruct H as [H | H]; [discriminate H | ].
    destruct (strategy_getFileURL E (opt_field req "config")) as [[ | ] | ];
      try reflexivity.
    now elim H. }
  assert (Hpath : truthy (opt_field req "config") = true ->
                  strategy_getFileURL E (opt_field req "config") = Some true ->
                  forall key,
                    New.key_of_path E path user = Some key ->
                    key <> ""%string ->
                    New.getFreshSignedURL E req path user name h
                    = (Ok (fresh_answer E h key user), EvGetFileURL key user :: h)).
  { intros Hc Hs key Hk Hne. unfold New.getFreshSignedURL.
    rewrite Hc, Hs, Hk. cbn [negb]. cbv zeta.
    apply String.eqb_neq in Hne. rewrite Hne.
    apply String.eqb_neq in Hne. now apply fresh_call. }
  assert (Hname : truthy (opt_field req "config") = true ->
                  strategy_getFileURL E (opt_field req "config") = Some true ->
                  New.key_of_path E path user = None
                  \/ New.key_of_path E path user = Some ""%string ->
                  (truthy user && truthy name = true ->
                   New.getFreshSignedURL E req path user name h
                   = (Ok (fresh_answer E h (to_str E user ++ "/" ++ to_str E name) user),
                      EvGetFileURL (to_str E user ++ "/" ++ to_str E name) user :: h))
                  /\ (truthy user && truthy name = false ->
                      New.getFreshSignedURL E req path user name h = (Ok JNull, h))).
  { intros Hc Hs Hk.
    assert (Hrun : New.getFreshSignedURL E req path user name h
                   = match (if truthy user && truthy name
                            then Some (to_str E user ++ "/" ++ to_str E name)%string
                            else None) with
                     | None | Some EmptyString => ret JNull
                     | Some key =>
                         bind (attempt E (EvGetFileURL key user))
                           (fun fresh => match fresh with
                                         | Some freshUrl => ret (coalesce freshUrl JNull)
                                         | None => ret JNull
                                         end)
                     end h).
    { unfold New.getFreshSignedURL. rewrite Hc, Hs. cbn [negb]. cbv zeta.
      destruct Hk as [-> | ->]; reflexivity. }
    split; intros Hb; rewrite Hrun, Hb; [ | reflexivity].
    apply (fresh_call E h (to_str E user ++ "/" ++ to_str E name)%string user).
    apply joined_key_not_empty. }
  split; [ | split; [exact Hoff | split; [ | split]]].
  - destruct (truthy (opt_field req "config")) eqn:Hc;
      [ | exists JNull, h; split; [apply Hoff; now left | discriminate]].
    destruct (strategy_getFileURL E (opt_field req "config")) as [[ | ] | ] eqn:Hs;
      try (exists JNull, h; split; [apply Hoff; right; discriminate | discriminate]).
    destruct (New.key_of_path E path user) as [[ | c key] | ] eqn:Hk.
    + destruct (Hname eq_refl eq_refl (or_intror eq_refl)) as [Hyes Hno].
      destruct (truthy user && truthy name).
      * eexists. eexists. split; [apply Hyes; reflexivity | apply fresh_answer_defined].
      * exists JNull, h. split; [apply Hno; reflexivity | discriminate].
    + eexists. eexists.
      split; [apply (Hpath eq_refl eq_refl (String c key) eq_refl); discriminate
             | apply fresh_answer_defined].
    + destruct (Hname eq_refl eq_refl (or_introl eq_refl)) as [Hyes Hno].
      destruct (truthy user && truthy name).
      * eexists. eexists. split; [apply Hyes; reflexivity | apply fresh_answer_defined].
      * exists JNull, h. split; [apply Hno; reflexivity | discriminate].
  - intros Hc Hs. split; [now apply Hpath | now apply Hname].
  - intros key url Hans Hn. unfold fresh_answer, coalesce. now rewrite Hans, Hn.
  - intros key Hans. unfold fresh_answer. now rewrite Hans.
Qed.

Lemma fresh_url_witness :
  New.key_of_path Fixtures.url_reading
    (JStr "https://files.example/uploads/u1/scan.pdf") (JStr "u1") = Some "scan.pdf"%string
  /\ New.getFreshSignedURL Fixtures.url_reading (New.req Fixtures.configured_new)
       (JStr "https://files.example/uploads/u1/scan.pdf") (JStr "u1") (JStr "scan.pdf") []
     = (Ok (JStr "https://files.example/signed/scan.pdf?sig=1"),
        [EvGetFileURL "scan.pdf" (JStr "u1")])
  /\ New.getFreshSignedURL Fixtures.url_reading (New.req Fixtures.configured_new)
       (JStr "https://cdn.example/files/scan.pdf") (JStr "u1") (JStr "scan.pdf") []
     = (Ok (JStr "https://files.example/signed/scan.pdf?sig=1"),
        [EvGetFileURL "u1/scan.pdf" (JStr "u1")])
  /\ New.getFreshSignedURL Fixtures.url_reading (New.req Fixtures.configured_new)
       (JStr "https://cdn.example/files/scan.pdf") (JStr "u1") JUndef []
     = (Ok JNull, [])
  /\ New.getFreshSignedURL Fixtures.url_reading JUndef
       (JStr "https://files.example/uploads/u1/scan.pdf") (JStr "u1") (JStr "scan.pdf") []
     = (Ok JNull, []).
Proof.
  split; [reflexivity | ].
  split.
  { rewrite (proj1 (proj1 (proj2 (proj2 (fresh_url_is_null_or_the_answer
               Fixtures.url_reading (New.req Fixtures.configured_new)
               (JStr "https://files.example/uploads/u1/scan.pdf") (JStr "u1")
               (JStr "scan.pdf") []))) eq_refl eq_refl) "scan.pdf"%string eq_refl);
      [ | discriminate].
    rewrite (proj1 (proj2 (proj2 (proj2 (fresh_url_is_null_or_the_answer
               Fixtures.url_reading (New.req Fixtures.configured_new)
               (JStr "https://files.example/uploads/u1/scan.pdf") (JStr "u1")
               (JStr "scan.pdf") []))))
               "scan.pdf"%string (JStr "https://files.example/signed/scan.pdf?sig=1")
               eq_refl eq_refl).
    reflexivity. }
  split.
  { rewrite (proj1 (proj2 (proj1 (proj2 (proj2 (fresh_url_is_null_or_the_answer
               Fixtures.url_reading (New.req Fixtures.configured_new)
               (JStr "https://cdn.example/files/scan.pdf") (JStr "u1")
               (JStr "scan.pdf") []))) eq_refl eq_refl) (or_introl eq_refl)) eq_refl).
    reflexivity. }
  split.
  { apply (proj2 (proj2 (proj1 (proj2 (proj2 (fresh_url_is_null_or_the_answer
               Fixtures.url_reading (New.req Fixtures.configured_new)
               (JStr "https://cdn.example/files/scan.pdf") (JStr "u1")
               JUndef []))) eq_refl eq_refl) (or_introl eq_refl))).
    reflexivity. }
  apply (proj1 (proj2 (fresh_url_is_null_or_the_answer
           Fixtures.url_reading JUndef
           (JStr "https://files.example/uploads/u1/scan.pdf") (JStr "u1")
           (JStr "scan.pdf") []))).
  left. reflexivity.
Defined.

(** ** The object key *)

Lemma length_substring s :
  forall n m, String.length (substring n m s) = Nat.min m (String.length s - n).
Proof.
  induction s as [ | c s IH]; intros n m.
  - destruct n, m; reflexivity.
  - destruct n as [ | n].
    + destruct m as [ | m]; [reflexivity | ]. simpl. now rewrite IH, Nat.sub_0_r.
    + simpl. apply IH.
Qed.

Lemma substring_split3 s :
  forall i m, (i + m <= String.length s)%nat ->
  s = (substring 0 i s ++ substring i m s
       ++ substring (i + m) (String.length s - (i + m)) s)%string.
Proof.
  induction s as [ | c s IH]; intros i m H.
  - simpl in H. assert (i = 0%nat) as -> by lia. assert (m = 0%nat) as -> by lia.
    reflexivity.
  - destruct i as [ | i].
    + change (String c s
              = (substring 0 m (String c s)
                 ++ substring m (String.length (String c s) - m) (String c s))%string).
      now apply substring_split.
    + simpl. f_equal. apply IH. simpl in H. lia.
Qed.

(** X16: the object key that [getFreshSignedURL] derives from a stored path is
    exactly what follows the first [/uploads/<userId>/] in the path of the
    URL: the path is some prefix, then the marker, then the key, and the
    marker does not occur earlier. *)
Theorem object_key_follows_the_marker (E : env) (path user : value) (key : string) :
  New.key_of_path E path user = Some key ->
  exists pathname before,
    URL_pathname E path = Some pathname
    /\ pathname = (before ++ ("/uploads/" ++ to_str E user ++ "/") ++ key)%string
    /\ forall p, (p < String.length before)%nat ->
         substring p (String.length ("/uploads/" ++ to_str E user ++ "/")) pathname
         <> ("/uploads/" ++ to_str E user ++ "/")%string.
Proof.
  unfold New.key_of_path, indexOf.
  destruct (truthy path); [ | discriminate].
  destruct (URL_pathname E path) as [pathname | ]; [ | discriminate].
  set (marker := ("/uploads/" ++ to_str E user ++ "/")%string).
  destruct (index 0 marker pathname) as [idx | ] eqn:Hidx; [ | discriminate].
  intros H. inversion H; subst key. clear H.
  pose proof (index_correct1 _ _ _ _ Hidx) as Hat.
  pose proof (index_correct2 _ _ _ _ Hidx) as Hfirst.
  assert (Hlen : (idx + String.length marker <= String.length pathname)%nat).
  { pose proof (length_substring pathname idx (String.length marker)) as Hl.
    rewrite Hat in Hl.
    assert (0 < String.length marker)%nat by (unfold marker; simpl; lia).
    lia. }
  exists pathname, (substring 0 idx pathname).
  split; [reflexivity | ]. split.
  - unfold substring_from.
    pose proof (substring_split3 pathname idx (String.length marker) Hlen) as Hs.
    now rewrite Hat in Hs.
  - intros p Hp. rewrite length_substring in Hp.
    apply Hfirst; lia.
Qed.

Lemma object_key_witness :
  New.key_of_path Fixtures.url_reading
    (JStr "https://files.example/bucket/uploads/u1/2026/scan.pdf") (JStr "u1") = Some "2026/scan.pdf"
  /\ exists pathname before,
       URL_pathname Fixtures.url_reading (JStr "https://files.example/bucket/uploads/u1/2026/scan.pdf")
       = Some pathname
       /\ pathname
          = (before ++ ("/uploads/" ++ to_str Fixtures.url_reading (JStr "u1") ++ "/")
               ++ "2026/scan.pdf")%string
       /\ forall p, (p < String.length before)%nat ->
            substring p
              (String.length ("/uploads/" ++ to_str Fixtures.url_reading (JStr "u1") ++ "/"))
              pathname
            <> ("/uploads/" ++ to_str Fixtures.url_reading (JStr "u1") ++ "/")%string.
Proof.
  split; [reflexivity | ].
  apply (object_key_follows_the_marker Fixtures.url_reading
           (JStr "https://files.example/bucket/uploads/u1/2026/scan.pdf") (JStr "u1") "2026/scan.pdf").
  reflexivity.
Defined.

(** ** The bytes that are submitted *)

Lemma old_after_bytes E payload buffer :
  grows (submits_bytes (Some buffer))
    (filename <- output_filename payload ;;
     startXml <- Old.startProcess E buffer
                   (or_else (field payload "language") (JStr "eng")) "docx" ;;
     task <- Old.parseTask E startXml ;;
     start <- Date_now E ;;
     ret (filename, task, start)).
Proof.
  apply grows_bind; [apply grows_output_filename | intros name].
  apply grows_bind; [apply grows_call; reflexivity | intros body].
  apply grows_bind; [ | intros task].
  - unfold Old.parseTask. grows_cases.
  - apply grows_bind; [apply grows_Date_now; exact I | intros start].
    apply grows_ret.
Qed.

Lemma new_after_bytes E payload buffer :
  grows (submits_bytes (Some buffer))
    (filename <- output_filename payload ;;
     startJSON <- New.startProcess E buffer
                    (or_else (field payload "language") (JStr "English,Vietnamese"))
                    "docx" ;;
     task <- New.parseTask startJSON ;;
     start <- Date_now E ;;
     ret (filename, task, start)).
Proof.
  apply grows_bind; [apply grows_output_filename | intros name].
  apply grows_bind; [apply grows_call; reflexivity | intros body].
  apply grows_bind; [ | intros task].
  - unfold New.parseTask. grows_cases.
  - apply grows_bind; [apply grows_Date_now; exact I | intros start].
    apply grows_ret.
Qed.

Lemma after_download E (e : event) {A} (k : value -> M A) h r h' :
  (forall buffer, grows (submits_bytes (Some buffer)) (k buffer)) ->
  bind (call E e) k h = (r, h') ->
  exists l, h' = l ++ e :: h /\ Forall (submits_bytes (answer E h e)) l.
Proof.
  intros Hk H. unfold bind, call in H.
  destruct (answer E h e) as [buffer | ].
  - destruct (Hk buffer _ _ _ H) as (l & -> & Hl). now exists l.
  - inversion H; subst. exists []. split; [reflexivity | constructor].
Qed.

(** X18: which bytes a run submits.  Inline base64 comes first: with it, the
    stage between the validation and the loop downloads and reads nothing,
    whatever else the payload names, and submits the decoded bytes or, when
    the decoding throws, nothing.  Without it a URL comes before a path: the
    first call is the download of [fileUrl], the file of [filePath] is never
    read, and what is submitted is what the download answered.  Only without
    both does the older revision read the file, and submit what it read. *)
Theorem submitted_bytes_are_the_resolved_ones (E : env) (payload : value) :
  (truthy (field payload "base64") = true ->
     grows (submits_bytes (Buffer_from_base64 E (field payload "base64")))
       (Old.prepare E payload)
     /\ grows (submits_bytes (Buffer_from_base64 E (field payload "base64")))
          (New.prepare E payload))
  /\ (truthy (field payload "base64") = false ->
      truthy (field payload "fileUrl") = true ->
      forall h,
        (forall r h', Old.prepare E payload h = (r, h') ->
           exists l, h' = l ++ EvFetch (field payload "fileUrl") :: h
             /\ Forall (submits_bytes (answer E h (EvFetch (field payload "fileUrl")))) l)
        /\ (forall r h', New.prepare E payload h = (r, h') ->
           exists l, h' = l ++ EvFetch (field payload "fileUrl") :: h
             /\ Forall (submits_bytes (answer E h (EvFetch (field payload "fileUrl")))) l))
  /\ (truthy (field payload "base64") = false ->
      truthy (field payload "fileUrl") = false ->
      truthy (field payload "filePath") = true ->
      forall h r h', Old.prepare E payload h = (r, h') ->
        exists l, h' = l ++ EvReadFile (field payload "filePath") :: h
          /\ Forall (submits_bytes (answer E h (EvReadFile (field payload "filePath")))) l).
Proof.
  split; [ | split].
  - intros Hb. split.
    + unfold Old.prepare, Old.resolvePdfBytes. rewrite Hb. cbn [negb andb].
      destruct (Buffer_from_base64 E (field payload "base64")) as [buffer | ].
      * intros h r h' H. rewrite (bind_step (ret buffer) _ h buffer h eq_refl) in H.
        exact (old_after_bytes E payload buffer _ _ _ H).
      * intros h r h' H. cbv [bind throw] in H.
        inversion H; subst. exists []. split; [reflexivity | constructor].
    + unfold New.prepare, New.resolvePdfBytes. rewrite Hb. cbn [negb andb].
      destruct (Buffer_from_base64 E (field payload "base64")) as [buffer | ].
      * intros h r h' H. rewrite (bind_step (ret buffer) _ h buffer h eq_refl) in H.
        exact (new_after_bytes E payload buffer _ _ _ H).
      * intros h r h' H. cbv [bind throw] in H.
        inversion H; subst. exists []. split; [reflexivity | constructor].
  - intros Hb Hu h. split; intros r h' H.
    + unfold Old.prepare, Old.resolvePdfBytes in H. rewrite Hb, Hu in H.
      cbn [negb andb] in H.
      apply after_download in H; [exact H | ].
      intros buffer. apply old_after_bytes.
    + unfold New.prepare, New.resolvePdfBytes in H. rewrite Hb, Hu in H.
      cbn [negb andb] in H.
      apply after_download in H; [exact H | ].
      intros buffer. apply new_after_bytes.
  - intros Hb Hu Hp h r h' H.
    unfold Old.prepare, Old.resolvePdfBytes in H. rewrite Hb, Hu, Hp in H.
    cbn [negb andb] in H.
    apply after_download in H; [exact H | ].
    intros buffer. apply old_after_bytes.
Qed.

Lemma submitted_bytes_witness :
  (exists l,
      snd (Old.prepare (Script.play Fixtures.mocked_old) Fixtures.twice_located [])
      = l ++ [EvFetch (JStr "https://files/in.pdf")]
      /\ Forall (submits_bytes
                   (Some (obj [("bytes of", JStr "https://files/in.pdf")]))) l)
  /\ (exists l,
      snd (Old.prepare (Script.play Fixtures.mocked_old) Fixtures.path_only [])
      = l ++ [EvReadFile (JStr "/data/in.pdf")]
      /\ Forall (submits_bytes (Some (obj [("bytes of", JStr "/data/in.pdf")]))) l)
  /\ grows (submits_bytes (Some (obj [("decoded", JStr "JVBERi0xLjQK")])))
       (New.prepare (Script.play Fixtures.mocked_new) Fixtures.inline_pdf).
Proof.
  split; [ | split].
  - apply (proj1 (proj1 (proj2 (submitted_bytes_are_the_resolved_ones
                                  (Script.play Fixtures.mocked_old)
                                  Fixtures.twice_located))
                    eq_refl eq_refl [])
             (fst (Old.prepare (Script.play Fixtures.mocked_old)
                     Fixtures.twice_located []))).
    apply surjective_pairing.
  - apply (proj2 (proj2 (submitted_bytes_are_the_resolved_ones
                           (Script.play Fixtures.mocked_old) Fixtures.path_only))
             eq_refl eq_refl eq_refl []
             (fst (Old.prepare (Script.play Fixtures.mocked_old)
                     Fixtures.path_only []))).
    apply surjective_pairing.
  - apply (proj1 (submitted_bytes_are_the_resolved_ones
                    (Script.play Fixtures.mocked_new) Fixtures.inline_pdf)).
    reflexivity.
Defined.

(** ** The caller of a constructed tool *)

Lemma old_anonymous_run E this fuel input r h :
  truthy (Old.userId this) = false ->
  truthy (field (normalize E input) "file_id") = false ->
  Old._call E this fuel input [] = (r, h) ->
  Forall (fun e => is_registry_call e = false) h
  /\ (credentials_missing E = false ->
      Old.hasSource (normalize E input) = false ->
      r = Throw NoInput /\ h = []).
Proof.
  intros Hu Hid H. split.
  - unfold Old._call in H.
    destruct (credentials_missing E); [inversion H; constructor | ].
    rewrite (bind_step _ _ _ _ _ (old_resolve_anonymous E this input [] Hu Hid)) in H.
    apply (grown_from_nothing _ _ _ _
             (grows_old_convert E (fun e => is_registry_call e = false) fuel
                (normalize E input)
                ltac:(reflexivity) ltac:(reflexivity) ltac:(reflexivity)
                eq_refl ltac:(reflexivity) ltac:(reflexivity)) H).
  - intros Hc Hs.
    rewrite (old_call_without_source E this fuel input [] Hc
               (old_resolve_anonymous E this input [] Hu Hid) Hs) in H.
    inversion H. now split.
Qed.

Lemma new_anonymous_run E this fuel input r h :
  truthy (New.userId this) = false ->
  New._call E this fuel input [] = (r, h) ->
  Forall (fun e => is_registry_call e = false) h
  /\ (credentials_missing E = false ->
      truthy (field (normalize E input) "base64") = false ->
      truthy (field (normalize E input) "fileUrl") = false ->
      r = Throw NoInput /\ h = []).
Proof.
  intros Hu H. split.
  - unfold New._call in H.
    destruct (credentials_missing E); [inversion H; constructor | ].
    rewrite (bind_step _ _ _ _ _ (new_resolve_anonymous E this input [] Hu)) in H.
    apply (grown_from_nothing _ _ _ _
             (grows_new_convert E (fun e => is_registry_call e = false) fuel
                (normalize E input)
                ltac:(reflexivity) ltac:(reflexivity)
                eq_refl ltac:(reflexivity) ltac:(reflexivity)) H).
  - intros Hc Hb Hf.
    rewrite (new_call_without_source E this fuel input [] Hc
               (new_resolve_anonymous E this input [] Hu) Hb Hf) in H.
    inversion H. now split.
Qed.

(** X19: the two revisions take the caller from different fields of the
    constructor's argument.  The later revision reads [fields.req?.user?.id]
    only: built from fields without [req], whatever their [userId], the tool
    knows no caller, so no run of it asks the registry or the storage, and a
    request without base64 or fileUrl ends with 'No input provided' before
    any call.  The older revision reads [fields.userId] only: built from
    fields without it, whatever their [req], a run without a file identifier
    behaves the same way.  Either constructor throws on null alone. *)
Theorem caller_comes_from_the_constructor (E : env) (fuel : nat) (input fields : value) :
  (nullish (field fields "req") = true ->
   forall this r h,
     New.constructor fields = Ok this ->
     New._call E this fuel input [] = (r, h) ->
     Forall (fun e => is_registry_call e = false) h
     /\ (credentials_missing E = false ->
         truthy (field (normalize E input) "base64") = false ->
         truthy (field (normalize E input) "fileUrl") = false ->
         r = Throw NoInput /\ h = []))
  /\ (truthy (field fields "userId") = false ->
      truthy (field (normalize E input) "file_id") = false ->
      forall this r h,
        Old.constructor fields = Ok this ->
        Old._call E this fuel input [] = (r, h) ->
        Forall (fun e => is_registry_call e = false) h
        /\ (credentials_missing E = false ->
            Old.hasSource (normalize E input) = false ->
            r = Throw NoInput /\ h = []))
  /\ (fields <> JNull ->
      (exists this, Old.constructor fields = Ok this)
      /\ (exists this, New.constructor fields = Ok this)).
Proof.
  split; [ | split].
  - intros Hreq this r h Hc H.
    apply (new_anonymous_run E this fuel input r h); [ | exact H].
    assert (Hu : New.userId this
                 = opt_field (opt_field (field fields "req") "user") "id").
    { unfold New.constructor in Hc. destruct fields; inversion Hc; reflexivity. }
    rewrite Hu. destruct (field fields "req"); try discriminate Hreq; reflexivity.
  - intros Hid Hfile this r h Hc H.
    apply (old_anonymous_run E this fuel input r h); [ | exact Hfile | exact H].
    assert (Hu : Old.userId this = field fields "userId").
    { unfold Old.constructor in Hc. destruct fields; inversion Hc; reflexivity. }
    now rewrite Hu.
  - intros Hn. unfold Old.constructor, New.constructor.
    destruct fields; try (now elim Hn); split; eexists; reflexivity.
Qed.

Lemma caller_witness :
  (exists this,
      New.constructor Fixtures.fields_by_identifier = Ok this
      /\ New._call Fixtures.hosted this 4 (JStr "march.pdf") [] = (Throw NoInput, []))
  /\ (exists this,
      Old.constructor Fixtures.fields_by_request = Ok this
      /\ Old._call Fixtures.hosted this 4 (JStr "march.pdf") [] = (Throw NoInput, []))
  /\ (exists this, Old.constructor Fixtures.fields_by_identifier = Ok this)
  /\ snd (Old._call Fixtures.hosted Fixtures.caller_old 4 (JStr "march.pdf") [])
     = [EvFetch (JStr "https://files.example/uploads/u1/march.pdf");
        EvGetFiles (LatestPdf (JStr "u1") (Some ("march.pdf", "march\.pdf")%string))].
Proof.
  split; [ | split].
  - eexists. split; [reflexivity | ].
    destruct (proj1 (caller_comes_from_the_constructor Fixtures.hosted 4
                       (JStr "march.pdf") Fixtures.fields_by_identifier)
                eq_refl _ _ _ eq_refl (surjective_pairing _)) as [_ Hend].
    destruct (Hend eq_refl eq_refl eq_refl) as [Hr Hh].
    rewrite (surjective_pairing (New._call _ _ _ _ _)), Hr, Hh. reflexivity.
  - eexists. split; [reflexivity | ].
    destruct (proj1 (proj2 (caller_comes_from_the_constructor Fixtures.hosted 4
                       (JStr "march.pdf") Fixtures.fields_by_request))
                eq_refl eq_refl _ _ _ eq_refl (surjective_pairing _)) as [_ Hend].
    destruct (Hend eq_refl eq_refl) as [Hr Hh].
    rewrite (surjective_pairing (Old._call _ _ _ _ _)), Hr, Hh. reflexivity.
  - split; [ | vm_compute; reflexivity].
    apply (proj2 (proj2 (caller_comes_from_the_constructor Fixtures.hosted 4
                           (JStr "march.pdf") Fixtures.fields_by_identifier))).
    discriminate.
Defined.

(** ** The escaped name hint *)

Lemma backslash_is_special : regexp_special "\"%char = true.
Proof. reflexivity. Qed.

Lemma escapeRegExp_literal s : literal_of (escapeRegExp s) = s.
Proof.
  induction s as [ | c rest IH]; [reflexivity | ].
  cbn [escapeRegExp]. destruct (regexp_special c) eqn:Hc.
  - cbn [literal_of]. now rewrite IH.
  - assert (Hne : c <> "\"%char).
    { intros ->. rewrite backslash_is_special in Hc. discriminate. }
    destruct c as [[ | ] [ | ] [ | ] [ | ] [ | ] [ | ] [ | ] [ | ]];
      try (now elim Hne); cbn [literal_of]; now rewrite IH.
Qed.

(** X20: the name hint as a pattern.  The older revision turns the requested
    file name into the source of a regular expression by putting a backslash
    before each special character.  The source reads back, escape by escape,
    as the name itself, so two names never share a pattern; a name without a
    special character is its own pattern; and the pattern is longer than
    the name by the number of special characters in it. *)
Theorem escaped_hint_is_the_literal_name (s : string) :
  literal_of (escapeRegExp s) = s
  /\ (forall s', escapeRegExp s = escapeRegExp s' -> s = s')
  /\ (plain s = true -> escapeRegExp s = s)
  /\ String.length (escapeRegExp s) = (String.length s + specials s)%nat.
Proof.
  split; [apply escapeRegExp_literal | split; [ | split]].
  - intros s' H.
    rewrite <- (escapeRegExp_literal s), <- (escapeRegExp_literal s'). now rewrite H.
  - induction s as [ | c rest IH]; [reflexivity | ].
    cbn [plain escapeRegExp]. intros H. apply andb_prop in H as [Hc Hr].
    apply negb_true_iff in Hc. rewrite Hc. now rewrite IH.
  - induction s as [ | c rest IH]; [reflexivity | ].
    cbn [escapeRegExp specials]. destruct (regexp_special c);
      cbn [String.length]; rewrite IH; lia.
Qed.

Lemma escaped_hint_witness :
  escapeRegExp "scan (1).pdf" = "scan \(1\)\.pdf"%string
  /\ literal_of "scan \(1\)\.pdf" = "scan (1).pdf"%string
  /\ escapeRegExp "march" = "march"%string.
Proof.
  split; [reflexivity | split].
  - apply (proj1 (escaped_hint_is_the_literal_name "scan (1).pdf")).
  - apply (proj1 (proj2 (proj2 (escaped_hint_is_the_literal_name "march")))).
    reflexivity.
Defined.
